(** * Gravity: subnet validation and the update [init] phase

    A shallow embedding of three Go files of the repository:

    - [lib/validate/net.go]          ([KubernetesSubnets]),
    - the [validate] cluster-configuration check ([ClusterConfiguration]),
    - the [phases] update-init executor ([updatePhaseInit] and
      [updatePhaseInitServer]).

    Go values of type [error] are [option error] ([None] is [nil]).
    Calls to collaborators (backend, package services, users service,
    operating system) are nodes of a program tree [Prog]; a handler gives
    every call its response and threads the collaborators' state, and
    [run] records the calls made with their responses.  Calls to the
    logger are left out: they touch no state the executors read. *)

From stdpp Require Import gmap strings list.
From Stdlib Require Import ZArith Ascii DecimalString Sorted.

Open Scope Z_scope.

(** ** The [trace] error library *)

Module trace.

(** The classes of error the code tells apart. *)
Inductive ErrKind : Type :=
| AlreadyExists
| NotFound
| BadParameter
| OsNotExist
| Other.

#[export] Instance ErrKind_eq_dec : EqDecision ErrKind.
Proof. solve_decision. Defined.

(** An error value: a classified error, an error wrapped by [trace.Wrap]
    together with the message given to it, or an aggregate. *)
#[warnings="-register-all"]
Inductive error : Type :=
| New (kind : ErrKind) (msg : string)
| Wrapped (inner : error) (msg : string)
| Aggregate (errs : list error).

(** [trace.Wrap(err, msg)] for a non-nil [err]. *)
Definition Wrap (err : error) (msg : string) : error := Wrapped err msg.

(** [trace.Unwrap]: the error below all the wrappers. *)
Fixpoint Unwrap (err : error) : error :=
  match err with
  | Wrapped inner _ => Unwrap inner
  | _ => err
  end.

Definition kindOf (err : error) : option ErrKind :=
  match Unwrap err with
  | New k _ => Some k
  | _ => None
  end.

Definition isKind (k : ErrKind) (err : option error) : bool :=
  match err with
  | Some e => bool_decide (kindOf e = Some k)
  | None => false
  end.

(** [os.IsNotExist]. *)
Definition os_IsNotExist (err : option error) : bool := isKind OsNotExist err.

(** [trace.IsAlreadyExists]: an already-exists error of [trace] below the
    wrappers; false on nil. *)
Definition IsAlreadyExists (err : option error) : bool := isKind AlreadyExists err.

(** [trace.IsNotFound]: a not-found error of [trace] below the wrappers
    or, when the error below the wrappers is not one of [trace], one that
    [os.IsNotExist] recognises; false on nil. *)
Definition IsNotFound (err : option error) : bool :=
  isKind NotFound err || os_IsNotExist err.

(** [trace.BadParameter(format, args...)]: the message is kept as built
    by the caller. *)
Definition BadParameterf (msg : string) : error := New BadParameter msg.

(** [trace.NewAggregate(errs...)]: nil when there is no error to report. *)
Definition NewAggregate (errs : list error) : option error :=
  match errs with
  | [] => None
  | _ :: _ => Some (Aggregate errs)
  end.

End trace.

Import trace.

(** ** Package [net] of the Go library

    The data is Go's ([IP] and [IPMask] are byte slices); the three
    functions the validator calls are taken as an interface. *)

Definition IP : Type := list Z.
Definition IPMask : Type := list Z.

Record IPNet : Type := mkIPNet { NetIP : IP; Mask : IPMask }.

Class NetLib : Type := {
  (** [net.ParseCIDR]: the network of a CIDR string; [None] on error. *)
  ParseCIDR : string -> option IPNet;
  (** [IPMask.Size]: number of leading ones and of bits. *)
  MaskSize : IPMask -> Z * Z;
  (** [IPNet.Contains] (pointer receiver). *)
  Contains : IPNet -> IP -> bool
}.

(** ** Package [validate] *)

(** [clusterconfig.Global]: the four fields the validator reads, and the
    remaining ones as one component of a type the validator never opens. *)
Record Global {R : Type} : Type := mkGlobal {
  CloudProvider : string;
  CloudConfig : string;
  PodCIDR : string;
  ServiceCIDR : string;
  GlobalRest : R
}.
Arguments Global R : clear implicits.

(** [clusterconfig.Interface], as far as the validator uses it. *)
Class Interface (R T : Type) : Type := {
  GetGlobalConfig : T -> Global R
}.

Definition isCloudConfigEmpty {R} (global : Global R) : bool :=
  String.eqb (CloudProvider global) "" && String.eqb (CloudConfig global) "".

Section Validate.

Context {net : NetLib}.

Definition nonEmpty (s : string) : bool := negb (String.eqb s "").

(** [KubernetesSubnets] of [lib/validate/net.go]. *)
Definition KubernetesSubnets (podCIDR serviceCIDR : string) : option error :=
  (* make sure the pod subnet is valid *)
  let podStep : option IPNet + error :=
    if nonEmpty podCIDR then
      match ParseCIDR podCIDR with
      | None => inr (BadParameterf ("invalid pod subnet: " ++ podCIDR))
      | Some podNet =>
          let '(ones, _) := MaskSize (Mask podNet) in
          if 16 <? ones
          then inr (BadParameterf ("pod subnet should be a minimum of /16: " ++ podCIDR))
          else inl (Some podNet)
      end
    else inl None in
  match podStep with
  | inr err => Some err
  | inl podNet =>
      (* make sure the service subnet is valid *)
      let serviceStep : option IPNet + error :=
        if nonEmpty serviceCIDR then
          match ParseCIDR serviceCIDR with
          | None => inr (BadParameterf ("invalid service subnet: " ++ serviceCIDR))
          | Some serviceNet => inl (Some serviceNet)
          end
        else inl None in
      match serviceStep with
      | inr err => Some err
      | inl serviceNet =>
          (* make sure the subnets do not overlap *)
          match podNet, serviceNet with
          | Some pn, Some sn =>
              if Contains pn (NetIP sn) || Contains sn (NetIP pn)
              then Some (BadParameterf
                           ("pod subnet " ++ podCIDR ++ " and service subnet "
                            ++ serviceCIDR ++ " should not overlap"))
              else None
          | _, _ => None
          end
      end
  end.

Section ClusterConfig.

Context {R : Type}.
(** [clusterconfig.Global.IsEmpty], declared outside the files at hand. *)
Variable Global_IsEmpty : Global R -> bool.
Context {E U : Type} `{!Interface R E} `{!Interface R U}.

(** [ClusterConfiguration] validates that [update] can update [existing]. *)
Definition ClusterConfiguration (existing : E) (update : U) : option error :=
  let newGlobalConfig := GetGlobalConfig update in
  if negb (isCloudConfigEmpty newGlobalConfig)
     && nonEmpty (CloudConfig newGlobalConfig)
     && String.eqb (CloudProvider newGlobalConfig) ""
  then Some (BadParameterf "cloud provider is required when updating cloud configuration")
  else
  let newGlobalConfig := GetGlobalConfig update in
  if Global_IsEmpty newGlobalConfig
  then Some (BadParameterf "provided cluster configuration is empty")
  else
  let globalConfig := GetGlobalConfig existing in
  if isCloudConfigEmpty globalConfig
     && negb (isCloudConfigEmpty (GetGlobalConfig update))
  then Some (BadParameterf
    "cannot change cloud configuration: cluster does not have cloud provider configured")
  else
  if nonEmpty (CloudProvider newGlobalConfig)
     && negb (String.eqb (CloudProvider globalConfig) (CloudProvider newGlobalConfig))
  then Some (BadParameterf "changing cloud provider is not supported")
  else
  if String.eqb (CloudProvider globalConfig) ""
     && nonEmpty (CloudConfig newGlobalConfig)
  then Some (BadParameterf
    "cannot set cloud configuration: cluster does not have cloud provider configured")
  else
  if String.eqb (PodCIDR newGlobalConfig) (PodCIDR globalConfig)
  then Some (BadParameterf "specified pod subnet is the same as existing pod subnet")
  else
  if String.eqb (ServiceCIDR newGlobalConfig) (ServiceCIDR globalConfig)
  then Some (BadParameterf "specified service subnet is the same as existing service subnet")
  else
  let podCheck : option error :=
    if nonEmpty (PodCIDR newGlobalConfig) then
      let serviceCIDR :=
        if String.eqb (ServiceCIDR newGlobalConfig) ""
        then ServiceCIDR globalConfig
        else ServiceCIDR newGlobalConfig in
      match KubernetesSubnets (PodCIDR newGlobalConfig) serviceCIDR with
      | Some err => Some (Wrap err "")
      | None => None
      end
    else None in
  match podCheck with
  | Some err => Some err
  | None =>
      if nonEmpty (ServiceCIDR newGlobalConfig) then
        let podCIDR :=
          if String.eqb (PodCIDR newGlobalConfig) ""
          then PodCIDR globalConfig
          else PodCIDR newGlobalConfig in
        match KubernetesSubnets podCIDR (ServiceCIDR newGlobalConfig) with
        | Some err => Some (Wrap err "")
        | None => None
        end
      else None
  end.

End ClusterConfig.

End Validate.

(** ** Package [phases]: data

    [loc.Locator] names a package. *)

Record Locator : Type := mkLocator {
  Repository : string;
  Name : string;
  Version : string
}.

(** The zero value of [loc.Locator]. *)
Definition zeroLocator : Locator := mkLocator "" "" "".

(** Label sets are Go maps from string to string. *)
Abbreviation Labels := (gmap string string).

(** [pack.LabelUpdate]. *)
Record LabelUpdate : Type := mkLabelUpdate {
  LU_Locator : Locator;
  LU_Add : Labels;
  LU_Remove : list string
}.

(** [storage.OSUser], the service user stored in the cluster record. *)
Record OSUser : Type := mkOSUser {
  OSUser_Name : string;
  OSUser_UID : string;
  OSUser_GID : string
}.

(** The user that [install.GetOrCreateServiceUser] returns. *)
Record SysUser : Type := mkSysUser {
  SysUser_Name : string;
  SysUser_UID : Z;
  SysUser_GID : Z
}.

(** [storage.UserSpecV2], with the two fields the phase sets. *)
Record UserSpecV2 : Type := mkUserSpecV2 {
  Spec_AccountID : string;
  Spec_ClusterName : string
}.

(** [os.FileInfo], as far as the phase looks at it. *)
Record FileInfo : Type := mkFileInfo { IsDir : bool }.

(** The two package services an executor holds. *)
Inductive PackageService : Type := ClusterPackages | LocalPackages.

(** [strconv.Itoa]. *)
Definition Itoa (n : Z) : string := NilZero.string_of_int (Z.to_int n).

(** Modelled from the spec: [utils.StringInSlice] is declared outside the
    files at hand; it tells whether the string is an element of the
    slice. *)
Definition StringInSlice (slice : list string) (s : string) : bool :=
  bool_decide (s ∈ slice).

(** Types, constants and pure helpers of other packages of the repository
    that the phase uses and whose declarations are outside the files at
    hand. *)
Class PhasesLib : Type := {
  (** [storage.DockerConfig] and [storage.DNSConfig] with their [IsEmpty] *)
  DockerConfig : Type;
  DNSConfig : Type;
  DockerConfig_IsEmpty : DockerConfig -> bool;
  DNSConfig_IsEmpty : DNSConfig -> bool;
  OSUser_IsEmpty : OSUser -> bool;
  (** the fields of [storage.Server], [storage.Site], [storage.Peer],
      [storage.UpdateServer], [pack.PackageEnvelope], [ops.Site],
      [ops.SiteOperation] and [storage.OperationPlan] the phase never reads *)
  ServerRest : Type;
  SiteRest : Type;
  PeerRest : Type;
  UpdateServerRest : Type;
  EnvelopeRest : Type;
  OpsSiteRest : Type;
  SiteOperationRest : Type;
  PlanRest : Type;
  (** [schema.Manifest], [storage.User], the keys of sites and operations,
      Docker settings in the manifest and in the install variables *)
  Manifest : Type;
  User : Type;
  SiteKey : Type;
  SiteOperationKey : Type;
  SchemaDocker : Type;
  DockerVars : Type;
  (** package [defaults] *)
  SystemAccountID : string;
  ServiceUserID : string;
  ServiceGroupID : string;
  ServiceUser : string;
  (** package [pack] *)
  OperationIDLabel : string;
  InstalledLabel : string;
  PurposeLabel : string;
  PurposeTeleportNodeConfig : string;
  RuntimePackageLabels : Labels;
  InstalledLabels : Labels;
  TeleportNodeConfigPackageLabels : Labels;
  TeleportLegacyNodeConfigPackageLabels : Labels;
  (** package [constants] *)
  TeleportNodeConfigPackage : string;
  (** package [loc] *)
  LegacyPlanetMaster : Locator;
  LegacyPlanetNode : Locator;
  IsLegacyRuntimePackage : Locator -> bool;
  WithLiteralVersion : Locator -> string -> Locator;
  (** [utils.CombineLabels] *)
  CombineLabels : Labels -> Labels -> Labels;
  (** [storage.ClusterAdminAgent], [storage.NewUser] *)
  ClusterAdminAgent : string -> string;
  NewUser : string -> UserSpecV2 -> User;
  (** [state.GravityUpdateDir], [filepath.Join], [trace.ConvertSystemError] *)
  GravityUpdateDir : string -> string;
  filepath_Join : string -> string -> string;
  ConvertSystemError : option error -> option error;
  (** [Manifest.SystemDocker], [checks.DockerConfigFromSchemaValue],
      [checks.OverrideDockerConfig] *)
  SystemDocker : Manifest -> SchemaDocker;
  DockerConfigFromSchemaValue : SchemaDocker -> DockerConfig;
  OverrideDockerConfig : DockerConfig -> DockerVars -> DockerConfig
}.

Section Phases.

Context {lib : PhasesLib}.

(** [storage.Server]. *)
Record Server : Type := mkServer {
  AdvertiseIP : string;
  ClusterRole : string;
  Server_Rest : ServerRest
}.

(** [storage.ClusterState]. *)
Record ClusterState : Type := mkClusterState {
  Servers : list Server;
  Docker : DockerConfig
}.

(** [storage.Site], the cluster record kept by the backend. *)
Record Site : Type := mkSite {
  Site_ServiceUser : OSUser;
  Site_DNSConfig : DNSConfig;
  Site_ClusterState : ClusterState;
  Site_Rest : SiteRest
}.

(** [storage.Peer]. *)
Record Peer : Type := mkPeer { Peer_ID : string; Peer_Rest : PeerRest }.

(** [storage.UpdateServer]; [US_Installed] is [Runtime.Installed]. *)
Record UpdateServer : Type := mkUpdateServer {
  US_Installed : Locator;
  US_Rest : UpdateServerRest
}.

(** [pack.PackageEnvelope]. *)
Record PackageEnvelope : Type := mkEnvelope {
  Env_Locator : Locator;
  Env_Rest : EnvelopeRest
}.

(** [ops.Site], the cluster as the operator reports it. *)
Record OpsSite : Type := mkOpsSite {
  Domain : string;
  AccountID : string;
  OpsSite_Rest : OpsSiteRest
}.

(** [ops.SiteOperation]. *)
Record SiteOperation : Type := mkSiteOperation {
  Op_ID : string;
  Op_SiteDomain : string;
  Op_Rest : SiteOperationRest
}.

(** [app.Application]. *)
Record Application : Type := mkApplication { App_Manifest : Manifest }.

(** [storage.UpdateOperationData], [storage.OperationPhaseData],
    [storage.OperationPhase], [storage.OperationPlan], [fsm.ExecutorParams].
    Pointer fields are options. *)
Record UpdateOperationData : Type := mkUpdateData {
  Update_Servers : list UpdateServer
}.

Record OperationPhaseData : Type := mkPhaseData {
  Data_Package : option Locator;
  Data_InstalledPackage : option Locator;
  Data_Update : option UpdateOperationData
}.

Record OperationPhase : Type := mkPhase {
  Phase_ID : string;
  Phase_Data : option OperationPhaseData
}.

Record OperationPlan : Type := mkPlan {
  Plan_Servers : list Server;
  Plan_DNSConfig : DNSConfig;
  Plan_Rest : PlanRest
}.

Record ExecutorParams : Type := mkParams {
  Phase : OperationPhase;
  Plan : OperationPlan
}.

(** Methods on these types that are declared outside the files at hand. *)
Class PhasesMethods : Type := {
  (** [PackageEnvelope.HasLabel], [PackageEnvelope.HasLabels] *)
  HasLabel : PackageEnvelope -> string -> string -> bool;
  HasLabels : PackageEnvelope -> Labels -> bool;
  (** [UpdateServer.ObjectPeerID], [update.SplitServers] *)
  ObjectPeerID : UpdateServer -> string;
  SplitServers : list UpdateServer -> list UpdateServer * list UpdateServer;
  (** [ops.Site.Key], [fsm.OperationKey] *)
  Site_Key : OpsSite -> SiteKey;
  OperationKey : OperationPlan -> SiteOperationKey;
  (** the path [InstallExpand.Vars.System.Docker] of an install operation *)
  InstallDockerVars : SiteOperation -> DockerVars
}.

Context {meth : PhasesMethods}.

(** ** Collaborator calls *)

Inductive Call : Type :=
(* storage.Backend *)
| Backend_GetLocalSite (accountID : string)
| Backend_UpdateSite (site : Site)
| Backend_GetPeers
| Backend_DeletePeer (id : string)
(* users.Identity *)
| Users_CreateClusterAdminAgent (cluster : string) (user : User)
(* rpc, install *)
| Rpc_InitCredentials (packages : PackageService)
| Install_GetOrCreateServiceUser (uid gid : string)
(* pack.PackageService and the queries of package pack built on it *)
| Packages_UpdatePackageLabels (packages : PackageService) (locator : Locator)
    (add : Labels) (remove : list string)
| Packages_DeletePackage (packages : PackageService) (locator : Locator)
| Packages_GetPackages (packages : PackageService) (repository : string)
| Pack_FindInstalledConfigPackage (packages : PackageService) (locator : Locator)
| Pack_FindConfigPackage (packages : PackageService) (locator : Locator)
| Pack_FindPackage (packages : PackageService) (pred : PackageEnvelope -> bool)
| Pack_FindLatestPackageCustom (packages : PackageService) (repository : string)
    (matches : PackageEnvelope -> bool)
| Pack_FindSecretsPackage (packages : PackageService)
| Pack_FindInstalledPackage (packages : PackageService) (locator : Locator)
(* state directory and file system *)
| State_GetStateDir
| Os_Stat (path : string)
| Os_RemoveAll (path : string)
(* ops.Operator, app.Applications *)
| Operator_GetLocalSite
| Operator_GetSiteOperation (key : SiteOperationKey)
| Ops_GetCompletedInstallOperation (key : SiteKey)
| Apps_GetApp (locator : Locator).

(** The type of a call's response.  A Go result [(value, error)] is a sum
    where the code reads the value only after finding the error nil, and a
    pair of options where the code tests the pointer itself. *)
Definition Resp (c : Call) : Type :=
  match c with
  | Backend_GetLocalSite _ => (Site + error)%type
  | Backend_UpdateSite _ => option error
  | Backend_GetPeers => (list Peer + error)%type
  | Backend_DeletePeer _ => option error
  | Users_CreateClusterAdminAgent _ _ => option error
  | Rpc_InitCredentials _ => (option Locator * option error)%type
  | Install_GetOrCreateServiceUser _ _ => (SysUser + error)%type
  | Packages_UpdatePackageLabels _ _ _ _ => option error
  | Packages_DeletePackage _ _ => option error
  | Packages_GetPackages _ _ => (list PackageEnvelope + error)%type
  | Pack_FindInstalledConfigPackage _ _ => (option Locator * option error)%type
  | Pack_FindConfigPackage _ _ => (Locator + error)%type
  | Pack_FindPackage _ _ => (option PackageEnvelope * option error)%type
  | Pack_FindLatestPackageCustom _ _ _ => (Locator + error)%type
  | Pack_FindSecretsPackage _ => (Locator + error)%type
  | Pack_FindInstalledPackage _ _ => option error
  | State_GetStateDir => (string + error)%type
  | Os_Stat _ => (FileInfo + error)%type
  | Os_RemoveAll _ => option error
  | Operator_GetLocalSite => (OpsSite + error)%type
  | Operator_GetSiteOperation _ => (SiteOperation + error)%type
  | Ops_GetCompletedInstallOperation _ => (SiteOperation + error)%type
  | Apps_GetApp _ => (Application + error)%type
  end.

(** ** Programs over collaborator calls *)

Inductive Prog (A : Type) : Type :=
| Ret (a : A)
| Panic
| Do (c : Call) (k : Resp c -> Prog A).
Arguments Ret {A} a.
Arguments Panic {A}.
Arguments Do {A} c k.

Fixpoint bind {A B : Type} (m : Prog A) (f : A -> Prog B) : Prog B :=
  match m with
  | Ret a => f a
  | Panic => Panic
  | Do c k => Do c (fun r => bind (k r) f)
  end.

#[export] Instance Prog_ret : MRet Prog := @Ret.
#[export] Instance Prog_bind : MBind Prog := fun A B f m => bind m f.

Definition call (c : Call) : Prog (Resp c) := Do c Ret.

(** An event is a call with the response it got. *)
Definition Event : Type := { c : Call & Resp c }.
Definition event (c : Call) (r : Resp c) : Event := existT c r.

(** How a run ends: with a value, or in a run-time panic. *)
Inductive Outcome (A : Type) : Type :=
| Returned (a : A)
| Panicked.
Arguments Returned {A} a.
Arguments Panicked {A}.

(** A handler answers every call in a collaborator state and gives the
    state after the call. *)
Definition Handler (S : Type) : Type := forall c : Call, S -> Resp c * S.

Fixpoint run {S A : Type} (h : Handler S) (m : Prog A) (s : S)
  : Outcome A * S * list Event :=
  match m with
  | Ret a => (Returned a, s, [])
  | Panic => (Panicked, s, [])
  | Do c k =>
      let '(r, s1) := h c s in
      let '(o, s2, t) := run h (k r) s1 in
      (o, s2, event c r :: t)
  end.

Definition result {S A : Type} (x : Outcome A * S * list Event) : Outcome A := x.1.1.
Definition final {S A : Type} (x : Outcome A * S * list Event) : S := x.1.2.
Definition events {S A : Type} (x : Outcome A * S * list Event) : list Event := x.2.

(** ** Package [phases]: the executors *)

(** [updatePhaseInitServer]: the server-specific part of the init phase. *)
Record updatePhaseInitServer : Type := mkInitServer {
  server : UpdateServer;
  localPackages : PackageService;
  clusterName : string
}.

(** [updatePhaseInit]: the update init phase.  The backend, the operator
    and the users service are the targets of the calls; the executor
    keeps which package service is the cluster's. *)
Record updatePhaseInit : Type := mkInit {
  Packages : PackageService;
  Cluster : OpsSite;
  Operation : SiteOperation;
  Init_Servers : list Server;
  updateManifest : Manifest;
  installedApp : Application;
  existingDocker : DockerConfig;
  existingDNS : DNSConfig;
  init : option updatePhaseInitServer;
  existingPeers : list string
}.

(** [clusterPeers]: the object peer IDs of the master servers. *)
Definition clusterPeers (servers : list UpdateServer) : list string :=
  let '(masters, _) := SplitServers servers in
  foldl (fun peers server => peers ++ [ObjectPeerID server]) [] masters.

(** What a constructor hands back: an executor or an error. *)
Definition Built (T : Type) : Type := (T + error)%type.

(** [NewUpdatePhaseInitLeader].  Reading [p.Phase.Data.Update.Servers]
    for [existingPeers] panics when [Update] is nil. *)
Definition NewUpdatePhaseInitLeader (p : ExecutorParams)
    (packages localPackages : PackageService) : Prog (Built updatePhaseInit) :=
  match Phase_Data (Phase p) with
  | None =>
      mret (inr (BadParameterf "no application package specified for phase"))
  | Some data =>
  match Data_Package data with
  | None =>
      mret (inr (BadParameterf "no application package specified for phase"))
  | Some package =>
  match Data_InstalledPackage data with
  | None =>
      mret (inr (BadParameterf "no installed application package specified for phase"))
  | Some installedPackage =>
      r ← call Operator_GetLocalSite;
      match r with inr err => mret (inr (Wrap err "")) | inl cluster =>
      r ← call (Operator_GetSiteOperation (OperationKey (Plan p)));
      match r with inr err => mret (inr (Wrap err "")) | inl operation =>
      r ← call (Ops_GetCompletedInstallOperation (Site_Key cluster));
      match r with inr err => mret (inr (Wrap err "")) | inl installOperation =>
      r ← call (Apps_GetApp package);
      match r with
      | inr err => mret (inr (Wrap err "failed to query application"))
      | inl app =>
      r ← call (Apps_GetApp installedPackage);
      match r with
      | inr err => mret (inr (Wrap err "failed to query installed application"))
      | inl installedApp =>
          let existingDocker :=
            OverrideDockerConfig
              (DockerConfigFromSchemaValue (SystemDocker (App_Manifest installedApp)))
              (InstallDockerVars installOperation) in
          let init :=
            match Data_Update data with
            | Some update =>
                match Update_Servers update with
                | first :: _ =>
                    Some {| server := first;
                            localPackages := localPackages;
                            clusterName := Domain cluster |}
                | [] => None
                end
            | None => None
            end in
          match Data_Update data with
          | None => Panic
          | Some update =>
              mret (inl {| Packages := packages;
                           Cluster := cluster;
                           Operation := operation;
                           Init_Servers := Plan_Servers (Plan p);
                           updateManifest := App_Manifest app;
                           installedApp := installedApp;
                           existingDocker := existingDocker;
                           existingDNS := Plan_DNSConfig (Plan p);
                           init := init;
                           existingPeers := clusterPeers (Update_Servers update) |})
          end
      end end end end end
  end end end.

(** [NewUpdatePhaseInitServer].  Reading [p.Phase.Data.Update] panics
    when [Data] is nil. *)
Definition NewUpdatePhaseInitServer (p : ExecutorParams)
    (localPackages : PackageService) (clusterName : string)
    : Prog (Built updatePhaseInitServer) :=
  match Phase_Data (Phase p) with
  | None => Panic
  | Some data =>
      match Data_Update data with
      | None => mret (inr (BadParameterf "no server specified for phase"))
      | Some update =>
          match Update_Servers update with
          | [] => mret (inr (BadParameterf "no server specified for phase"))
          | first :: _ =>
              mret (inl {| server := first;
                           localPackages := localPackages;
                           clusterName := clusterName |})
          end
      end
  end.

(** [PreCheck] and [PostCheck] of both executors. *)
Definition PreCheck (p : updatePhaseInit) : Prog (option error) := mret None.
Definition PostCheck (p : updatePhaseInit) : Prog (option error) := mret None.
Definition Server_PreCheck (p : updatePhaseInitServer) : Prog (option error) := mret None.
Definition Server_PostCheck (p : updatePhaseInitServer) : Prog (option error) := mret None.

(** [removeLegacyUpdateDirectory]. *)
Definition removeLegacyUpdateDirectory : Prog (option error) :=
  r ← call State_GetStateDir;
  match r with
  | inr err => mret (Some (Wrap err ""))
  | inl stateDir =>
      let updateDir := filepath_Join (GravityUpdateDir stateDir) "gravity" in
      r ← call (Os_Stat updateDir);
      match r with
      | inr err =>
          if os_IsNotExist (Some err) then mret None
          else mret (ConvertSystemError (Some err))
      | inl fi =>
          if negb (IsDir fi) then mret None
          else
            err ← call (Os_RemoveAll updateDir);
            mret (ConvertSystemError err)
      end
  end.

(** [updatePhaseInit.createAdminAgent]. *)
Definition createAdminAgent (p : updatePhaseInit) : Prog (option error) :=
  let email := ClusterAdminAgent (Domain (Cluster p)) in
  err ← call (Users_CreateClusterAdminAgent (Domain (Cluster p))
                (NewUser email {| Spec_AccountID := AccountID (Cluster p);
                                  Spec_ClusterName := Domain (Cluster p) |}));
  match err with
  | Some e => if negb (IsAlreadyExists err) then mret (Some (Wrap e "")) else mret None
  | None => mret None
  end.

(** [updatePhaseInit.initRPCCredentials]. *)
Definition initRPCCredentials (p : updatePhaseInit) : Prog (option error) :=
  '(pkg, err) ← call (Rpc_InitCredentials (Packages p));
  match err with
  | Some e => if negb (IsAlreadyExists err) then mret (Some (Wrap e "")) else mret None
  | None => mret None
  end.

(** The map from advertise IP to plan server that [updateClusterRoles]
    builds; a later server with the same IP replaces an earlier one. *)
Definition serversByIP (servers : list Server) : gmap string Server :=
  foldl (fun state server => <[AdvertiseIP server := server]> state) ∅ servers.

(** The role read from [state[ip]]: the zero [Server], with an empty role,
    when the key is absent. *)
Definition stateRole (state : gmap string Server) (ip : string) : string :=
  match state !! ip with
  | Some stateServer => ClusterRole stateServer
  | None => ""
  end.

(** The loop of [updateClusterRoles] over the indices of the servers of
    the cluster record, updating the slice in place. *)
Definition assignRoles (state : gmap string Server) (servers : list Server)
  : list Server :=
  foldl (fun (acc : list Server) (i : nat) =>
           match servers !! i with
           | Some server =>
               if nonEmpty (ClusterRole server) then acc
               else
                 match acc !! i with
                 | Some cur =>
                     <[i := {| AdvertiseIP := AdvertiseIP cur;
                               ClusterRole := stateRole state (AdvertiseIP server);
                               Server_Rest := Server_Rest cur |}]> acc
                 | None => acc
                 end
           | None => acc
           end)
        servers (seq 0 (length servers)).

Definition setServers (cluster : Site) (servers : list Server) : Site :=
  {| Site_ServiceUser := Site_ServiceUser cluster;
     Site_DNSConfig := Site_DNSConfig cluster;
     Site_ClusterState := {| Servers := servers;
                             Docker := Docker (Site_ClusterState cluster) |};
     Site_Rest := Site_Rest cluster |}.

Definition setDocker (cluster : Site) (docker : DockerConfig) : Site :=
  {| Site_ServiceUser := Site_ServiceUser cluster;
     Site_DNSConfig := Site_DNSConfig cluster;
     Site_ClusterState := {| Servers := Servers (Site_ClusterState cluster);
                             Docker := docker |};
     Site_Rest := Site_Rest cluster |}.

Definition setDNSConfig (cluster : Site) (dns : DNSConfig) : Site :=
  {| Site_ServiceUser := Site_ServiceUser cluster;
     Site_DNSConfig := dns;
     Site_ClusterState := Site_ClusterState cluster;
     Site_Rest := Site_Rest cluster |}.

Definition setServiceUser (cluster : Site) (user : OSUser) : Site :=
  {| Site_ServiceUser := user;
     Site_DNSConfig := Site_DNSConfig cluster;
     Site_ClusterState := Site_ClusterState cluster;
     Site_Rest := Site_Rest cluster |}.

(** [updatePhaseInit.updateClusterRoles]. *)
Definition updateClusterRoles (p : updatePhaseInit) : Prog (option error) :=
  r ← call (Backend_GetLocalSite SystemAccountID);
  match r with
  | inr err => mret (Some (Wrap err ""))
  | inl cluster =>
      let state := serversByIP (Init_Servers p) in
      let cluster :=
        setServers cluster (assignRoles state (Servers (Site_ClusterState cluster))) in
      err ← call (Backend_UpdateSite cluster);
      match err with
      | Some e => mret (Some (Wrap e ""))
      | None => mret None
      end
  end.

(** [updatePhaseInit.updateClusterDNSConfig]. *)
Definition updateClusterDNSConfig (p : updatePhaseInit) : Prog (option error) :=
  r ← call (Backend_GetLocalSite SystemAccountID);
  match r with
  | inr err => mret (Some (Wrap err ""))
  | inl cluster =>
      let cluster :=
        if DNSConfig_IsEmpty (Site_DNSConfig cluster)
        then setDNSConfig cluster (existingDNS p)
        else cluster in
      err ← call (Backend_UpdateSite cluster);
      match err with
      | Some e => mret (Some (Wrap e ""))
      | None => mret None
      end
  end.

(** [updatePhaseInit.updateDockerConfig]. *)
Definition updateDockerConfig (p : updatePhaseInit) : Prog (option error) :=
  r ← call (Backend_GetLocalSite SystemAccountID);
  match r with
  | inr err => mret (Some (Wrap err ""))
  | inl cluster =>
      if negb (DockerConfig_IsEmpty (Docker (Site_ClusterState cluster)))
      then (* Nothing to do *) mret None
      else
        let cluster := setDocker cluster (existingDocker p) in
        err ← call (Backend_UpdateSite cluster);
        match err with
        | Some e => mret (Some (Wrap e ""))
        | None => mret None
        end
  end.

(** [updatePhaseInit.upsertServiceUser]. *)
Definition upsertServiceUser (p : updatePhaseInit) : Prog (option error) :=
  r ← call (Backend_GetLocalSite SystemAccountID);
  match r with
  | inr err => mret (Some (Wrap err ""))
  | inl cluster =>
      if negb (OSUser_IsEmpty (Site_ServiceUser cluster))
      then (* Nothing to do *) mret None
      else
        r ← call (Install_GetOrCreateServiceUser ServiceUserID ServiceGroupID);
        match r with
        | inr err =>
            mret (Some (Wrap err ("failed to lookup/create service user " ++ ServiceUser)))
        | inl user =>
            let cluster :=
              setServiceUser cluster
                {| OSUser_Name := SysUser_Name user;
                   OSUser_UID := Itoa (SysUser_UID user);
                   OSUser_GID := Itoa (SysUser_GID user) |} in
            err ← call (Backend_UpdateSite cluster);
            match err with
            | Some e => mret (Some (Wrap e ""))
            | None => mret None
            end
        end
  end.

(** [updatePhaseInit.invalidPeers]: true if all given peers are invalid
    (no longer in the cluster). *)
Fixpoint invalidPeers (p : updatePhaseInit) (peers : list string) : bool :=
  match peers with
  | [] => true
  | peer :: rest =>
      if StringInSlice (existingPeers p) peer then false
      else invalidPeers p rest
  end.

(** The loop of [removeInvalidObjectPeers]; [errors] collects the
    failures of [DeletePeer]. *)
Fixpoint removePeersLoop (p : updatePhaseInit) (peers : list Peer)
    (errors : list error) : Prog (option error) :=
  match peers with
  | [] => mret (NewAggregate errors)
  | peer :: rest =>
      if negb (invalidPeers p [Peer_ID peer]) then removePeersLoop p rest errors
      else
        err ← call (Backend_DeletePeer (Peer_ID peer));
        match err with
        | Some e =>
            (* Continue with other peers but collect errors to report *)
            removePeersLoop p rest (errors ++ [e])
        | None => removePeersLoop p rest errors
        end
  end.

(** [updatePhaseInit.removeInvalidObjectPeers]. *)
Definition removeInvalidObjectPeers (p : updatePhaseInit) : Prog (option error) :=
  r ← call Backend_GetPeers;
  match r with
  | inr err => mret (Some (Wrap err ""))
  | inl peers => removePeersLoop p peers []
  end.

(** The loop of [pack.ForeachPackageInRepo]. *)
Fixpoint foreachEnvelope (fn : PackageEnvelope -> Prog (option error))
    (envelopes : list PackageEnvelope) : Prog (option error) :=
  match envelopes with
  | [] => mret None
  | e :: rest =>
      err ← fn e;
      match err with
      | Some x => mret (Some (Wrap x ""))
      | None => foreachEnvelope fn rest
      end
  end.

(** Modelled from the spec: [pack.ForeachPackageInRepo] is declared
    outside the files at hand.  It lists the packages of the repository
    and applies the function to each of them in turn; an error of the
    listing or of the function ends it. *)
Definition ForeachPackageInRepo (packages : PackageService) (repository : string)
    (fn : PackageEnvelope -> Prog (option error)) : Prog (option error) :=
  r ← call (Packages_GetPackages packages repository);
  match r with
  | inr err => mret (Some (Wrap err ""))
  | inl envelopes => foreachEnvelope fn envelopes
  end.

(** [updatePhaseInit.removeConfiguredPackages]: all packages created
    during the operation carry the operation-id label. *)
Definition removeConfiguredPackages (p : updatePhaseInit) : Prog (option error) :=
  ForeachPackageInRepo (Packages p) (Op_SiteDomain (Operation p))
    (fun e =>
       if HasLabel e OperationIDLabel (Op_ID (Operation p))
       then call (Packages_DeletePackage (Packages p) (Env_Locator e))
       else mret None).

(** [updateRuntimeConfigLabels]. *)
Definition updateRuntimeConfigLabels (packages : PackageService)
    (installedRuntime : Locator) : Prog (list LabelUpdate + error) :=
  '(runtimeConfig, err) ← call (Pack_FindInstalledConfigPackage packages installedRuntime);
  match (if negb (IsNotFound err) then err else None) with
  | Some e => mret (inr (Wrap e ""))
  | None =>
      match runtimeConfig with
      | Some _ => (* No update necessary *) mret (inl [])
      | None =>
          (* Fall back to first configuration package *)
          r ← call (Pack_FindConfigPackage packages installedRuntime);
          match r with
          | inr e => mret (inr (Wrap e ""))
          | inl runtimeConfig =>
              (* Mark this configuration package as installed *)
              mret (inl [ {| LU_Locator := runtimeConfig;
                             LU_Add := InstalledLabels;
                             LU_Remove := [] |} ])
          end
      end
  end.

(** [updateTeleportConfigLabels]. *)
Definition updateTeleportConfigLabels (packages : PackageService)
    (clusterName : string) : Prog (list LabelUpdate + error) :=
  let labels : Labels :=
    <[InstalledLabel := InstalledLabel]>
      (<[PurposeLabel := PurposeTeleportNodeConfig]> ∅) in
  '(configEnv, err) ← call (Pack_FindPackage packages (fun e => HasLabels e labels));
  match (if negb (IsNotFound err) then err else None) with
  | Some e => mret (inr (Wrap e ""))
  | None =>
      match configEnv with
      | Some _ => (* No update necessary *) mret (inl [])
      | None =>
          (* Fall back to latest available package *)
          r ← call (Pack_FindLatestPackageCustom packages clusterName
                      (fun e =>
                         String.eqb (Name (Env_Locator e)) TeleportNodeConfigPackage
                         && (HasLabels e TeleportNodeConfigPackageLabels
                             || HasLabels e TeleportLegacyNodeConfigPackageLabels)));
          match r with
          | inr e => mret (inr (Wrap e ""))
          | inl configPackage =>
              (* Mark this configuration package as installed *)
              mret (inl [ {| LU_Locator := configPackage;
                             LU_Add := labels;
                             LU_Remove := [] |} ])
          end
      end
  end.

(** [updateRuntimeSecretLabels]. *)
Definition updateRuntimeSecretLabels (packages : PackageService)
    : Prog (list LabelUpdate + error) :=
  r ← call (Pack_FindSecretsPackage packages);
  match r with
  | inr e => mret (inr (Wrap e ""))
  | inl secretsPackage =>
      err ← call (Pack_FindInstalledPackage packages secretsPackage);
      match (if negb (IsNotFound err) then err else None) with
      | Some e => mret (inr (Wrap e ""))
      | None =>
          match err with
          | None => (* No update necessary *) mret (inl [])
          | Some _ =>
              (* Mark this secrets package as installed *)
              mret (inl [ {| LU_Locator := secretsPackage;
                             LU_Add := InstalledLabels;
                             LU_Remove := [] |} ])
          end
      end
  end.

(** The loop of [updateExistingPackageLabels] that applies the updates. *)
Fixpoint applyLabelUpdates (packages : PackageService) (updates : list LabelUpdate)
    : Prog (option error) :=
  match updates with
  | [] => mret None
  | update :: rest =>
      err ← call (Packages_UpdatePackageLabels packages
                    (LU_Locator update) (LU_Add update) (LU_Remove update));
      match (if negb (IsNotFound err) then err else None) with
      | Some e => mret (Some (Wrap e ""))
      | None => applyLabelUpdates packages rest
      end
  end.

(** The updates [updateExistingPackageLabels] puts together from the
    three lookups. *)
Definition labelUpdates (installedRuntime : Locator)
    (runtimeConfigLabels secretLabels teleportConfigLabels : list LabelUpdate)
    : list LabelUpdate :=
  let updates := runtimeConfigLabels ++ secretLabels in
  let updates := updates ++ teleportConfigLabels in
  let updates :=
    updates ++ [ {| LU_Locator := installedRuntime;
                    LU_Add := CombineLabels RuntimePackageLabels InstalledLabels;
                    LU_Remove := [] |} ] in
  if IsLegacyRuntimePackage installedRuntime then
    let runtimePackageToClear :=
      if String.eqb (Name installedRuntime) (Name LegacyPlanetMaster)
      then WithLiteralVersion LegacyPlanetNode (Version installedRuntime)
      else if String.eqb (Name installedRuntime) (Name LegacyPlanetNode)
      then WithLiteralVersion LegacyPlanetMaster (Version installedRuntime)
      else zeroLocator in
    updates ++ [ {| LU_Locator := runtimePackageToClear;
                    LU_Add := RuntimePackageLabels;
                    LU_Remove := [InstalledLabel] |} ]
  else updates.

(** [updatePhaseInitServer.updateExistingPackageLabels]. *)
Definition updateExistingPackageLabels (p : updatePhaseInitServer)
    : Prog (option error) :=
  let installedRuntime := US_Installed (server p) in
  r ← updateRuntimeConfigLabels (localPackages p) installedRuntime;
  match r with
  | inr err => mret (Some (Wrap err ""))
  | inl runtimeConfigLabels =>
      r ← updateTeleportConfigLabels (localPackages p) (clusterName p);
      match r with
      | inr err => mret (Some (Wrap err ""))
      | inl teleportConfigLabels =>
          r ← updateRuntimeSecretLabels (localPackages p);
          match r with
          | inr err => mret (Some (Wrap err ""))
          | inl secretLabels =>
              applyLabelUpdates (localPackages p)
                (labelUpdates installedRuntime
                   runtimeConfigLabels secretLabels teleportConfigLabels)
          end
      end
  end.

(** [updatePhaseInitServer.Execute] and [updatePhaseInitServer.Rollback]. *)
Definition Server_Execute (p : updatePhaseInitServer) : Prog (option error) :=
  err ← updateExistingPackageLabels p;
  match err with
  | Some e => mret (Some (Wrap e "failed to update existing package labels"))
  | None => mret None
  end.

Definition Server_Rollback (p : updatePhaseInitServer) : Prog (option error) :=
  mret None.

(** One step of [Execute]: run it, and leave with the wrapped error if it
    failed. *)
Definition step (s : Prog (option error)) (msg : string)
    (next : Prog (option error)) : Prog (option error) :=
  err ← s;
  match err with
  | Some e => mret (Some (Wrap e msg))
  | None => next
  end.

(** [updatePhaseInit.Execute]; a failure to remove the legacy update
    directory is only logged. *)
Definition Execute (p : updatePhaseInit) : Prog (option error) :=
  _ ← removeLegacyUpdateDirectory;
  step (createAdminAgent p) "failed to create cluster admin agent" (
  step (upsertServiceUser p) "failed to upsert service user" (
  step (initRPCCredentials p) "failed to init RPC credentials" (
  step (updateClusterRoles p) "failed to update RPC credentials" (
  step (updateClusterDNSConfig p) "failed to update DNS configuration" (
  step (updateDockerConfig p) "failed to update Docker configuration" (
  step (removeInvalidObjectPeers p) "failed to clean up object peers" (
  match init p with
  | Some i => step (Server_Execute i) "" (mret None)
  | None => mret None
  end))))))).

(** [updatePhaseInit.Rollback]. *)
Definition Rollback (p : updatePhaseInit) : Prog (option error) :=
  step (match init p with
        | Some i => Server_Rollback i
        | None => mret None
        end) "" (
  step (removeConfiguredPackages p) "" (mret None)).

End Phases.

Arguments Ret {lib A} a.
Arguments Panic {lib A}.
Arguments Do {lib A} c k.
Arguments Returned {A} a.
Arguments Panicked {A}.

(** ** Reading a run

    Projections of the recorded events that the statements below use. *)

Section Observations.

Context {lib : PhasesLib} {meth : PhasesMethods}.

(** The calls of a run, without their responses. *)
Definition callsOf (t : list Event) : list Call := map (fun ev => projT1 ev) t.

(** The records a run handed to [Backend.UpdateSite]. *)
Definition siteWrites (t : list Event) : list Site :=
  omap (fun ev : Event =>
          match projT1 ev with
          | Backend_UpdateSite site => Some site
          | _ => None
          end) t.

(** The calls of [Backend.DeletePeer] with their responses. *)
Definition peerDeletions (t : list Event) : list (string * option error) :=
  omap (fun ev : Event =>
          let (c, r) := ev in
          match c as c' return Resp c' -> option (string * option error) with
          | Backend_DeletePeer id => fun r => Some (id, r)
          | _ => fun _ => None
          end r) t.

(** The calls of [DeletePackage] with their responses. *)
Definition packageDeletions (t : list Event) : list (Locator * option error) :=
  omap (fun ev : Event =>
          let (c, r) := ev in
          match c as c' return Resp c' -> option (Locator * option error) with
          | Packages_DeletePackage _ locator => fun r => Some (locator, r)
          | _ => fun _ => None
          end r) t.

(** The calls of [UpdatePackageLabels] with their responses. *)
Definition labelCalls (t : list Event) : list (LabelUpdate * option error) :=
  omap (fun ev : Event =>
          let (c, r) := ev in
          match c as c' return Resp c' -> option (LabelUpdate * option error) with
          | Packages_UpdatePackageLabels _ locator add remove =>
              fun r => Some ({| LU_Locator := locator; LU_Add := add;
                                LU_Remove := remove |}, r)
          | _ => fun _ => None
          end r) t.

(** The errors among a list of responses, in order. *)
Definition failures {A : Type} (rs : list (A * option error)) : list error :=
  omap snd rs.

(** An error that is not a "not found". *)
Definition fatal (err : option error) : bool :=
  match err with
  | Some _ => negb (IsNotFound err)
  | None => false
  end.

(** An error that is not an "already exists". *)
Definition rejected (err : option error) : bool :=
  match err with
  | Some _ => negb (IsAlreadyExists err)
  | None => false
  end.

(** The role of the plan server with the given advertise IP (the last one
    in the plan if several have it), empty when there is none. *)
Definition planRole (servers : list Server) (ip : string) : string :=
  match last (filter (fun s => AdvertiseIP s = ip) servers) with
  | Some s => ClusterRole s
  | None => ""
  end.

(** The call that creates the cluster admin agent of an executor. *)
Definition adminAgentCall (p : updatePhaseInit) : Call :=
  Users_CreateClusterAdminAgent (Domain (Cluster p))
    (NewUser (ClusterAdminAgent (Domain (Cluster p)))
       {| Spec_AccountID := AccountID (Cluster p);
          Spec_ClusterName := Domain (Cluster p) |}).

(** The four checks of the two executors, and a sequence of them. *)
Inductive Check : Type :=
| LeaderPreCheck | LeaderPostCheck | ServerPreCheck | ServerPostCheck.

Definition runCheck (p : updatePhaseInit) (q : updatePhaseInitServer)
    (c : Check) : Prog (option error) :=
  match c with
  | LeaderPreCheck => PreCheck p
  | LeaderPostCheck => PostCheck p
  | ServerPreCheck => Server_PreCheck q
  | ServerPostCheck => Server_PostCheck q
  end.

Fixpoint runChecks (p : updatePhaseInit) (q : updatePhaseInitServer)
    (cs : list Check) : Prog (list (option error)) :=
  match cs with
  | [] => mret []
  | c :: rest =>
      err ← runCheck p q c;
      errs ← runChecks p q rest;
      mret (err :: errs)
  end.

(** What is wrong with the input of [NewUpdatePhaseInitLeader]. *)
Definition leaderInputMissing (p : ExecutorParams) : Prop :=
  match Phase_Data (Phase p) with
  | None => True
  | Some data => Data_Package data = None \/ Data_InstalledPackage data = None
  end.

(** What is wrong with the input of [NewUpdatePhaseInitServer]. *)
Definition serverInputMissing (data : OperationPhaseData) : Prop :=
  match Data_Update data with
  | None => True
  | Some update => Update_Servers update = []
  end.

(** A program in which no call satisfying [P] occurs. *)
Fixpoint avoids {A : Type} (P : Call -> bool) (m : Prog A) : Prop :=
  match m with
  | Ret _ => True
  | Panic => True
  | Do c k => P c = false /\ forall r, avoids P (k r)
  end.

(** The two calls whose "already exists" the phase accepts, and the
    responses to them in an event. *)
Definition isAdminAgentCall (c : Call) : bool :=
  match c with
  | Users_CreateClusterAdminAgent _ _ => true
  | _ => false
  end.

Definition isInitCredentialsCall (c : Call) : bool :=
  match c with
  | Rpc_InitCredentials _ => true
  | _ => false
  end.

Definition adminAgentResponse (ev : Event) : option (option error) :=
  let (c, r) := ev in
  match c as c' return Resp c' -> option (option error) with
  | Users_CreateClusterAdminAgent _ _ => fun r => Some r
  | _ => fun _ => None
  end r.

Definition initCredentialsResponse (ev : Event) : option (option error) :=
  let (c, r) := ev in
  match c as c' return Resp c' -> option (option error) with
  | Rpc_InitCredentials _ => fun r => Some (snd r)
  | _ => fun _ => None
  end r.

(** The packages that carry the operation-ID label with the ID of the
    operation, among the listed ones. *)
Definition markedPackages (p : updatePhaseInit) (envelopes : list PackageEnvelope)
    : list Locator :=
  map Env_Locator
    (filter (fun e => HasLabel e OperationIDLabel (Op_ID (Operation p)) = true)
       envelopes).

(** The function [removeConfiguredPackages] applies to every package. *)
Definition removeIfMarked (p : updatePhaseInit) (e : PackageEnvelope)
    : Prog (option error) :=
  if HasLabel e OperationIDLabel (Op_ID (Operation p))
  then call (Packages_DeletePackage (Packages p) (Env_Locator e))
  else mret None.

(** What the loop of [updateClusterRoles] makes of one server. *)
Definition assignRole (state : gmap string Server) (srv : Server) : Server :=
  if nonEmpty (ClusterRole srv) then srv
  else {| AdvertiseIP := AdvertiseIP srv;
          ClusterRole := stateRole state (AdvertiseIP srv);
          Server_Rest := Server_Rest srv |}.

(** A backend that keeps the cluster record: what [GetLocalSite]
    returns is the stored record, a successful [UpdateSite] stores the
    record it is given, and nothing else changes the stored record. *)
Definition isUpdateSite (c : Call) : bool :=
  match c with
  | Backend_UpdateSite _ => true
  | _ => false
  end.

Record SiteStore {S : Type} (h : Handler S) (stored : S -> option Site) : Prop := {
  store_read : forall s cluster,
    (h (Backend_GetLocalSite SystemAccountID) s).1 = inl cluster ->
    stored s = Some cluster;
  store_written : forall s cluster,
    (h (Backend_UpdateSite cluster) s).1 = None ->
    stored (h (Backend_UpdateSite cluster) s).2 = Some cluster;
  store_refused : forall s cluster e,
    (h (Backend_UpdateSite cluster) s).1 = Some e ->
    stored (h (Backend_UpdateSite cluster) s).2 = stored s;
  store_other : forall s c,
    isUpdateSite c = false -> stored (h c s).2 = stored s
}.

(** A cluster record on which the init phase has nothing left to set: the
    service user is there, the DNS and the Docker configuration are there
    or are what the phase would set them to, and the plan has no role for
    a server without one. *)
Definition rolesAssigned (p : updatePhaseInit) (cluster : Site) : Prop :=
  Forall (fun srv => ClusterRole srv = "" ->
                     planRole (Init_Servers p) (AdvertiseIP srv) = "")
    (Servers (Site_ClusterState cluster)).

Definition settled (p : updatePhaseInit) (cluster : Site) : Prop :=
  OSUser_IsEmpty (Site_ServiceUser cluster) = false
  /\ (DNSConfig_IsEmpty (Site_DNSConfig cluster) = false
      \/ Site_DNSConfig cluster = existingDNS p)
  /\ (DockerConfig_IsEmpty (Docker (Site_ClusterState cluster)) = false
      \/ Docker (Site_ClusterState cluster) = existingDocker p)
  /\ rolesAssigned p cluster.

(** The service user the phase writes from a system user. *)
Definition serviceUserOf (user : SysUser) : OSUser :=
  {| OSUser_Name := SysUser_Name user;
     OSUser_UID := Itoa (SysUser_UID user);
     OSUser_GID := Itoa (SysUser_GID user) |}.

(** A program whose runs leave the stored record [cluster] as it is. *)
Definition keepsRecord {S : Type} (h : Handler S) (stored : S -> option Site)
    (cluster : Site) {A : Type} (m : Prog A) : Prop :=
  forall s, stored s = Some cluster -> stored (final (run h m s)) = Some cluster.

(** The calls of [UpdatePackageLabels]. *)
Definition isLabelCall (c : Call) : bool :=
  match c with
  | Packages_UpdatePackageLabels _ _ _ _ => true
  | _ => false
  end.

(** A handler without state: every call gets the response [answer] gives. *)
Definition constHandler (answer : forall c : Call, Resp c) : Handler unit :=
  fun c s => (answer c, s).

End Observations.

(** ** An IPv4 instance of the [net] interface

    Dotted-quad addresses with a decimal prefix length: the fragment of
    [net.ParseCIDR] that the test table of package [validate] exercises. *)

Module net4.

Definition digit (a : ascii) : option Z :=
  let n := Z.of_nat (nat_of_ascii a) in
  if (48 <=? n) && (n <=? 57) then Some (n - 48) else None.

(** A decimal number of one to three digits. *)
Fixpoint decimal (acc : Z) (s : string) : option Z :=
  match s with
  | EmptyString => Some acc
  | String a rest =>
      match digit a with
      | Some d => decimal (10 * acc + d) rest
      | None => None
      end
  end.

Definition number (s : string) : option Z :=
  if (1 <=? String.length s)%nat && (String.length s <=? 3)%nat
  then decimal 0 s else None.

(** The fields of [s] between occurrences of [sep]. *)
Fixpoint split (sep : ascii) (cur : string) (s : string) : list string :=
  match s with
  | EmptyString => [cur]
  | String a rest =>
      if Ascii.eqb a sep then cur :: split sep EmptyString rest
      else split sep (cur ++ String a EmptyString) rest
  end.

Definition octets (s : string) : option (list Z) :=
  match split "." EmptyString s with
  | [a; b; c; d] =>
      match number a, number b, number c, number d with
      | Some x, Some y, Some z, Some w =>
          if forallb (fun n => n <=? 255) [x; y; z; w]
          then Some [x; y; z; w] else None
      | _, _, _, _ => None
      end
  | _ => None
  end.

(** [net.CIDRMask(ones, 32)]. *)
Definition maskByte (ones : Z) (i : Z) : Z :=
  let k := Z.max 0 (Z.min 8 (ones - 8 * i)) in
  Z.land 255 (Z.shiftl 255 (8 - k)).

Definition CIDRMask (ones : Z) : IPMask := map (maskByte ones) [0; 1; 2; 3].

Definition ParseCIDR (s : string) : option IPNet :=
  match split "/" EmptyString s with
  | [addr; len] =>
      match octets addr, number len with
      | Some ip, Some ones =>
          if ones <=? 32 then
            let m := CIDRMask ones in
            Some {| NetIP := zip_with Z.land ip m; Mask := m |}
          else None
      | _, _ => None
      end
  | _ => None
  end.

(** The leading ones of a byte, or [None] if a one follows a zero. *)
Definition byteOnes (v : Z) : option Z :=
  List.find (fun k => Z.eqb v (maskByte k 0)) [0; 1; 2; 3; 4; 5; 6; 7; 8].

(** [simpleMaskLength]: the number of leading ones of a mask whose other
    bits are all zero. *)
Fixpoint simpleMaskLength (mask : IPMask) : option Z :=
  match mask with
  | [] => Some 0
  | v :: rest =>
      if Z.eqb v 255 then (fun n => 8 + n) <$> simpleMaskLength rest
      else
        match byteOnes v with
        | Some n => if forallb (Z.eqb 0) rest then Some n else None
        | None => None
        end
  end.

Definition MaskSize (mask : IPMask) : Z * Z :=
  match simpleMaskLength mask with
  | Some ones => (ones, 8 * Z.of_nat (length mask))
  | None => (0, 0)
  end.

Definition Contains (n : IPNet) (ip : IP) : bool :=
  Nat.eqb (length ip) (length (NetIP n))
  && Nat.eqb (length (Mask n)) (length (NetIP n))
  && forallb (fun x => Z.eqb x.1 x.2)
       (zip (zip_with Z.land (NetIP n) (Mask n)) (zip_with Z.land ip (Mask n))).

#[export] Instance lib : NetLib := Build_NetLib ParseCIDR MaskSize Contains.

End net4.

(** A cluster configuration that is its own global part. *)
#[export] Instance Global_Interface {R : Type} : Interface R (Global R) :=
  {| GetGlobalConfig := fun g => g |}.

(** ** A sample instance of the outside declarations

    Small concrete choices for the types and helpers of [PhasesLib] and
    [PhasesMethods], on which the statements below are tried. *)

Module demo.

Definition emptyString (s : string) : bool := String.eqb s "".

#[export] Instance lib : PhasesLib := {|
  DockerConfig := string;
  DNSConfig := string;
  DockerConfig_IsEmpty := emptyString;
  DNSConfig_IsEmpty := emptyString;
  OSUser_IsEmpty := fun u =>
    emptyString (OSUser_Name u) && emptyString (OSUser_UID u)
    && emptyString (OSUser_GID u);
  ServerRest := string;
  SiteRest := string;
  PeerRest := unit;
  UpdateServerRest := string * bool;
  EnvelopeRest := list (string * string);
  OpsSiteRest := unit;
  SiteOperationRest := string;
  PlanRest := unit;
  Manifest := string;
  User := string * UserSpecV2;
  SiteKey := string;
  SiteOperationKey := unit;
  SchemaDocker := string;
  DockerVars := string;
  SystemAccountID := "system";
  ServiceUserID := "1000";
  ServiceGroupID := "1000";
  ServiceUser := "planet";
  OperationIDLabel := "operation-id";
  InstalledLabel := "installed";
  PurposeLabel := "purpose";
  PurposeTeleportNodeConfig := "teleport-node-config";
  RuntimePackageLabels := {[ "purpose" := "runtime" ]};
  InstalledLabels := {[ "installed" := "installed" ]};
  TeleportNodeConfigPackageLabels := {[ "purpose" := "teleport-node-config" ]};
  TeleportLegacyNodeConfigPackageLabels := {[ "config-package-for" := "teleport" ]};
  TeleportNodeConfigPackage := "teleport-node-config";
  LegacyPlanetMaster := mkLocator "gravitational.io" "planet-master" "0.0.0";
  LegacyPlanetNode := mkLocator "gravitational.io" "planet-node" "0.0.0";
  IsLegacyRuntimePackage := fun l =>
    String.eqb (Name l) "planet-master" || String.eqb (Name l) "planet-node";
  WithLiteralVersion := fun l v => mkLocator (Repository l) (Name l) v;
  CombineLabels := fun a b => b ∪ a;
  ClusterAdminAgent := fun domain => ("agent@" ++ domain)%string;
  NewUser := fun email spec => (email, spec);
  GravityUpdateDir := fun dir => (dir ++ "/site/update")%string;
  filepath_Join := fun a b => (a ++ "/" ++ b)%string;
  ConvertSystemError := fun err => err;
  SystemDocker := fun m => m;
  DockerConfigFromSchemaValue := fun d => d;
  OverrideDockerConfig := fun d v => if emptyString v then d else v
|}.

(** Labels of an envelope are kept as a list of pairs; the second
    component of a server tells a master from a node. *)
Definition hasLabel (e : PackageEnvelope) (k v : string) : bool :=
  existsb (fun kv => String.eqb kv.1 k && String.eqb kv.2 v) (Env_Rest e).

#[export] Instance meth : PhasesMethods := {|
  HasLabel := hasLabel;
  HasLabels := fun e labels =>
    forallb (fun kv => hasLabel e kv.1 kv.2) (map_to_list labels);
  ObjectPeerID := fun srv => fst (US_Rest srv);
  SplitServers := fun l =>
    (filter (fun srv => snd (US_Rest srv) = true) l,
     filter (fun srv => snd (US_Rest srv) = false) l);
  Site_Key := fun c => Domain c;
  OperationKey := fun _ => tt;
  InstallDockerVars := fun op => Op_Rest op
|}.

(** A cluster record with every field set. *)
Definition site : Site :=
  {| Site_ServiceUser := mkOSUser "planet" "1000" "1000";
     Site_DNSConfig := "127.0.0.2:53";
     Site_ClusterState :=
       {| Servers := [mkServer "10.0.0.1" "master" "node-1";
                      mkServer "10.0.0.2" "" "node-2";
                      mkServer "10.0.0.3" "" "node-3"];
          Docker := "overlay2" |};
     Site_Rest := "example.com" |}.

(** The servers of the operation: one master and one node. *)
Definition updateServers : list UpdateServer :=
  [ mkUpdateServer (mkLocator "gravitational.io" "planet" "7.0.1") ("peer-1", true);
    mkUpdateServer (mkLocator "gravitational.io" "planet" "7.0.1") ("peer-2", false) ].

Definition initServer : updatePhaseInitServer :=
  {| server := mkUpdateServer (mkLocator "gravitational.io" "planet" "7.0.1")
                 ("peer-1", true);
     localPackages := LocalPackages;
     clusterName := "example.com" |}.

(** An executor of the init phase. *)
Definition leader : updatePhaseInit :=
  {| Packages := ClusterPackages;
     Cluster := mkOpsSite "example.com" "system" tt;
     Operation := mkSiteOperation "op-1" "example.com" "";
     Init_Servers := [mkServer "10.0.0.1" "master" "node-1";
                      mkServer "10.0.0.2" "node" "node-2"];
     updateManifest := "manifest-2";
     installedApp := mkApplication "manifest-1";
     existingDocker := "devicemapper";
     existingDNS := "127.0.0.3:53";
     init := Some initServer;
     existingPeers := clusterPeers updateServers |}.

(** Parameters of a phase that names no installed package and no server. *)
Definition noInstalled : ExecutorParams :=
  mkParams (mkPhase "/init"
              (Some (mkPhaseData (Some (mkLocator "example.com" "app" "2.0.0"))
                       None (Some (mkUpdateData [])))))
           (mkPlan [] "127.0.0.2:53" tt).

Definition alreadyExists : error := New AlreadyExists "already exists".
Definition notFound : error := New NotFound "not found".
Definition refused : error := New Other "connection refused".

(** Responses of collaborators in which everything asked for is there. *)
Definition answer (c : Call) : Resp c :=
  match c as c' return Resp c' with
  | Backend_GetLocalSite _ => inl site
  | Backend_UpdateSite _ => None
  | Backend_GetPeers =>
      inl [mkPeer "peer-1" tt; mkPeer "peer-7" tt; mkPeer "peer-8" tt]
  | Backend_DeletePeer id =>
      if String.eqb id "peer-7" then Some refused else None
  | Users_CreateClusterAdminAgent _ _ => Some alreadyExists
  | Rpc_InitCredentials _ => (None, Some alreadyExists)
  | Install_GetOrCreateServiceUser _ _ => inl (mkSysUser "planet" 1000 1000)
  | Packages_UpdatePackageLabels _ l _ _ =>
      if String.eqb (Name l) "planet-config" then Some notFound else None
  | Packages_DeletePackage _ _ => None
  | Packages_GetPackages _ _ =>
      inl [ mkEnvelope (mkLocator "example.com" "planet-config" "7.0.1")
              [("operation-id", "op-1")];
            mkEnvelope (mkLocator "example.com" "planet-secrets" "7.0.0")
              [("operation-id", "op-0")];
            mkEnvelope (mkLocator "example.com" "teleport-node-config" "7.0.1")
              [("purpose", "teleport-node-config"); ("operation-id", "op-1")] ]
  | Pack_FindInstalledConfigPackage _ _ => (None, Some notFound)
  | Pack_FindConfigPackage _ _ =>
      inl (mkLocator "example.com" "planet-config" "7.0.0")
  | Pack_FindPackage _ _ => (None, Some notFound)
  | Pack_FindLatestPackageCustom _ _ _ =>
      inl (mkLocator "example.com" "teleport-node-config" "7.0.0")
  | Pack_FindSecretsPackage _ =>
      inl (mkLocator "example.com" "planet-secrets" "7.0.0")
  | Pack_FindInstalledPackage _ _ => Some notFound
  | State_GetStateDir => inl "/var/lib/gravity"
  | Os_Stat _ => inr (New OsNotExist "no such file or directory")
  | Os_RemoveAll _ => None
  | Operator_GetLocalSite => inl (mkOpsSite "example.com" "system" tt)
  | Operator_GetSiteOperation _ => inl (mkSiteOperation "op-1" "example.com" "")
  | Ops_GetCompletedInstallOperation _ =>
      inl (mkSiteOperation "op-0" "example.com" "overlay")
  | Apps_GetApp l => inl (mkApplication (Name l))
  end.

Definition handler : Handler unit := constHandler answer.

(** The same collaborators, with a users service and a credentials store
    that cannot be reached. *)
Definition answerRefused (c : Call) : Resp c :=
  match c as c' return Resp c' with
  | Users_CreateClusterAdminAgent _ _ => Some refused
  | Rpc_InitCredentials _ => (None, Some refused)
  | c' => answer c'
  end.

Definition refusing : Handler unit := constHandler answerRefused.

(** The same collaborators, with a backend that takes no write. *)
Definition answerReadOnly (c : Call) : Resp c :=
  match c as c' return Resp c' with
  | Backend_UpdateSite _ => Some refused
  | c' => answer c'
  end.

Definition readOnly : Handler unit := constHandler answerReadOnly.

(** The same collaborators, with a local package service that refuses to
    change the labels of the secrets package. *)
Definition answerSecretsLocked (c : Call) : Resp c :=
  match c as c' return Resp c' with
  | Packages_UpdatePackageLabels _ l _ _ =>
      if String.eqb (Name l) "planet-secrets" then Some refused
      else if String.eqb (Name l) "planet-config" then Some notFound
      else None
  | c' => answer c'
  end.

Definition secretsLocked : Handler unit := constHandler answerSecretsLocked.

(** Three label updates, on the configuration, the secrets and the
    teleport configuration packages. *)
Definition onConfig : LabelUpdate :=
  mkLabelUpdate (mkLocator "example.com" "planet-config" "7.0.0") ∅ [].
Definition onSecrets : LabelUpdate :=
  mkLabelUpdate (mkLocator "example.com" "planet-secrets" "7.0.0") ∅ [].
Definition onTeleport : LabelUpdate :=
  mkLabelUpdate (mkLocator "example.com" "teleport-node-config" "7.0.0") ∅
    ["installed"].

(** A backend that keeps one cluster record in memory and deletes every
    peer it is asked to; the other collaborators answer as above. *)
Definition memory : Handler Site :=
  fun c =>
    match c as c' return Site -> Resp c' * Site with
    | Backend_GetLocalSite _ => fun s => (inl s, s)
    | Backend_UpdateSite written => fun _ => (None, written)
    | Backend_DeletePeer _ => fun s => (None, s)
    | c' => fun s => (answer c', s)
    end.

(** The record [site] once the plan's roles are assigned. *)
Definition settledSite : Site :=
  {| Site_ServiceUser := mkOSUser "planet" "1000" "1000";
     Site_DNSConfig := "127.0.0.2:53";
     Site_ClusterState :=
       {| Servers := [mkServer "10.0.0.1" "master" "node-1";
                      mkServer "10.0.0.2" "node" "node-2";
                      mkServer "10.0.0.3" "" "node-3"];
          Docker := "overlay2" |};
     Site_Rest := "example.com" |}.

End demo.

(** ** Further vocabulary

    [trace.IsBadParameter], and the subnets a cluster has once an update
    of its configuration is applied: those of the update where it names
    one, the existing ones otherwise. *)

Definition IsBadParameter (err : option error) : bool :=
  trace.isKind trace.BadParameter err.

Definition effectivePodCIDR {R : Type} (existing update : Global R) : string :=
  if String.eqb (PodCIDR update) "" then PodCIDR existing else PodCIDR update.

Definition effectiveServiceCIDR {R : Type} (existing update : Global R) : string :=
  if String.eqb (ServiceCIDR update) "" then ServiceCIDR existing
  else ServiceCIDR update.

(** The cloud settings an update may carry: none at all, or the cloud
    provider the cluster has. *)
Definition cloudSettingsKept {R : Type} (existing update : Global R) : Prop :=
  (CloudProvider update = "" /\ CloudConfig update = "")
  \/ (CloudProvider update ≠ "" /\ CloudProvider update = CloudProvider existing).

Section MoreObservations.

Context {lib : PhasesLib} {meth : PhasesMethods}.

(** The directory [removeLegacyUpdateDirectory] looks for. *)
Definition legacyUpdateDir (stateDir : string) : string :=
  filepath_Join (GravityUpdateDir stateDir) "gravity".

(** The paths a run handed to [os.RemoveAll]. *)
Definition removals (t : list Event) : list string :=
  omap (fun ev : Event =>
          match projT1 ev with
          | Os_RemoveAll path => Some path
          | _ => None
          end) t.

(** The calls of [Backend.UpdateSite] with their responses. *)
Definition siteWriteResults (t : list Event) : list (Site * option error) :=
  omap (fun ev : Event =>
          let (c, r) := ev in
          match c as c' return Resp c' -> option (Site * option error) with
          | Backend_UpdateSite site => fun r => Some (site, r)
          | _ => fun _ => None
          end r) t.

(** The package service a call goes to, if it goes to one. *)
Definition callService (c : Call) : option PackageService :=
  match c with
  | Rpc_InitCredentials packages
  | Packages_UpdatePackageLabels packages _ _ _
  | Packages_DeletePackage packages _
  | Packages_GetPackages packages _
  | Pack_FindInstalledConfigPackage packages _
  | Pack_FindConfigPackage packages _
  | Pack_FindPackage packages _
  | Pack_FindLatestPackageCustom packages _ _
  | Pack_FindSecretsPackage packages
  | Pack_FindInstalledPackage packages _ => Some packages
  | _ => None
  end.

(** The calls that only query the operator and the application service. *)
Definition isQuery (c : Call) : bool :=
  match c with
  | Operator_GetLocalSite
  | Operator_GetSiteOperation _
  | Ops_GetCompletedInstallOperation _
  | Apps_GetApp _ => true
  | _ => false
  end.

(** Listing the packages of a repository of a service, or deleting one of
    the packages of the service. *)
Definition listsOrDeletes (packages : PackageService) (repository : string)
    (c : Call) : Prop :=
  match c with
  | Packages_GetPackages svc repo => svc = packages /\ repo = repository
  | Packages_DeletePackage svc _ => svc = packages
  | _ => False
  end.

Definition isPackageRemoval (c : Call) : bool :=
  match c with
  | Packages_GetPackages _ _ | Packages_DeletePackage _ _ => true
  | _ => false
  end.

(** The labels [updateTeleportConfigLabels] looks for and adds. *)
Definition teleportInstalledLabels : Labels :=
  <[InstalledLabel := InstalledLabel]>
    (<[PurposeLabel := PurposeTeleportNodeConfig]> ∅).

(** The update that marks the installed runtime package, and the one that
    clears the sibling of a legacy runtime package. *)
Definition runtimeUpdate (installedRuntime : Locator) : LabelUpdate :=
  {| LU_Locator := installedRuntime;
     LU_Add := CombineLabels RuntimePackageLabels InstalledLabels;
     LU_Remove := [] |}.

Definition legacySibling (installedRuntime : Locator) : Locator :=
  if String.eqb (Name installedRuntime) (Name LegacyPlanetMaster)
  then WithLiteralVersion LegacyPlanetNode (Version installedRuntime)
  else if String.eqb (Name installedRuntime) (Name LegacyPlanetNode)
  then WithLiteralVersion LegacyPlanetMaster (Version installedRuntime)
  else zeroLocator.

Definition siblingUpdate (installedRuntime : Locator) : LabelUpdate :=
  {| LU_Locator := legacySibling installedRuntime;
     LU_Add := RuntimePackageLabels;
     LU_Remove := [InstalledLabel] |}.

Definition isRemoveAll (c : Call) : bool :=
  match c with
  | Os_RemoveAll _ => true
  | _ => false
  end.

(** The calls [updatePhaseInit.Execute] can make: the file system below
    the state directory, the users service, the backend, the service user,
    the credentials in the package service of the executor, and lookups
    and label updates in the local package service of its server part. *)
Definition leaderCall (p : updatePhaseInit) (c : Call) : Prop :=
  match c with
  | State_GetStateDir | Os_Stat _ | Os_RemoveAll _ => True
  | Users_CreateClusterAdminAgent _ _ | Install_GetOrCreateServiceUser _ _ => True
  | Backend_GetLocalSite _ | Backend_UpdateSite _
  | Backend_GetPeers | Backend_DeletePeer _ => True
  | Rpc_InitCredentials packages => packages = Packages p
  | Packages_UpdatePackageLabels packages _ _ _
  | Pack_FindInstalledConfigPackage packages _
  | Pack_FindConfigPackage packages _
  | Pack_FindPackage packages _
  | Pack_FindLatestPackageCustom packages _ _
  | Pack_FindSecretsPackage packages
  | Pack_FindInstalledPackage packages _ =>
      exists q, init p = Some q /\ packages = localPackages q
  | Packages_DeletePackage _ _ | Packages_GetPackages _ _ => False
  | Operator_GetLocalSite | Operator_GetSiteOperation _
  | Ops_GetCompletedInstallOperation _ | Apps_GetApp _ => False
  end.

(** The calls [updatePhaseInitServer.Execute] can make: lookups and label
    updates. *)
Definition serverCall (c : Call) : bool :=
  match c with
  | Packages_UpdatePackageLabels _ _ _ _
  | Pack_FindInstalledConfigPackage _ _
  | Pack_FindConfigPackage _ _
  | Pack_FindPackage _ _
  | Pack_FindLatestPackageCustom _ _ _
  | Pack_FindSecretsPackage _
  | Pack_FindInstalledPackage _ _ => true
  | _ => false
  end.

(** The steps of [Execute] after the removal of the legacy directory. *)
Definition afterLegacy (p : updatePhaseInit) : Prog (option error) :=
  step (createAdminAgent p) "failed to create cluster admin agent" (
  step (upsertServiceUser p) "failed to upsert service user" (
  step (initRPCCredentials p) "failed to init RPC credentials" (
  step (updateClusterRoles p) "failed to update RPC credentials" (
  step (updateClusterDNSConfig p) "failed to update DNS configuration" (
  step (updateDockerConfig p) "failed to update Docker configuration" (
  step (removeInvalidObjectPeers p) "failed to clean up object peers" (
  match init p with
  | Some i => step (Server_Execute i) "" (mret None)
  | None => mret None
  end))))))).

(** The five queries of [NewUpdatePhaseInitLeader], all answered. *)
Definition leaderQueries (params : ExecutorParams) (package installedPackage : Locator)
    (cluster : OpsSite) (operation installOperation : SiteOperation)
    (app installed : Application) : list Event :=
  [ event Operator_GetLocalSite (inl cluster);
    event (Operator_GetSiteOperation (OperationKey (Plan params))) (inl operation);
    event (Ops_GetCompletedInstallOperation (Site_Key cluster)) (inl installOperation);
    event (Apps_GetApp package) (inl app);
    event (Apps_GetApp installedPackage) (inl installed) ].

(** A query of the operator or of the applications that was answered
    with an error. *)
Definition queryFailed (ev : Event) : bool :=
  let (c, r) := ev in
  match c as c' return Resp c' -> bool with
  | Operator_GetLocalSite => fun r => match r with inl _ => false | inr _ => true end
  | Operator_GetSiteOperation _ => fun r => match r with inl _ => false | inr _ => true end
  | Ops_GetCompletedInstallOperation _ => fun r => match r with inl _ => false | inr _ => true end
  | Apps_GetApp _ => fun r => match r with inl _ => false | inr _ => true end
  | _ => fun _ => false
  end r.

(** What a run of [Execute] that returns nil makes of the cluster record
    [before], but for the service user when it was missing. *)
Definition afterInit (p : updatePhaseInit) (before after : Site) : Prop :=
  Site_Rest after = Site_Rest before
  /\ Site_DNSConfig after
     = (if DNSConfig_IsEmpty (Site_DNSConfig before) then existingDNS p
        else Site_DNSConfig before)
  /\ Docker (Site_ClusterState after)
     = (if DockerConfig_IsEmpty (Docker (Site_ClusterState before))
        then existingDocker p
        else Docker (Site_ClusterState before))
  /\ Servers (Site_ClusterState after)
     = map (assignRole (serversByIP (Init_Servers p)))
         (Servers (Site_ClusterState before))
  /\ if OSUser_IsEmpty (Site_ServiceUser before)
     then exists user, Site_ServiceUser after = serviceUserOf user
     else Site_ServiceUser after = Site_ServiceUser before.

(** The answers [Execute] goes on after: any answer of the file system;
    no error, but for "already exists" from the creation of the admin
    agent and of the credentials and for "not found", as
    [trace.IsNotFound] tells it, from the lookups of installed packages
    and from the label updates. *)
Definition tolerated (ev : Event) : bool :=
  let (c, r) := ev in
  match c as c' return Resp c' -> bool with
  | State_GetStateDir | Os_Stat _ | Os_RemoveAll _ => fun _ => true
  | Users_CreateClusterAdminAgent _ _ => fun r => negb (rejected r)
  | Rpc_InitCredentials _ => fun r => negb (rejected r.2)
  | Backend_GetLocalSite _ => fun r => match r with inl _ => true | inr _ => false end
  | Backend_UpdateSite _ => fun r => match r with None => true | Some _ => false end
  | Backend_GetPeers => fun r => match r with inl _ => true | inr _ => false end
  | Backend_DeletePeer _ => fun r => match r with None => true | Some _ => false end
  | Install_GetOrCreateServiceUser _ _ =>
      fun r => match r with inl _ => true | inr _ => false end
  | Pack_FindInstalledConfigPackage _ _ => fun r => negb (fatal r.2)
  | Pack_FindConfigPackage _ _ =>
      fun r => match r with inl _ => true | inr _ => false end
  | Pack_FindPackage _ _ => fun r => negb (fatal r.2)
  | Pack_FindLatestPackageCustom _ _ _ =>
      fun r => match r with inl _ => true | inr _ => false end
  | Pack_FindSecretsPackage _ =>
      fun r => match r with inl _ => true | inr _ => false end
  | Pack_FindInstalledPackage _ _ => fun r => negb (fatal r)
  | Packages_UpdatePackageLabels _ _ _ _ => fun r => negb (fatal r)
  | _ => fun _ => true
  end r.

(** A program that returns nil exactly when every answer it got is
    tolerated, and never panics. *)
Definition reports {S : Type} (h : Handler S) (m : Prog (option error)) : Prop :=
  forall s,
    result (run h m s) <> Panicked
    /\ (result (run h m s) = Returned None
        <-> forallb tolerated (events (run h m s)) = true).

(** A lookup that gives its result exactly when every answer it got is
    tolerated, and never panics. *)
Definition builds {S A : Type} (h : Handler S) (m : Prog (A + error)) : Prop :=
  forall s,
    result (run h m s) <> Panicked
    /\ ((exists a, result (run h m s) = Returned (inl a))
        <-> forallb tolerated (events (run h m s)) = true).

(** The packages [updateTeleportConfigLabels] falls back to. *)
Definition teleportConfigMatch (e : PackageEnvelope) : bool :=
  String.eqb (Name (Env_Locator e)) TeleportNodeConfigPackage
  && (HasLabels e TeleportNodeConfigPackageLabels
      || HasLabels e TeleportLegacyNodeConfigPackageLabels).

(** No update, or one update that adds the labels [add] to a package and
    removes none. *)
Definition marks (add : Labels) (updates : list LabelUpdate) : Prop :=
  updates = []
  \/ exists package,
       updates = [ {| LU_Locator := package; LU_Add := add; LU_Remove := [] |} ].

(** The answers to the lookups of the secrets package. *)
Definition isSecretsLookup (c : Call) : bool :=
  match c with
  | Pack_FindSecretsPackage _ => true
  | _ => false
  end.

Definition secretsLookups (t : list Event) : list (Locator + error) :=
  omap (fun ev : Event =>
          let (c, r) := ev in
          match c as c' return Resp c' -> option (Locator + error) with
          | Pack_FindSecretsPackage _ => fun r => Some r
          | _ => fun _ => None
          end r) t.

(** Whether each answer of a run was tolerated and whether it answered a
    peer deletion; and the runs in which an answer that is not tolerated
    is the last one, or is that of a peer deletion followed by peer
    deletions only. *)
Definition isDeletePeer (c : Call) : bool :=
  match c with
  | Backend_DeletePeer _ => true
  | _ => false
  end.

Definition shape (t : list Event) : list (bool * bool) :=
  map (fun ev : Event => (tolerated ev, isDeletePeer (projT1 ev))) t.

Fixpoint failFast (l : list (bool * bool)) : bool :=
  match l with
  | [] => true
  | a :: rest =>
      (a.1 || (forallb snd rest
               && (a.2 || match rest with [] => true | _ => false end)))
      && failFast rest
  end.

Definition stopsEarly {S : Type} (h : Handler S) {A : Type} (m : Prog A) : Prop :=
  forall s, failFast (shape (events (run h m s))) = true.

(** The stages of [Execute]: the legacy directory, the admin agent, the
    cluster record with the service user and the credentials, the object
    peers, the packages of the server. *)
Definition stage (c : Call) : nat :=
  match c with
  | State_GetStateDir | Os_Stat _ | Os_RemoveAll _ => 0
  | Users_CreateClusterAdminAgent _ _ => 1
  | Backend_GetLocalSite _ | Backend_UpdateSite _
  | Install_GetOrCreateServiceUser _ _ | Rpc_InitCredentials _ => 2
  | Backend_GetPeers | Backend_DeletePeer _ => 3
  | Packages_UpdatePackageLabels _ _ _ _
  | Pack_FindInstalledConfigPackage _ _
  | Pack_FindConfigPackage _ _
  | Pack_FindPackage _ _
  | Pack_FindLatestPackageCustom _ _ _
  | Pack_FindSecretsPackage _
  | Pack_FindInstalledPackage _ _ => 4
  | _ => 5
  end.

Definition inStages (a b : Call) : Prop := (stage a <= stage b)%nat.

(** The calls of a run are in stages from [k] on. *)
Definition staged (k : nat) (t : list Event) : Prop :=
  StronglySorted inStages (callsOf t)
  /\ Forall (fun c => (k <= stage c)%nat) (callsOf t).

(** The reads of the cluster record, and the programs that return nil
    from every state in which the stored record is [cluster]. *)
Definition isRecordRead (c : Call) : bool :=
  match c with
  | Backend_GetLocalSite _ => true
  | _ => false
  end.

Definition returnsNil {S : Type} (h : Handler S) (stored : S -> option Site)
    (cluster : Site) (m : Prog (option error)) : Prop :=
  forall s, stored s = Some cluster -> result (run h m s) = Returned None.

(** A program all of whose calls satisfy [Q]. *)
Fixpoint within {A : Type} (Q : Call -> Prop) (m : Prog A) : Prop :=
  match m with
  | Ret _ => True
  | Panic => True
  | Do c k => Q c /\ forall r, within Q (k r)
  end.

End MoreObservations.

(** ** More sample data

    A cluster record with nothing set yet, phases with and without update
    data, and collaborators with a legacy update directory or without a
    secrets package. *)

Module sample.

Import demo.

(** A cluster record before the init phase: no service user, no DNS and
    no Docker configuration, one server without role. *)
Definition fresh : Site :=
  {| Site_ServiceUser := mkOSUser "" "" "";
     Site_DNSConfig := "";
     Site_ClusterState :=
       {| Servers := [mkServer "10.0.0.1" "master" "node-1";
                      mkServer "10.0.0.2" "" "node-2"];
          Docker := "" |};
     Site_Rest := "example.com" |}.

(** What the init phase makes of it. *)
Definition filled : Site :=
  {| Site_ServiceUser := mkOSUser "planet" "1000" "1000";
     Site_DNSConfig := "127.0.0.3:53";
     Site_ClusterState :=
       {| Servers := [mkServer "10.0.0.1" "master" "node-1";
                      mkServer "10.0.0.2" "node" "node-2"];
          Docker := "devicemapper" |};
     Site_Rest := "example.com" |}.

(** A phase that names both packages and the servers of the operation,
    the same phase without update data, and a phase without data. *)
Definition phaseData (update : option UpdateOperationData) : OperationPhaseData :=
  mkPhaseData (Some (mkLocator "example.com" "app" "2.0.0"))
    (Some (mkLocator "example.com" "app" "1.0.0")) update.

Definition params : ExecutorParams :=
  mkParams (mkPhase "/init" (Some (phaseData (Some (mkUpdateData updateServers)))))
    (mkPlan [mkServer "10.0.0.1" "master" "node-1";
             mkServer "10.0.0.2" "node" "node-2"] "127.0.0.3:53" tt).

Definition noUpdate : ExecutorParams :=
  mkParams (mkPhase "/init" (Some (phaseData None)))
    (mkPlan [] "127.0.0.3:53" tt).

Definition noData : ExecutorParams :=
  mkParams (mkPhase "/init" None) (mkPlan [] "127.0.0.3:53" tt).

(** The executor [NewUpdatePhaseInitLeader] builds for [params] from the
    answers of [demo.answer]. *)
Definition built : updatePhaseInit :=
  {| Packages := ClusterPackages;
     Cluster := mkOpsSite "example.com" "system" tt;
     Operation := mkSiteOperation "op-1" "example.com" "";
     Init_Servers := [mkServer "10.0.0.1" "master" "node-1";
                      mkServer "10.0.0.2" "node" "node-2"];
     updateManifest := "app";
     installedApp := mkApplication "app";
     existingDocker := "overlay";
     existingDNS := "127.0.0.3:53";
     init := Some initServer;
     existingPeers := ["peer-1"] |}.

(** An executor without server part. *)
Definition alone : updatePhaseInit :=
  {| Packages := ClusterPackages;
     Cluster := mkOpsSite "example.com" "system" tt;
     Operation := mkSiteOperation "op-1" "example.com" "";
     Init_Servers := [];
     updateManifest := "manifest-2";
     installedApp := mkApplication "manifest-1";
     existingDocker := "devicemapper";
     existingDNS := "127.0.0.3:53";
     init := None;
     existingPeers := [] |}.

(** The collaborators of [demo.answer], with a legacy update directory
    in the state directory. *)
Definition answerLegacy (c : Call) : Resp c :=
  match c as c' return Resp c' with
  | Os_Stat _ => inl {| IsDir := true |}
  | c' => answer c'
  end.

Definition withLegacy : Handler unit := constHandler answerLegacy.

(** The same collaborators, with a local package service that has no
    secrets package. *)
Definition answerNoSecrets (c : Call) : Resp c :=
  match c as c' return Resp c' with
  | Pack_FindSecretsPackage _ => inr notFound
  | c' => answer c'
  end.

Definition noSecrets : Handler unit := constHandler answerNoSecrets.

(** The same collaborators, with a backend that deletes every peer and
    a local package service that answers the label update of the secrets
    package with the error of a missing file, as [os] reports it. *)
Definition osNotExist : error := New OsNotExist "no such file or directory".

Definition answerFilesGone (c : Call) : Resp c :=
  match c as c' return Resp c' with
  | Packages_UpdatePackageLabels _ l _ _ =>
      if String.eqb (Name l) "planet-secrets" then Some osNotExist else None
  | Backend_DeletePeer _ => None
  | c' => answer c'
  end.

Definition filesGone : Handler unit := constHandler answerFilesGone.

(** The same collaborators, with a local package service whose search
    for an installed teleport configuration ends on a missing file. *)
Definition answerLookupGone (c : Call) : Resp c :=
  match c as c' return Resp c' with
  | Pack_FindPackage _ _ => (None, Some osNotExist)
  | c' => answer c'
  end.

Definition lookupGone : Handler unit := constHandler answerLookupGone.

End sample.

(** * Properties of package [validate] *)

Section ValidateProofs.

Context {net : NetLib}.

Lemma nonEmpty_true (s : string) : nonEmpty s = true <-> s ≠ "".
Proof.
  unfold nonEmpty. rewrite negb_true_iff. split.
  - intros H ->. discriminate.
  - intros H. apply String.eqb_neq. exact H.
Qed.

Lemma nonEmpty_false (s : string) : nonEmpty s = false <-> s = "".
Proof.
  unfold nonEmpty. rewrite negb_false_iff. apply String.eqb_eq.
Qed.

(** The validator on two empty strings. *)
Lemma KubernetesSubnets_unset : KubernetesSubnets "" "" = None.
Proof. reflexivity. Qed.

(** With no pod subnet given, a service subnet that parses is accepted
    whatever its size. *)
Lemma KubernetesSubnets_service_only (serviceCIDR : string) (sn : IPNet) :
  ParseCIDR serviceCIDR = Some sn -> KubernetesSubnets "" serviceCIDR = None.
Proof.
  intros Hs. unfold KubernetesSubnets. simpl.
  destruct (nonEmpty serviceCIDR); [rewrite Hs|]; reflexivity.
Qed.

(** C8. [KubernetesSubnets] returns an error exactly when the pod subnet
    is given and does not parse, or parses with a prefix longer than 16,
    or the service subnet is given and does not parse, or both are given,
    parse, and one network contains the base address of the other.  On
    two empty strings it returns nil, and a service subnet that parses is
    accepted on its own whatever its prefix length. *)
Theorem KubernetesSubnets_error_iff :
  (forall podCIDR serviceCIDR : string,
     KubernetesSubnets podCIDR serviceCIDR ≠ None <->
       (podCIDR ≠ "" /\ ParseCIDR podCIDR = None)
       \/ (podCIDR ≠ "" /\
           exists pn, ParseCIDR podCIDR = Some pn /\ 16 < (MaskSize (Mask pn)).1)
       \/ (serviceCIDR ≠ "" /\ ParseCIDR serviceCIDR = None)
       \/ (podCIDR ≠ "" /\ serviceCIDR ≠ "" /\
           exists pn sn,
             ParseCIDR podCIDR = Some pn /\ ParseCIDR serviceCIDR = Some sn /\
             (Contains pn (NetIP sn) = true \/ Contains sn (NetIP pn) = true)))
  /\ KubernetesSubnets "" "" = None
  /\ (forall (serviceCIDR : string) (sn : IPNet),
        ParseCIDR serviceCIDR = Some sn -> KubernetesSubnets "" serviceCIDR = None).
Proof.
  split; [|split; [exact KubernetesSubnets_unset | exact KubernetesSubnets_service_only]].
  intros podCIDR serviceCIDR. unfold KubernetesSubnets.
  destruct (nonEmpty podCIDR) eqn:Hp; destruct (nonEmpty serviceCIDR) eqn:Hs;
    try apply nonEmpty_true in Hp; try apply nonEmpty_true in Hs;
    try apply nonEmpty_false in Hp; try apply nonEmpty_false in Hs.
  - (* both given *)
    destruct (ParseCIDR podCIDR) as [pn|] eqn:Epod.
    + destruct (MaskSize (Mask pn)) as [ones bits] eqn:Esz.
      destruct (16 <? ones) eqn:Eones.
      * apply Z.ltb_lt in Eones. split; [intros _|discriminate].
        right; left. split; [exact Hp|]. exists pn. rewrite Esz. auto.
      * apply Z.ltb_ge in Eones.
        destruct (ParseCIDR serviceCIDR) as [sn|] eqn:Esvc.
        -- destruct (Contains pn (NetIP sn) || Contains sn (NetIP pn)) eqn:Eov.
           ++ split; [intros _|discriminate].
              right; right; right. split; [exact Hp|]. split; [exact Hs|].
              exists pn, sn. apply orb_true_iff in Eov. auto.
           ++ apply orb_false_iff in Eov. destruct Eov as [E1 E2].
              split; [congruence|].
              intros [[_ H]|[[_ (pn' & H & Hlt)]|[[_ H]|(_ & _ & pn' & sn' & H1 & H2 & Hc)]]];
                try discriminate.
              ** injection H as <-. rewrite Esz in Hlt. simpl in Hlt. lia.
              ** injection H1 as <-. injection H2 as <-.
                 destruct Hc; congruence.
        -- split; [intros _|discriminate]. right; right; left. auto.
    + split; [intros _|discriminate]. left. auto.
  - (* only the pod subnet given *)
    destruct (ParseCIDR podCIDR) as [pn|] eqn:Epod.
    + destruct (MaskSize (Mask pn)) as [ones bits] eqn:Esz.
      destruct (16 <? ones) eqn:Eones.
      * apply Z.ltb_lt in Eones. split; [intros _|discriminate].
        right; left. split; [exact Hp|]. exists pn. rewrite Esz. auto.
      * apply Z.ltb_ge in Eones. split; [congruence|].
        intros [[_ H]|[[_ (pn' & H & Hlt)]|[[H _]|(_ & H & _)]]];
          try discriminate; try contradiction.
        injection H as <-. rewrite Esz in Hlt. simpl in Hlt. lia.
    + split; [intros _|discriminate]. left. auto.
  - (* only the service subnet given *)
    destruct (ParseCIDR serviceCIDR) as [sn|] eqn:Esvc.
    + split; [congruence|].
      intros [[H _]|[[H _]|[[_ H]|(H & _)]]]; try contradiction; discriminate.
    + split; [intros _|discriminate]. right; right; left. auto.
  - (* neither given *)
    split; [congruence|].
    intros [[H _]|[[H _]|[[H _]|(H & _)]]]; contradiction.
Qed.

(** The test table of the package, on the IPv4 instance. *)
Example TestValidateKubernetesSubnets :
  @KubernetesSubnets net4.lib "10.244.0.0/16" "10.100.0.0/16" = None
  /\ @KubernetesSubnets net4.lib "10.244.0.0-10.244.255.0" "" ≠ None
  /\ @KubernetesSubnets net4.lib "" "10.100.0.0-10.100.255.0" ≠ None
  /\ @KubernetesSubnets net4.lib "10.200.0.0/20" "" ≠ None
  /\ @KubernetesSubnets net4.lib "10.100.0.0/16" "10.100.100.0/16" ≠ None.
Proof. vm_compute. repeat split; discriminate. Qed.

(** A service subnet of a single address is accepted. *)
Example service_subnet_of_one_address :
  @KubernetesSubnets net4.lib "10.244.0.0/16" "10.100.0.1/32" = None.
Proof. vm_compute. reflexivity. Qed.

End ValidateProofs.

Section ClusterConfigProofs.

Context {net : NetLib} {R : Type} (Global_IsEmpty : Global R -> bool).
Context {E U : Type} `{!Interface R E} `{!Interface R U}.

(** C9. [ClusterConfiguration] returns an error whenever the pod subnet of
    the update equals the existing pod subnet or the service subnet of the
    update equals the existing service subnet, empty strings included. *)
Theorem ClusterConfiguration_rejects_same_subnet (existing : E) (update : U) :
  PodCIDR (GetGlobalConfig update) = PodCIDR (GetGlobalConfig existing)
  \/ ServiceCIDR (GetGlobalConfig update) = ServiceCIDR (GetGlobalConfig existing) ->
  ClusterConfiguration Global_IsEmpty existing update ≠ None.
Proof.
  intros Hsame. unfold ClusterConfiguration.
  repeat match goal with
         | |- (if ?b then Some _ else _) ≠ None =>
             destruct b eqn:?; [discriminate|]
         end.
  destruct Hsame as [Hpod|Hsvc].
  - apply String.eqb_eq in Hpod. congruence.
  - apply String.eqb_eq in Hsvc. congruence.
Qed.

End ClusterConfigProofs.

(** An update that names no subnet, against a cluster that names none. *)
Lemma ClusterConfiguration_rejects_same_subnet_witness :
  let existing := mkGlobal unit "" "" "" "" tt in
  let update := mkGlobal unit "" "" "" "" tt in
  (PodCIDR update = PodCIDR existing \/ ServiceCIDR update = ServiceCIDR existing)
  /\ @ClusterConfiguration net4.lib unit (fun _ => false) _ _ _ _ existing update ≠ None.
Proof.
  split.
  - left. reflexivity.
  - apply (@ClusterConfiguration_rejects_same_subnet net4.lib unit (fun _ => false)
             (Global unit) (Global unit) _ _
             (mkGlobal unit "" "" "" "" tt) (mkGlobal unit "" "" "" "" tt)).
    left. reflexivity.
Defined.

(** * Properties of the update [init] phase *)

Section RunLemmas.

Context {lib : PhasesLib} {meth : PhasesMethods}.

(** Running a sequence: the first program, then the rest from the state
    it left, unless it panicked. *)
Lemma run_bind {S A B : Type} (h : Handler S) (m : Prog A) (f : A -> Prog B) (s : S) :
  run h (bind m f) s =
  match run h m s with
  | (Returned a, s1, t1) =>
      let '(o, s2, t2) := run h (f a) s1 in (o, s2, t1 ++ t2)
  | (Panicked, s1, t1) => (Panicked, s1, t1)
  end.
Proof.
  revert s. induction m as [a| |c k IH]; intros s; simpl.
  - destruct (run h (f a) s) as [[o s2] t2]. reflexivity.
  - reflexivity.
  - destruct (h c s) as [r s1]. rewrite IH.
    destruct (run h (k r) s1) as [[[a|] s2] t2]; [|reflexivity].
    destruct (run h (f a) s2) as [[o s3] t3]. reflexivity.
Qed.

Lemma run_mbind {S A B : Type} (h : Handler S) (m : Prog A) (f : A -> Prog B) (s : S) :
  run h (m ≫= f) s =
  match run h m s with
  | (Returned a, s1, t1) =>
      let '(o, s2, t2) := run h (f a) s1 in (o, s2, t1 ++ t2)
  | (Panicked, s1, t1) => (Panicked, s1, t1)
  end.
Proof. apply run_bind. Qed.

Lemma run_call {S : Type} (h : Handler S) (c : Call) (s : S) :
  run h (call c) s = (Returned (h c s).1, (h c s).2, [event c (h c s).1]).
Proof. unfold call. cbn [run]. destruct (h c s) as [r s1]. reflexivity. Qed.

Lemma run_mret {S A : Type} (h : Handler S) (a : A) (s : S) :
  run h (mret a) s = (Returned a, s, []).
Proof. reflexivity. Qed.

(** Running one step of [Execute]. *)
Lemma run_step {S : Type} (h : Handler S) (m next : Prog (option error))
    (msg : string) (s : S) :
  run h (step m msg next) s =
  match run h m s with
  | (Returned None, s1, t1) =>
      let '(o, s2, t2) := run h next s1 in (o, s2, t1 ++ t2)
  | (Returned (Some e), s1, t1) => (Returned (Some (Wrap e msg)), s1, t1 ++ [])
  | (Panicked, s1, t1) => (Panicked, s1, t1)
  end.
Proof.
  unfold step. rewrite run_mbind.
  destruct (run h m s) as [[[[e|]|] s1] t1]; reflexivity.
Qed.

Lemma avoids_bind {A B : Type} (P : Call -> bool) (m : Prog A) (f : A -> Prog B) :
  avoids P m -> (forall a, avoids P (f a)) -> avoids P (bind m f).
Proof.
  intros Hm Hf. induction m as [a| |c k IH]; simpl in *; auto.
  destruct Hm as [Hc Hk]. split; [exact Hc|]. intros r. apply IH. apply Hk.
Qed.

Lemma avoids_run {S A : Type} (P : Call -> bool) (h : Handler S) (m : Prog A) (s : S) :
  avoids P m -> Forall (fun ev : Event => P (projT1 ev) = false) (events (run h m s)).
Proof.
  revert s. induction m as [a| |c k IH]; intros s Hm; simpl in *.
  - constructor.
  - constructor.
  - destruct Hm as [Hc Hk]. destruct (h c s) as [r s1].
    specialize (IH r s1 (Hk r)).
    destruct (run h (k r) s1) as [[o s2] t]. unfold events in *. simpl in *.
    constructor; assumption.
Qed.

(** Where the only event of a kind sits in a list of events. *)
Lemma unique_event (P : Call -> bool) (t1 t2 u1 u2 : list Event) (x y : Event) :
  t1 ++ x :: t2 = u1 ++ y :: u2 ->
  P (projT1 x) = true ->
  P (projT1 y) = true ->
  Forall (fun ev : Event => P (projT1 ev) = false) u1 ->
  Forall (fun ev : Event => P (projT1 ev) = false) u2 ->
  t1 = u1 /\ x = y /\ t2 = u2.
Proof.
  revert u1. induction t1 as [|a t1 IH]; intros u1 Heq Hx Hy Hu1 Hu2.
  - destruct u1 as [|b u1]; simpl in Heq.
    + injection Heq as -> ->. auto.
    + injection Heq as <- _. inversion Hu1; subst. congruence.
  - destruct u1 as [|b u1]; simpl in Heq.
    + injection Heq as -> Heq.
      assert (Hin : x ∈ t1 ++ x :: t2) by (apply elem_of_app; right; left).
      rewrite Heq in Hin. rewrite Forall_forall in Hu2.
      specialize (Hu2 x Hin). congruence.
    + injection Heq as -> Heq. inversion Hu1; subst.
      destruct (IH u1 Heq Hx Hy) as (-> & -> & ->); auto.
Qed.

End RunLemmas.

(** Proves [avoids P m] for a program without loops. *)
Ltac avoids_straight :=
  repeat first
    [ exact I
    | reflexivity
    | progress cbn [avoids bind mbind mret Prog_bind Prog_ret call]
    | split
    | intro
    | match goal with
      | |- avoids _ (match ?x with _ => _ end) => destruct x
      end ].


Section Checks.

Context {lib : PhasesLib} {meth : PhasesMethods}.

(** C7. [PreCheck] and [PostCheck] of both executors return nil, make no
    call and leave every collaborator state as it is, and so does any
    sequence of them in any order. *)
Theorem checks_do_nothing {S : Type} (h : Handler S) (s : S)
    (p : updatePhaseInit) (q : updatePhaseInitServer) :
  run h (PreCheck p) s = (Returned None, s, [])
  /\ run h (PostCheck p) s = (Returned None, s, [])
  /\ run h (Server_PreCheck q) s = (Returned None, s, [])
  /\ run h (Server_PostCheck q) s = (Returned None, s, [])
  /\ forall cs : list Check,
       run h (runChecks p q cs) s = (Returned (map (fun _ => None) cs), s, []).
Proof.
  repeat split.
  intros cs. induction cs as [|c cs IH].
  - reflexivity.
  - cbn [runChecks]. rewrite run_mbind.
    assert (Hc : run h (runCheck p q c) s = (Returned None, s, []))
      by (destruct c; reflexivity).
    rewrite Hc. rewrite run_mbind, IH. reflexivity.
Qed.

End Checks.

Section Construction.

Context {lib : PhasesLib} {meth : PhasesMethods}.

(** What holds of the rejection of bad input: [NewUpdatePhaseInitLeader]
    returns an error and no executor when the phase has no data, no
    package or no installed package, and [NewUpdatePhaseInitServer]
    returns an error when the phase has data whose update data is nil or
    lists no server; in these cases no collaborator is called at all. *)
Theorem constructors_reject_bad_input {S : Type} (h : Handler S) (s : S)
    (p : ExecutorParams) (packages localPackages : PackageService)
    (clusterName : string) :
  (leaderInputMissing p ->
   exists err,
     run h (NewUpdatePhaseInitLeader p packages localPackages) s
     = (Returned (inr err), s, []))
  /\ (forall data,
        Phase_Data (Phase p) = Some data ->
        serverInputMissing data ->
        exists err,
          run h (NewUpdatePhaseInitServer p localPackages clusterName) s
          = (Returned (inr err), s, [])).
Proof.
  split.
  - unfold leaderInputMissing, NewUpdatePhaseInitLeader.
    destruct (Phase_Data (Phase p)) as [data|]; [|intros _; eexists; reflexivity].
    destruct (Data_Package data) as [pkg|].
    + destruct (Data_InstalledPackage data) as [ipkg|].
      * intros [H|H]; discriminate.
      * intros _. eexists. reflexivity.
    + intros _. eexists. reflexivity.
  - intros data Hdata. unfold serverInputMissing, NewUpdatePhaseInitServer.
    rewrite Hdata.
    destruct (Data_Update data) as [update|]; [|intros _; eexists; reflexivity].
    intros ->. eexists. reflexivity.
Qed.

(** Outside these cases: [NewUpdatePhaseInitServer] reads the update data
    through the phase data without testing it, so a phase without data
    makes it panic, and [NewUpdatePhaseInitLeader] reads the servers of
    the update data for the existing peers, so a phase without update
    data makes it panic once the collaborators have answered. *)
Lemma NewUpdatePhaseInitServer_without_data {S : Type} (h : Handler S) (s : S)
    (p : ExecutorParams) (localPackages : PackageService) (clusterName : string) :
  Phase_Data (Phase p) = None ->
  run h (NewUpdatePhaseInitServer p localPackages clusterName) s = (Panicked, s, []).
Proof. intros Hdata. unfold NewUpdatePhaseInitServer. rewrite Hdata. reflexivity. Qed.

Lemma NewUpdatePhaseInitLeader_without_update {S : Type} (h : Handler S) (s : S)
    (p : ExecutorParams) (packages localPackages : PackageService)
    (data : OperationPhaseData) (built : updatePhaseInit) :
  Phase_Data (Phase p) = Some data ->
  Data_Update data = None ->
  result (run h (NewUpdatePhaseInitLeader p packages localPackages) s)
  ≠ Returned (inl built).
Proof.
  intros Hdata Hupdate. unfold NewUpdatePhaseInitLeader. rewrite Hdata.
  destruct (Data_Package data) as [pkg|]; [|discriminate].
  destruct (Data_InstalledPackage data) as [ipkg|]; [|discriminate].
  cbn [run bind mbind mret Prog_bind Prog_ret call].
  repeat match goal with
         | |- context [h ?c ?st] =>
             let r := fresh "r" in
             let st' := fresh "st" in
             destruct (h c st) as [r st']; cbn in r;
             destruct r as [?|?];
             cbn [run bind mbind mret Prog_bind Prog_ret call];
             [|unfold result; cbn [fst]; discriminate]
         end.
  rewrite Hupdate. unfold result. cbn [run fst]. discriminate.
Qed.

End Construction.

Section ConstructionWitness.

#[local] Existing Instance demo.lib.
#[local] Existing Instance demo.meth.

(** The constructors on a phase with no installed package and an empty
    server list. *)
Lemma constructors_reject_bad_input_witness :
  let noInstalled := demo.noInstalled in
  (exists err,
     run demo.handler (NewUpdatePhaseInitLeader noInstalled ClusterPackages LocalPackages) tt
     = (Returned (inr err), tt, []))
  /\ (exists err,
        run demo.handler (NewUpdatePhaseInitServer noInstalled LocalPackages "example.com") tt
        = (Returned (inr err), tt, [])).
Proof.
  intros noInstalled.
  pose proof (constructors_reject_bad_input demo.handler tt noInstalled
                ClusterPackages LocalPackages "example.com") as [Hl Hs].
  split.
  - apply Hl. right. reflexivity.
  - apply (Hs _ eq_refl). reflexivity.
Defined.

(** C6.  [NewUpdatePhaseInitServer] does not reject a phase without
    data: where [NewUpdatePhaseInitLeader] tests the data of the phase
    and returns an error, it reads the update data through the nil data
    and panics.  It returns no error, and no executor either. *)
Theorem NewUpdatePhaseInitServer_panics_without_data :
  run demo.handler (NewUpdatePhaseInitServer sample.noData LocalPackages "example.com") tt
  = (Panicked, tt, [])
  /\ (exists err,
        run demo.handler
          (NewUpdatePhaseInitLeader sample.noData ClusterPackages LocalPackages) tt
        = (Returned (inr err), tt, []))
  /\ ~ (exists err,
          result (run demo.handler
                    (NewUpdatePhaseInitServer sample.noData LocalPackages "example.com")
                    tt)
          = Returned (inr err)).
Proof.
  split; [reflexivity|]. split; [eexists; reflexivity|].
  intros [err H]. discriminate H.
Qed.

End ConstructionWitness.

Section AlreadyExists.

Context {lib : PhasesLib} {meth : PhasesMethods}.

Lemma avoids_run_eq {S A : Type} (P : Call -> bool) (h : Handler S) (m : Prog A)
    (s s' : S) (o : Outcome A) (t : list Event) :
  avoids P m -> run h m s = (o, s', t) ->
  Forall (fun ev : Event => P (projT1 ev) = false) t.
Proof.
  intros Hm Hrun. pose proof (avoids_run P h m s Hm) as H.
  rewrite Hrun in H. exact H.
Qed.

Lemma avoids_step (P : Call -> bool) (m next : Prog (option error)) (msg : string) :
  avoids P m -> avoids P next -> avoids P (step m msg next).
Proof.
  intros Hm Hn. unfold step. apply avoids_bind; [exact Hm|].
  intros [e|]; [exact I|exact Hn].
Qed.

Lemma avoids_removePeersLoop (P : Call -> bool) (p : updatePhaseInit)
    (peers : list Peer) (errors : list error) :
  (forall id, P (Backend_DeletePeer id) = false) ->
  avoids P (removePeersLoop p peers errors).
Proof.
  intros HP. revert errors. induction peers as [|peer rest IH]; intros errors.
  - exact I.
  - cbn [removePeersLoop].
    destruct (negb (invalidPeers p [Peer_ID peer])); [apply IH|].
    cbn [avoids bind mbind mret Prog_bind Prog_ret call]. split; [apply HP|].
    intros [e|]; apply IH.
Qed.

Lemma avoids_applyLabelUpdates (P : Call -> bool) (packages : PackageService)
    (updates : list LabelUpdate) :
  (forall l a r, P (Packages_UpdatePackageLabels packages l a r) = false) ->
  avoids P (applyLabelUpdates packages updates).
Proof.
  intros HP. induction updates as [|u rest IH].
  - exact I.
  - cbn [applyLabelUpdates avoids bind mbind mret Prog_bind Prog_ret call].
    split; [apply HP|].
    intros err. cbn in err.
    destruct (negb (IsNotFound err)); destruct err as [e|]; cbn;
      first [exact I | apply IH].
Qed.

Lemma avoids_Server_Execute (P : Call -> bool) (q : updatePhaseInitServer) :
  isAdminAgentCall = P \/ isInitCredentialsCall = P ->
  avoids P (Server_Execute q).
Proof.
  intros HP. unfold Server_Execute. apply avoids_bind; [|intros [e|]; exact I].
  unfold updateExistingPackageLabels.
  apply avoids_bind.
  { unfold updateRuntimeConfigLabels. destruct HP as [<-|<-]; avoids_straight. }
  intros [l1|e1]; [|exact I].
  apply avoids_bind.
  { unfold updateTeleportConfigLabels. destruct HP as [<-|<-]; avoids_straight. }
  intros [l2|e2]; [|exact I].
  apply avoids_bind.
  { unfold updateRuntimeSecretLabels. destruct HP as [<-|<-]; avoids_straight. }
  intros [l3|e3]; [|exact I].
  apply avoids_applyLabelUpdates. destruct HP as [<-|<-]; reflexivity.
Qed.

(** The steps of [Execute] after [initRPCCredentials]. *)
Lemma avoids_after_credentials (P : Call -> bool) (p : updatePhaseInit) :
  isAdminAgentCall = P \/ isInitCredentialsCall = P ->
  avoids P
    (step (updateClusterRoles p) "failed to update RPC credentials" (
     step (updateClusterDNSConfig p) "failed to update DNS configuration" (
     step (updateDockerConfig p) "failed to update Docker configuration" (
     step (removeInvalidObjectPeers p) "failed to clean up object peers" (
     match init p with
     | Some i => step (Server_Execute i) "" (mret None)
     | None => mret None
     end))))).
Proof.
  intros HP.
  repeat apply avoids_step.
  - unfold updateClusterRoles. destruct HP as [<-|<-]; avoids_straight.
  - unfold updateClusterDNSConfig. destruct HP as [<-|<-]; avoids_straight.
  - unfold updateDockerConfig. destruct HP as [<-|<-]; avoids_straight.
  - unfold removeInvalidObjectPeers.
    cbn [avoids bind mbind mret Prog_bind Prog_ret call].
    split; [destruct HP as [<-|<-]; reflexivity|].
    intros [peers|e]; [|exact I].
    apply avoids_removePeersLoop. destruct HP as [<-|<-]; reflexivity.
  - destruct (init p) as [i|]; [|exact I].
    apply avoids_step; [|exact I]. apply avoids_Server_Execute. exact HP.
Qed.

Lemma avoids_removeLegacyUpdateDirectory (P : Call -> bool) :
  isAdminAgentCall = P \/ isInitCredentialsCall = P ->
  avoids P removeLegacyUpdateDirectory.
Proof.
  intros HP. unfold removeLegacyUpdateDirectory.
  destruct HP as [<-|<-]; avoids_straight.
Qed.

Lemma avoids_upsertServiceUser (P : Call -> bool) (p : updatePhaseInit) :
  isAdminAgentCall = P \/ isInitCredentialsCall = P ->
  avoids P (upsertServiceUser p).
Proof.
  intros HP. unfold upsertServiceUser.
  destruct HP as [<-|<-]; avoids_straight.
Qed.

Lemma avoids_createAdminAgent (p : updatePhaseInit) :
  avoids isInitCredentialsCall (createAdminAgent p).
Proof. unfold createAdminAgent. avoids_straight. Qed.

Lemma avoids_initRPCCredentials (p : updatePhaseInit) :
  avoids isAdminAgentCall (initRPCCredentials p).
Proof. unfold initRPCCredentials. avoids_straight. Qed.

Lemma run_createAdminAgent {S : Type} (h : Handler S) (p : updatePhaseInit) (s : S) :
  run h (createAdminAgent p) s =
  let r := (h (adminAgentCall p) s).1 in
  (Returned (match r with
             | Some e => if IsAlreadyExists r then None else Some (Wrap e "")
             | None => None
             end),
   (h (adminAgentCall p) s).2, [event (adminAgentCall p) r]).
Proof.
  unfold createAdminAgent, adminAgentCall.
  cbn [run bind mbind mret Prog_bind Prog_ret call].
  destruct (h _ s) as [r s1]. cbn in r. cbn [fst snd].
  destruct r as [e|]; [destruct (IsAlreadyExists (Some e))|]; reflexivity.
Qed.

Lemma run_initRPCCredentials {S : Type} (h : Handler S) (p : updatePhaseInit) (s : S) :
  run h (initRPCCredentials p) s =
  let r := (h (Rpc_InitCredentials (Packages p)) s).1 in
  (Returned (match r.2 with
             | Some e => if IsAlreadyExists r.2 then None else Some (Wrap e "")
             | None => None
             end),
   (h (Rpc_InitCredentials (Packages p)) s).2,
   [event (Rpc_InitCredentials (Packages p)) r]).
Proof.
  unfold initRPCCredentials.
  cbn [run bind mbind mret Prog_bind Prog_ret call].
  destruct (h _ s) as [r s1]. cbn in r. destruct r as [pkg err]. cbn [fst snd].
  destruct err as [e|]; [destruct (IsAlreadyExists (Some e))|]; reflexivity.
Qed.

(** The first event of a step that begins with reading the cluster
    record. *)
Lemma step_starts_with_GetLocalSite {S : Type} (h : Handler S)
    (k : Resp (Backend_GetLocalSite SystemAccountID) -> Prog (option error))
    (msg : string) (next : Prog (option error)) (s : S) :
  exists r t,
    events (run h (step (Do (Backend_GetLocalSite SystemAccountID) k) msg next) s)
    = event (Backend_GetLocalSite SystemAccountID) r :: t.
Proof.
  unfold step. cbn [run bind mbind Prog_bind].
  destruct (h _ s) as [r s1].
  destruct (run h _ s1) as [[o s2] t]. exists r, t. reflexivity.
Qed.

Lemma rejected_spec (r : option error) :
  rejected r = true <-> exists e, r = Some e /\ IsAlreadyExists r = false.
Proof.
  unfold rejected. destruct r as [e|].
  - rewrite negb_true_iff. split; [eauto|]. intros (e' & _ & H). exact H.
  - split; [discriminate|]. intros (e' & H & _). discriminate.
Qed.

Lemma Forall_avoided_app (P : Call -> bool) (t u : list Event) :
  Forall (fun ev : Event => P (projT1 ev) = false) t ->
  Forall (fun ev : Event => P (projT1 ev) = false) u ->
  Forall (fun ev : Event => P (projT1 ev) = false) (t ++ u).
Proof. intros. apply Forall_app. split; assumption. Qed.

(** An event of a kind cannot sit in a list that has none of the kind. *)
Lemma no_event (P : Call -> bool) (t1 t2 u : list Event) (x : Event) :
  u = t1 ++ x :: t2 ->
  P (projT1 x) = true ->
  Forall (fun ev : Event => P (projT1 ev) = false) u -> False.
Proof.
  intros -> Hx Hu. rewrite Forall_forall in Hu.
  assert (Hin : x ∈ t1 ++ x :: t2) by (apply elem_of_app; right; left).
  specialize (Hu x Hin). congruence.
Qed.

(** What [Execute] does around the creation of the admin agent. *)
Lemma Execute_around_admin_agent {S : Type} (h : Handler S) (p : updatePhaseInit)
    (s : S) (t1 t2 : list Event) (r : option error) :
  events (run h (Execute p) s) = t1 ++ event (adminAgentCall p) r :: t2 ->
  (rejected r = false ->
   exists r' t3, t2 = event (Backend_GetLocalSite SystemAccountID) r' :: t3)
  /\ (forall e, r = Some e -> rejected r = true ->
      t2 = []
      /\ result (run h (Execute p) s)
         = Returned (Some (Wrap (Wrap e "") "failed to create cluster admin agent"))).
Proof.
  unfold Execute. rewrite run_mbind.
  pose proof (avoids_removeLegacyUpdateDirectory isAdminAgentCall (or_introl eq_refl))
    as Hlegacy.
  destruct (run h removeLegacyUpdateDirectory s) as [[[a|] s0] t0] eqn:E0;
    pose proof (avoids_run_eq _ _ _ _ _ _ _ Hlegacy E0) as Ht0.
  2:{ intros Hev. exfalso. unfold events in Hev. cbn [snd] in Hev.
      eapply (no_event isAdminAgentCall); [exact Hev|reflexivity|exact Ht0]. }
  rewrite run_step, run_createAdminAgent. cbn zeta.
  destruct (h (adminAgentCall p) s0) as [r0 s1] eqn:Eh. cbn [fst snd].
  set (rest := step (upsertServiceUser p) _ _).
  assert (Hrest : avoids isAdminAgentCall rest).
  { subst rest. apply avoids_step; [apply avoids_upsertServiceUser; auto|].
    apply avoids_step; [apply avoids_initRPCCredentials|].
    apply avoids_after_credentials. auto. }
  assert (Hhead : exists r' t3,
             events (run h rest s1)
             = event (Backend_GetLocalSite SystemAccountID) r' :: t3).
  { subst rest. unfold upsertServiceUser.
    cbn [bind mbind Prog_bind call]. apply step_starts_with_GetLocalSite. }
  destruct (run h rest s1) as [[o s2] t3] eqn:Erest.
  pose proof (avoids_run_eq _ _ _ _ _ _ _ Hrest Erest) as Ht3.
  destruct r0 as [e0|]; [destruct (IsAlreadyExists (Some e0)) eqn:Eae|].
  - (* already exists *)
    unfold events, result. cbn [fst snd]. intros Hev. symmetry in Hev.
    apply (unique_event isAdminAgentCall) in Hev; try reflexivity; try assumption.
    destruct Hev as (-> & Hx & ->).
    apply (f_equal adminAgentResponse) in Hx. cbn in Hx. injection Hx as ->.
    split.
    + intros _. exact Hhead.
    + intros e He Hrej. unfold rejected in Hrej. rewrite Eae in Hrej. discriminate.
  - (* another error *)
    unfold events, result. cbn [fst snd]. intros Hev. symmetry in Hev.
    apply (unique_event isAdminAgentCall) in Hev; try reflexivity; try assumption;
      [|constructor].
    destruct Hev as (-> & Hx & ->).
    apply (f_equal adminAgentResponse) in Hx. cbn in Hx. injection Hx as ->.
    split.
    + intros Hrej. unfold rejected in Hrej. rewrite Eae in Hrej. discriminate.
    + intros e He _. injection He as <-. split; reflexivity.
  - (* created *)
    unfold events, result. cbn [fst snd]. intros Hev. symmetry in Hev.
    apply (unique_event isAdminAgentCall) in Hev; try reflexivity; try assumption.
    destruct Hev as (-> & Hx & ->).
    apply (f_equal adminAgentResponse) in Hx. cbn in Hx. injection Hx as ->.
    split.
    + intros _. exact Hhead.
    + intros e He. discriminate.
Qed.

(** What [Execute] does around the initialisation of the RPC credentials. *)
Lemma Execute_around_credentials {S : Type} (h : Handler S) (p : updatePhaseInit)
    (s : S) (t1 t2 : list Event) (r : option Locator * option error) :
  events (run h (Execute p) s) = t1 ++ event (Rpc_InitCredentials (Packages p)) r :: t2 ->
  (rejected r.2 = false ->
   exists r' t3, t2 = event (Backend_GetLocalSite SystemAccountID) r' :: t3)
  /\ (forall e, r.2 = Some e -> rejected r.2 = true ->
      t2 = []
      /\ result (run h (Execute p) s)
         = Returned (Some (Wrap (Wrap e "") "failed to init RPC credentials"))).
Proof.
  unfold Execute. rewrite run_mbind.
  pose proof (avoids_removeLegacyUpdateDirectory isInitCredentialsCall
                (or_intror eq_refl)) as Hlegacy.
  destruct (run h removeLegacyUpdateDirectory s) as [[[a|] s0] t0] eqn:E0;
    pose proof (avoids_run_eq _ _ _ _ _ _ _ Hlegacy E0) as Ht0.
  2:{ intros Hev. exfalso. unfold events in Hev. cbn [snd] in Hev.
      eapply (no_event isInitCredentialsCall); [exact Hev|reflexivity|exact Ht0]. }
  rewrite run_step.
  destruct (run h (createAdminAgent p) s0) as [[[[eA|]|] sA] tA] eqn:EA;
    pose proof (avoids_run_eq _ _ _ _ _ _ _ (avoids_createAdminAgent p) EA) as HtA.
  1,3: intros Hev; exfalso; unfold events in Hev; cbn [snd] in Hev;
       eapply (no_event isInitCredentialsCall); [exact Hev|reflexivity|];
       rewrite ?app_nil_r; apply Forall_avoided_app; assumption.
  rewrite run_step.
  pose proof (avoids_upsertServiceUser isInitCredentialsCall p (or_intror eq_refl))
    as Hupsert.
  destruct (run h (upsertServiceUser p) sA) as [[[[eU|]|] sU] tU] eqn:EU;
    pose proof (avoids_run_eq _ _ _ _ _ _ _ Hupsert EU) as HtU.
  1,3: intros Hev; exfalso; unfold events in Hev; cbn [snd] in Hev;
       eapply (no_event isInitCredentialsCall); [exact Hev|reflexivity|];
       rewrite ?app_nil_r; repeat apply Forall_avoided_app; assumption.
  rewrite run_step, run_initRPCCredentials. cbn zeta.
  destruct (h (Rpc_InitCredentials (Packages p)) sU) as [r0 s1] eqn:Eh. cbn [fst snd].
  set (rest := step (updateClusterRoles p) _ _).
  assert (Hrest : avoids isInitCredentialsCall rest).
  { subst rest. apply avoids_after_credentials. auto. }
  assert (Hhead : exists r' t3,
             events (run h rest s1)
             = event (Backend_GetLocalSite SystemAccountID) r' :: t3).
  { subst rest. unfold updateClusterRoles.
    cbn [bind mbind Prog_bind call]. apply step_starts_with_GetLocalSite. }
  destruct (run h rest s1) as [[o s2] t3] eqn:Erest.
  pose proof (avoids_run_eq _ _ _ _ _ _ _ Hrest Erest) as Ht3.
  assert (Hpre : Forall (fun ev : Event => isInitCredentialsCall (projT1 ev) = false)
                   (t0 ++ tA ++ tU))
    by (repeat apply Forall_avoided_app; assumption).
  assert (Hre : forall a b c d : list Event, a ++ b ++ c ++ d = (a ++ b ++ c) ++ d)
    by (intros; rewrite <- !app_assoc; reflexivity).
  cbn in r0. destruct r0 as [pkg0 err0]. cbn [snd].
  destruct err0 as [e0|]; [destruct (IsAlreadyExists (Some e0)) eqn:Eae|];
    unfold events, result; cbn [fst snd]; intros Hev; symmetry in Hev;
    rewrite ?app_nil_r in Hev; cbn [app] in Hev; rewrite Hre in Hev.
  - (* already exists *)
    apply (unique_event isInitCredentialsCall) in Hev; try reflexivity; try assumption.
    destruct Hev as (-> & Hx & ->).
    apply (f_equal initCredentialsResponse) in Hx. cbn in Hx. injection Hx as Hx.
    rewrite Hx. split.
    + intros _. exact Hhead.
    + intros e He Hrej. unfold rejected in Hrej. rewrite Eae in Hrej. discriminate.
  - (* another error *)
    apply (unique_event isInitCredentialsCall) in Hev; try reflexivity; try assumption;
      [|constructor].
    destruct Hev as (-> & Hx & ->).
    apply (f_equal initCredentialsResponse) in Hx. cbn in Hx. injection Hx as Hx.
    rewrite Hx. split.
    + intros Hrej. unfold rejected in Hrej. rewrite Eae in Hrej. discriminate.
    + intros e He _. injection He as <-. split; reflexivity.
  - (* initialised *)
    apply (unique_event isInitCredentialsCall) in Hev; try reflexivity; try assumption.
    destruct Hev as (-> & Hx & ->).
    apply (f_equal initCredentialsResponse) in Hx. cbn in Hx. injection Hx as Hx.
    rewrite Hx. split.
    + intros _. exact Hhead.
    + intros e He. discriminate.
Qed.

End AlreadyExists.

Section AlreadyExistsClaim.

Context {lib : PhasesLib} {meth : PhasesMethods}.

(** C1. In [Execute] of the update init phase an "already exists" error
    from [Users.CreateClusterAdminAgent] or from [rpc.InitCredentials] is
    not an error: the helper returns nil and [Execute] goes on to its next
    step, which starts by reading the cluster record.  An error of any
    other kind is returned by the helper, and [Execute] stops there and
    returns it, wrapped with the message of the step. *)
Theorem already_exists_is_not_an_error {S : Type} (h : Handler S)
    (p : updatePhaseInit) (s : S) :
  let admin := (h (adminAgentCall p) s).1 in
  let creds := ((h (Rpc_InitCredentials (Packages p)) s).1).2 in
  (IsAlreadyExists admin = true ->
   result (run h (createAdminAgent p) s) = Returned None)
  /\ (forall e, admin = Some e -> IsAlreadyExists admin = false ->
      result (run h (createAdminAgent p) s) = Returned (Some (Wrap e "")))
  /\ (IsAlreadyExists creds = true ->
      result (run h (initRPCCredentials p) s) = Returned None)
  /\ (forall e, creds = Some e -> IsAlreadyExists creds = false ->
      result (run h (initRPCCredentials p) s) = Returned (Some (Wrap e "")))
  /\ (forall t1 r t2,
        events (run h (Execute p) s) = t1 ++ event (adminAgentCall p) r :: t2 ->
        (IsAlreadyExists r = true ->
         exists r' t3, t2 = event (Backend_GetLocalSite SystemAccountID) r' :: t3)
        /\ (forall e, r = Some e -> IsAlreadyExists r = false ->
            t2 = []
            /\ result (run h (Execute p) s)
               = Returned (Some (Wrap (Wrap e "")
                                   "failed to create cluster admin agent"))))
  /\ (forall t1 r t2,
        events (run h (Execute p) s)
        = t1 ++ event (Rpc_InitCredentials (Packages p)) r :: t2 ->
        (IsAlreadyExists r.2 = true ->
         exists r' t3, t2 = event (Backend_GetLocalSite SystemAccountID) r' :: t3)
        /\ (forall e, r.2 = Some e -> IsAlreadyExists r.2 = false ->
            t2 = []
            /\ result (run h (Execute p) s)
               = Returned (Some (Wrap (Wrap e "")
                                   "failed to init RPC credentials")))).
Proof.
  cbn zeta. refine (conj _ (conj _ (conj _ (conj _ (conj _ _))))).
  - intros Hae. rewrite run_createAdminAgent. cbn zeta. unfold result. cbn [fst].
    rewrite Hae. destruct (h (adminAgentCall p) s).1; reflexivity.
  - intros e He Hae. rewrite run_createAdminAgent. cbn zeta. unfold result. cbn [fst].
    rewrite Hae, He. reflexivity.
  - intros Hae. rewrite run_initRPCCredentials. cbn zeta. unfold result. cbn [fst].
    rewrite Hae. destruct ((h (Rpc_InitCredentials (Packages p)) s).1).2; reflexivity.
  - intros e He Hae. rewrite run_initRPCCredentials. cbn zeta. unfold result. cbn [fst].
    rewrite Hae, He. reflexivity.
  - intros t1 r t2 Hev.
    destruct (Execute_around_admin_agent h p s t1 t2 r Hev) as [Hgo Hstop]. split.
    + intros Hae. apply Hgo. unfold rejected. rewrite Hae. destruct r; reflexivity.
    + intros e He Hae. apply (Hstop e He). apply rejected_spec. eauto.
  - intros t1 r t2 Hev.
    destruct (Execute_around_credentials h p s t1 t2 r Hev) as [Hgo Hstop]. split.
    + intros Hae. apply Hgo. unfold rejected. rewrite Hae. destruct r.2; reflexivity.
    + intros e He Hae. apply (Hstop e He). apply rejected_spec. eauto.
Qed.

End AlreadyExistsClaim.

Section AlreadyExistsWitness.

#[local] Existing Instance demo.lib.
#[local] Existing Instance demo.meth.

(** With an admin agent and credentials that exist already, [Execute]
    goes on; with a users service that cannot be reached it stops. *)
Lemma already_exists_is_not_an_error_witness :
  result (run demo.handler (createAdminAgent demo.leader) tt) = Returned None
  /\ result (run demo.handler (initRPCCredentials demo.leader) tt) = Returned None
  /\ (exists r' t3,
        drop 3 (events (run demo.handler (Execute demo.leader) tt))
        = event (Backend_GetLocalSite SystemAccountID) r' :: t3)
  /\ (exists r' t3,
        drop 5 (events (run demo.handler (Execute demo.leader) tt))
        = event (Backend_GetLocalSite SystemAccountID) r' :: t3)
  /\ result (run demo.refusing (createAdminAgent demo.leader) tt)
     = Returned (Some (Wrap demo.refused ""))
  /\ (drop 3 (events (run demo.refusing (Execute demo.leader) tt)) = []
      /\ result (run demo.refusing (Execute demo.leader) tt)
         = Returned (Some (Wrap (Wrap demo.refused "")
                             "failed to create cluster admin agent"))).
Proof.
  pose proof (already_exists_is_not_an_error demo.handler demo.leader tt)
    as (H1 & _ & H3 & _ & H5 & H6).
  pose proof (already_exists_is_not_an_error demo.refusing demo.leader tt)
    as (_ & R2 & _ & _ & R5 & _).
  split; [apply H1; reflexivity|].
  split; [apply H3; reflexivity|].
  split.
  { apply (H5 (take 2 (events (run demo.handler (Execute demo.leader) tt)))
              (Some demo.alreadyExists)
              (drop 3 (events (run demo.handler (Execute demo.leader) tt))));
      [reflexivity|reflexivity]. }
  split.
  { apply (H6 (take 4 (events (run demo.handler (Execute demo.leader) tt)))
              (None, Some demo.alreadyExists)
              (drop 5 (events (run demo.handler (Execute demo.leader) tt))));
      [reflexivity|reflexivity]. }
  split; [apply (R2 demo.refused); reflexivity|].
  destruct (R5 (take 2 (events (run demo.refusing (Execute demo.leader) tt)))
              (Some demo.refused)
              (drop 3 (events (run demo.refusing (Execute demo.leader) tt)))
              eq_refl) as [_ Rstop].
  apply (Rstop demo.refused); reflexivity.
Defined.

End AlreadyExistsWitness.

Section ObjectPeers.

Context {lib : PhasesLib} {meth : PhasesMethods}.

Lemma invalidPeers_single (p : updatePhaseInit) (id : string) :
  invalidPeers p [id] = bool_decide (id ∉ existingPeers p).
Proof.
  cbn [invalidPeers]. unfold StringInSlice.
  destruct (decide (id ∈ existingPeers p)) as [Hin|Hout].
  - rewrite (bool_decide_eq_true_2 _ Hin).
    symmetry. apply bool_decide_eq_false_2. intros H. exact (H Hin).
  - rewrite (bool_decide_eq_false_2 _ Hout).
    symmetry. apply bool_decide_eq_true_2. exact Hout.
Qed.

Lemma clusterPeers_masters (servers : list UpdateServer) :
  clusterPeers servers = map ObjectPeerID (SplitServers servers).1.
Proof.
  unfold clusterPeers. destruct (SplitServers servers) as [masters nodes]. cbn [fst].
  assert (H : forall acc,
             foldl (fun peers srv => peers ++ [ObjectPeerID srv]) acc masters
             = acc ++ map ObjectPeerID masters).
  { induction masters as [|m ms IH]; intros acc; cbn [foldl map].
    - rewrite app_nil_r. reflexivity.
    - rewrite IH, <- app_assoc. reflexivity. }
  apply (H []).
Qed.

Lemma peerDeletions_cons (id : string) (r : option error) (t : list Event) :
  peerDeletions (event (Backend_DeletePeer id) r :: t) = (id, r) :: peerDeletions t.
Proof. reflexivity. Qed.

Lemma failures_cons_Some {A : Type} (a : A) (e : error) (rs : list (A * option error)) :
  failures ((a, Some e) :: rs) = e :: failures rs.
Proof. reflexivity. Qed.

Lemma failures_cons_None {A : Type} (a : A) (rs : list (A * option error)) :
  failures ((a, None) :: rs) = failures rs.
Proof. reflexivity. Qed.

(** The loop over the peers: which deletions it asks for, and what it
    returns. *)
Lemma run_removePeersLoop {S : Type} (h : Handler S) (p : updatePhaseInit)
    (peers : list Peer) (errors : list error) (s : S) :
  let x := run h (removePeersLoop p peers errors) s in
  map fst (peerDeletions (events x))
  = filter (fun id => id ∉ existingPeers p) (map Peer_ID peers)
  /\ result x = Returned (NewAggregate (errors ++ failures (peerDeletions (events x)))).
Proof.
  cbn zeta. revert errors s. induction peers as [|peer rest IH]; intros errors s.
  - cbn. rewrite app_nil_r. split; reflexivity.
  - cbn [removePeersLoop map]. rewrite invalidPeers_single, filter_cons.
    destruct (decide (Peer_ID peer ∉ existingPeers p)) as [Hout|Hin].
    + rewrite (bool_decide_eq_true_2 _ Hout). cbn [negb].
      cbn [run bind mbind mret Prog_bind Prog_ret call].
      destruct (h (Backend_DeletePeer (Peer_ID peer)) s) as [r s1]. cbn in r.
      destruct r as [e|].
      * destruct (IH (errors ++ [e]) s1) as [IHd IHr].
        destruct (run h (removePeersLoop p rest (errors ++ [e])) s1) as [[o s2] t].
        unfold events, result in *. cbn [fst snd] in *.
        rewrite peerDeletions_cons, failures_cons_Some. cbn [map fst].
        split; [f_equal; exact IHd|].
        rewrite IHr, <- app_assoc. reflexivity.
      * destruct (IH errors s1) as [IHd IHr].
        destruct (run h (removePeersLoop p rest errors) s1) as [[o s2] t].
        unfold events, result in *. cbn [fst snd] in *.
        rewrite peerDeletions_cons, failures_cons_None. cbn [map fst].
        split; [f_equal; exact IHd|exact IHr].
    + rewrite (bool_decide_eq_false_2 _ Hin). cbn [negb]. apply IH.
Qed.

(** The executor that [NewUpdatePhaseInitLeader] builds holds the object
    peer IDs of the master servers of the operation. *)
Lemma NewUpdatePhaseInitLeader_existingPeers {S : Type} (h : Handler S) (s : S)
    (params : ExecutorParams) (packages localPackages : PackageService)
    (built : updatePhaseInit) :
  result (run h (NewUpdatePhaseInitLeader params packages localPackages) s)
  = Returned (inl built) ->
  exists data update,
    Phase_Data (Phase params) = Some data
    /\ Data_Update data = Some update
    /\ existingPeers built
       = map ObjectPeerID (SplitServers (Update_Servers update)).1.
Proof.
  unfold NewUpdatePhaseInitLeader.
  destruct (Phase_Data (Phase params)) as [data|]; [|discriminate].
  destruct (Data_Package data) as [pkg|]; [|discriminate].
  destruct (Data_InstalledPackage data) as [ipkg|]; [|discriminate].
  cbn [run bind mbind mret Prog_bind Prog_ret call].
  repeat match goal with
         | |- context [h ?c ?st] =>
             let r := fresh "r" in
             let st' := fresh "st" in
             destruct (h c st) as [r st']; cbn in r;
             destruct r as [?|?];
             cbn [run bind mbind mret Prog_bind Prog_ret call];
             [|unfold result; cbn [fst]; discriminate]
         end.
  destruct (Data_Update data) as [update|] eqn:Hupdate; unfold result; cbn [run fst].
  - intros Hbuilt. injection Hbuilt as <-. exists data, update.
    split; [reflexivity|]. split; [exact Hupdate|]. apply clusterPeers_masters.
  - discriminate.
Qed.

(** C4. When the peers can be listed, [removeInvalidObjectPeers] asks for
    the deletion of every peer whose ID is not among the existing peers of
    the executor and of no other peer, whatever the earlier deletions
    answered, and returns the aggregate of exactly the errors these
    deletions gave, nil when they gave none.  The existing peers of an
    executor built by [NewUpdatePhaseInitLeader] are the object peer IDs
    of the master servers of the operation. *)
Theorem invalid_peers_are_all_removed {S : Type} (h : Handler S)
    (p : updatePhaseInit) (s : S) (peers : list Peer) :
  (h Backend_GetPeers s).1 = inl peers ->
  let x := run h (removeInvalidObjectPeers p) s in
  let deletions := peerDeletions (events x) in
  map fst deletions = filter (fun id => id ∉ existingPeers p) (map Peer_ID peers)
  /\ Forall (fun d => d.1 ∉ existingPeers p) deletions
  /\ result x = Returned (NewAggregate (failures deletions))
  /\ (failures deletions = [] -> result x = Returned None)
  /\ (failures deletions ≠ [] ->
      result x = Returned (Some (Aggregate (failures deletions))))
  /\ (forall (s0 : S) (params : ExecutorParams) (packages localPackages : PackageService),
        result (run h (NewUpdatePhaseInitLeader params packages localPackages) s0)
        = Returned (inl p) ->
        exists data update,
          Phase_Data (Phase params) = Some data
          /\ Data_Update data = Some update
          /\ existingPeers p
             = map ObjectPeerID (SplitServers (Update_Servers update)).1).
Proof.
  intros Hpeers. cbn zeta.
  assert (Hrun : map fst (peerDeletions (events (run h (removeInvalidObjectPeers p) s)))
                 = filter (fun id => id ∉ existingPeers p) (map Peer_ID peers)
                 /\ result (run h (removeInvalidObjectPeers p) s)
                    = Returned (NewAggregate
                        (failures (peerDeletions
                           (events (run h (removeInvalidObjectPeers p) s)))))).
  { unfold removeInvalidObjectPeers.
    cbn [run bind mbind mret Prog_bind Prog_ret call].
    destruct (h Backend_GetPeers s) as [r s1]. cbn [fst] in Hpeers. subst r.
    pose proof (run_removePeersLoop h p peers [] s1) as [Hd Hr].
    destruct (run h (removePeersLoop p peers []) s1) as [[o s2] t].
    unfold events, result in *. cbn [fst snd] in *.
    split; [exact Hd|exact Hr]. }
  destruct Hrun as [Hd Hr].
  refine (conj Hd (conj _ (conj Hr (conj _ (conj _ _))))).
  4:{ intros s0 params packages localPackages Hbuilt.
      exact (NewUpdatePhaseInitLeader_existingPeers h s0 params packages
               localPackages p Hbuilt). }
  - apply Forall_forall. intros d Hin.
    assert (Hfst : d.1 ∈ map fst (peerDeletions
                     (events (run h (removeInvalidObjectPeers p) s))))
      by (apply list_elem_of_fmap; exists d; auto).
    rewrite Hd in Hfst. apply list_elem_of_filter in Hfst. tauto.
  - intros Hnone. rewrite Hr, Hnone. reflexivity.
  - intros Hsome. rewrite Hr.
    destruct (failures _) as [|e es]; [contradiction|reflexivity].
Qed.

End ObjectPeers.

Section ObjectPeersWitness.

#[local] Existing Instance demo.lib.
#[local] Existing Instance demo.meth.

(** Peers [peer-1], [peer-7] and [peer-8] with [peer-1] the only master:
    both other peers are deleted although deleting [peer-7] fails, and the
    failure is what is returned. *)
Lemma invalid_peers_are_all_removed_witness :
  let x := run demo.handler (removeInvalidObjectPeers demo.leader) tt in
  map fst (peerDeletions (events x)) = ["peer-7"; "peer-8"]
  /\ result x = Returned (Some (Aggregate [demo.refused])).
Proof.
  pose proof (invalid_peers_are_all_removed demo.handler demo.leader tt
                [mkPeer "peer-1" tt; mkPeer "peer-7" tt; mkPeer "peer-8" tt] eq_refl)
    as (Hd & _ & Hr & _).
  cbn zeta in *. split.
  - rewrite Hd. vm_compute. reflexivity.
  - rewrite Hr. vm_compute. reflexivity.
Defined.

End ObjectPeersWitness.

Section RollbackProofs.

Context {lib : PhasesLib} {meth : PhasesMethods}.

Lemma packageDeletions_cons (packages : PackageService) (l : Locator)
    (r : option error) (t : list Event) :
  packageDeletions (event (Packages_DeletePackage packages l) r :: t)
  = (l, r) :: packageDeletions t.
Proof. reflexivity. Qed.

Lemma packageDeletions_listing (packages : PackageService) (repository : string)
    (r : list PackageEnvelope + error) (t : list Event) :
  packageDeletions (event (Packages_GetPackages packages repository) r :: t)
  = packageDeletions t.
Proof. reflexivity. Qed.

Lemma run_removeIfMarked {S : Type} (h : Handler S) (p : updatePhaseInit)
    (e : PackageEnvelope) (s : S) :
  run h (removeIfMarked p e) s =
  if HasLabel e OperationIDLabel (Op_ID (Operation p))
  then let c := Packages_DeletePackage (Packages p) (Env_Locator e) in
       (Returned (h c s).1, (h c s).2, [event c (h c s).1])
  else (Returned None, s, []).
Proof.
  unfold removeIfMarked.
  destruct (HasLabel e OperationIDLabel (Op_ID (Operation p)));
    [exact (run_call h (Packages_DeletePackage (Packages p) (Env_Locator e)) s)
    |reflexivity].
Qed.

Lemma run_foreach_removeIfMarked {S : Type} (h : Handler S) (p : updatePhaseInit)
    (envelopes : list PackageEnvelope) (s : S) :
  let x := run h (foreachEnvelope (removeIfMarked p) envelopes) s in
  let deletions := packageDeletions (events x) in
  map fst deletions `prefix_of` markedPackages p envelopes
  /\ length (events x) = length deletions
  /\ (failures deletions = [] ->
      map fst deletions = markedPackages p envelopes /\ result x = Returned None).
Proof.
  cbn zeta. revert s. induction envelopes as [|e rest IH]; intros s.
  - cbn. split; [reflexivity|]. split; [reflexivity|]. intros _. split; reflexivity.
  - unfold markedPackages. rewrite filter_cons.
    cbn [foreachEnvelope]. rewrite run_mbind, run_removeIfMarked.
    destruct (HasLabel e OperationIDLabel (Op_ID (Operation p))) eqn:Hlabel.
    + destruct (decide (true = true)) as [_|Hne]; [|contradiction].
      cbn zeta. cbn [map].
      destruct (h (Packages_DeletePackage (Packages p) (Env_Locator e)) s) as [r s1].
      cbn [fst snd]. cbn in r. destruct r as [err|].
      * rewrite run_mret. unfold events, result. cbn [fst snd app].
        rewrite packageDeletions_cons, failures_cons_Some. cbn [map fst length].
        split; [apply prefix_cons, prefix_nil|].
        split; [reflexivity|discriminate].
      * destruct (IH s1) as (IHp & IHl & IHf).
        destruct (run h (foreachEnvelope (removeIfMarked p) rest) s1) as [[o s2] t].
        unfold events, result in *. cbn [fst snd app] in *.
        rewrite packageDeletions_cons, failures_cons_None. cbn [map fst length].
        split; [apply prefix_cons; exact IHp|].
        split; [f_equal; exact IHl|].
        intros Hnone. destruct (IHf Hnone) as [Heq Hres].
        split; [f_equal; exact Heq|exact Hres].
    + destruct (decide (false = true)) as [Hne|_]; [discriminate|].
      destruct (IH s) as (IHp & IHl & IHf).
      destruct (run h (foreachEnvelope (removeIfMarked p) rest) s) as [[o s2] t].
      unfold events, result in *. cbn [fst snd app] in *. auto.
Qed.

(** C3. [updatePhaseInitServer.Rollback] returns nil and does nothing.
    [updatePhaseInit.Rollback] lists the packages of the repository of the
    operation and then only deletes packages, in the order listed, that
    carry the operation-ID label with the ID of this operation: all of
    them, returning nil, when no deletion fails, and none, returning nil,
    when no listed package carries the label. *)
Theorem rollback_removes_packages_of_operation {S : Type} (h : Handler S)
    (p : updatePhaseInit) (s : S) (envelopes : list PackageEnvelope) :
  (h (Packages_GetPackages (Packages p) (Op_SiteDomain (Operation p))) s).1
  = inl envelopes ->
  let x := run h (Rollback p) s in
  let deletions := packageDeletions (events x) in
  (forall (q : updatePhaseInitServer) (s' : S),
     run h (Server_Rollback q) s' = (Returned None, s', []))
  /\ map fst deletions `prefix_of` markedPackages p envelopes
  /\ length (events x) = Datatypes.S (length deletions)
  /\ (failures deletions = [] ->
      map fst deletions = markedPackages p envelopes /\ result x = Returned None)
  /\ (markedPackages p envelopes = [] ->
      deletions = [] /\ result x = Returned None).
Proof.
  intros Hlist. cbn zeta. split; [reflexivity|].
  assert (Hrun : exists s1,
             run h (Rollback p) s
             = let '(o, s2, t) := run h (foreachEnvelope (removeIfMarked p) envelopes) s1 in
               (match o with
                | Returned (Some e) => Returned (Some (Wrap e ""))
                | _ => o
                end, s2,
                event (Packages_GetPackages (Packages p) (Op_SiteDomain (Operation p)))
                  (inl envelopes) :: t)).
  { exists (h (Packages_GetPackages (Packages p) (Op_SiteDomain (Operation p))) s).2.
    unfold Rollback.
    assert (Hfirst : match init p with
                     | Some i => Server_Rollback i
                     | None => mret None
                     end = Ret None) by (destruct (init p); reflexivity).
    rewrite Hfirst. rewrite run_step. cbn [run]. rewrite run_step.
    unfold removeConfiguredPackages, ForeachPackageInRepo.
    cbn [run bind mbind mret Prog_bind Prog_ret call].
    destruct (h (Packages_GetPackages (Packages p) (Op_SiteDomain (Operation p))) s)
      as [r s1].
    cbn [fst snd] in *. subst r.
    change (foreachEnvelope _ envelopes)
      with (foreachEnvelope (removeIfMarked p) envelopes).
    destruct (run h (foreachEnvelope (removeIfMarked p) envelopes) s1)
      as [[[[e|]|] s2] t]; cbn; rewrite ?app_nil_r; reflexivity. }
  destruct Hrun as [s1 Hrun]. rewrite Hrun.
  destruct (run_foreach_removeIfMarked h p envelopes s1) as (Hp & Hl & Hf).
  destruct (run h (foreachEnvelope (removeIfMarked p) envelopes) s1) as [[o s2] t].
  unfold events, result in *. cbn [fst snd] in *.
  rewrite packageDeletions_listing. cbn [length].
  split; [exact Hp|]. split; [f_equal; exact Hl|].
  assert (Hall : failures (packageDeletions t) = [] ->
                 map fst (packageDeletions t) = markedPackages p envelopes
                 /\ match o with
                    | Returned (Some e) => Returned (Some (Wrap e ""))
                    | _ => o
                    end = Returned None).
  { intros Hnone. destruct (Hf Hnone) as [Heq Hres]. subst o. auto. }
  split; [exact Hall|].
  intros Hnomark. rewrite Hnomark in Hp.
  assert (Hdel : packageDeletions t = []).
  { apply prefix_nil_inv in Hp. destruct (packageDeletions t); [reflexivity|discriminate]. }
  split; [exact Hdel|]. apply Hall. rewrite Hdel. reflexivity.
Qed.

End RollbackProofs.

Section RollbackWitness.

#[local] Existing Instance demo.lib.
#[local] Existing Instance demo.meth.

(** Of three packages in the repository, the two labelled with operation
    [op-1] are deleted. *)
Lemma rollback_removes_packages_of_operation_witness :
  let x := run demo.handler (Rollback demo.leader) tt in
  map fst (packageDeletions (events x))
  = [mkLocator "example.com" "planet-config" "7.0.1";
     mkLocator "example.com" "teleport-node-config" "7.0.1"]
  /\ result x = Returned None.
Proof.
  pose proof (rollback_removes_packages_of_operation demo.handler demo.leader tt
                _ eq_refl) as (_ & _ & _ & Hall & _).
  cbn zeta in *. destruct (Hall eq_refl) as [Hd Hr].
  split; [rewrite Hd; vm_compute; reflexivity|exact Hr].
Defined.

End RollbackWitness.

Section PackageLabels.

Context {lib : PhasesLib} {meth : PhasesMethods}.

Lemma labelCalls_cons (packages : PackageService) (u : LabelUpdate)
    (r : option error) (t : list Event) :
  labelCalls (event (Packages_UpdatePackageLabels packages (LU_Locator u)
                       (LU_Add u) (LU_Remove u)) r :: t)
  = (u, r) :: labelCalls t.
Proof. destruct u; reflexivity. Qed.

(** The loop that applies the label updates, read off its run: the calls
    are the updates in order up to where the loop ended, and the loop ends
    after the last update with nil, or at the first error that is not a
    "not found" with that error. *)
Lemma run_applyLabelUpdates {S : Type} (h : Handler S) (packages : PackageService)
    (updates : list LabelUpdate) (s : S) :
  let x := run h (applyLabelUpdates packages updates) s in
  let calls := labelCalls (events x) in
  map fst calls `prefix_of` updates
  /\ length (events x) = length calls
  /\ ((map fst calls = updates
       /\ Forall (fun c => fatal c.2 = false) calls
       /\ result x = Returned None)
      \/ (exists before u e,
            calls = before ++ [(u, Some e)]
            /\ Forall (fun c => fatal c.2 = false) before
            /\ IsNotFound (Some e) = false
            /\ result x = Returned (Some (Wrap e "")))).
Proof.
  cbn zeta. revert s. induction updates as [|u rest IH]; intros s.
  - cbn. split; [reflexivity|]. split; [reflexivity|]. left. auto.
  - cbn [applyLabelUpdates run bind mbind mret Prog_bind Prog_ret call].
    destruct (h (Packages_UpdatePackageLabels packages (LU_Locator u) (LU_Add u)
                   (LU_Remove u)) s) as [r s1].
    cbn in r.
    destruct r as [e|]; [destruct (IsNotFound (Some e)) eqn:Enf|]; cbn [negb].
    + (* not found: go on *)
      destruct (IH s1) as (IHp & IHl & IHe).
      destruct (run h (applyLabelUpdates packages rest) s1) as [[o s2] t].
      unfold events, result in *. cbn [fst snd] in *.
      rewrite labelCalls_cons. cbn [map fst length].
      split; [apply prefix_cons; exact IHp|]. split; [f_equal; exact IHl|].
      destruct IHe as [(Heq & Hall & Hres)|(before & u' & e' & Heq & Hall & Hnf & Hres)].
      * left. split; [f_equal; exact Heq|]. split; [|exact Hres].
        constructor; [|exact Hall]. unfold fatal. cbn [snd]. rewrite Enf. reflexivity.
      * right. exists ((u, Some e) :: before), u', e'.
        split; [rewrite Heq; reflexivity|]. split; [|auto].
        constructor; [|exact Hall]. unfold fatal. cbn [snd]. rewrite Enf. reflexivity.
    + (* another error: stop *)
      cbn [run mret Prog_ret]. unfold events, result. cbn [fst snd].
      rewrite (labelCalls_cons packages u (Some e) []). cbn [map fst length].
      split; [apply prefix_cons, prefix_nil|].
      split; [reflexivity|]. right. exists [], u, e. cbn [app]. auto.
    + (* no error: go on *)
      change (IsNotFound None) with false. cbn [negb].
      destruct (IH s1) as (IHp & IHl & IHe).
      destruct (run h (applyLabelUpdates packages rest) s1) as [[o s2] t].
      unfold events, result in *. cbn [fst snd] in *.
      rewrite labelCalls_cons. cbn [map fst length].
      split; [apply prefix_cons; exact IHp|]. split; [f_equal; exact IHl|].
      destruct IHe as [(Heq & Hall & Hres)|(before & u' & e' & Heq & Hall & Hnf & Hres)].
      * left. split; [f_equal; exact Heq|]. split; [|exact Hres].
        constructor; [reflexivity|exact Hall].
      * right. exists ((u, None) :: before), u', e'.
        split; [rewrite Heq; reflexivity|]. split; [|auto].
        constructor; [reflexivity|exact Hall].
Qed.

Lemma labelCalls_app (t u : list Event) :
  labelCalls (t ++ u) = labelCalls t ++ labelCalls u.
Proof. unfold labelCalls. apply omap_app. Qed.

Lemma labelCalls_avoided (t : list Event) :
  Forall (fun ev : Event => isLabelCall (projT1 ev) = false) t -> labelCalls t = [].
Proof.
  induction 1 as [|[c r] t Hc _ IH]; [reflexivity|].
  cbn [projT1] in Hc. destruct c; try discriminate Hc; exact IH.
Qed.

(** What the loop makes of an error it was answered: one that is not a
    "not found" ends it and is returned, and after a "not found" the loop
    ends only when no update is left, with nil. *)
Lemma applyLabelUpdates_on_error {S : Type} (h : Handler S) (packages : PackageService)
    (updates : list LabelUpdate) (s : S)
    (before after : list (LabelUpdate * option error)) (u : LabelUpdate) (e : error) :
  let x := run h (applyLabelUpdates packages updates) s in
  labelCalls (events x) = before ++ (u, Some e) :: after ->
  (IsNotFound (Some e) = false ->
   after = [] /\ result x = Returned (Some (Wrap e "")))
  /\ (IsNotFound (Some e) = true -> after = [] ->
      map fst (labelCalls (events x)) = updates /\ result x = Returned None).
Proof.
  cbn zeta. intros Hcalls.
  destruct (run_applyLabelUpdates h packages updates s) as (_ & _ & He).
  cbn zeta in He.
  destruct He as [(Heq & Hall & Hres)|(before' & u' & e' & Heq & Hall & Hnf' & Hres)].
  - split.
    + intros Hnf. exfalso. rewrite Hcalls in Hall. apply Forall_app in Hall as [_ Hhere].
      inversion Hhere as [|c cs Hc _]; subst. unfold fatal in Hc. cbn [snd] in Hc.
      rewrite Hnf in Hc. discriminate.
    + intros _ _. auto.
  - rewrite Heq in Hcalls. split.
    + intros Hnf. destruct after as [|a after].
      * apply app_inj_tail in Hcalls as [_ Hc]. injection Hc as _ <-. auto.
      * exfalso.
        assert (Hin : (u, Some e) ∈ before').
        { assert (Hlen : before' = removelast (before ++ (u, Some e) :: a :: after)).
          { rewrite <- Hcalls. rewrite removelast_app by discriminate.
            cbn. rewrite app_nil_r. reflexivity. }
          rewrite Hlen. rewrite removelast_app by discriminate.
          apply elem_of_app. right. cbn [removelast].
          destruct after; left. }
        rewrite Forall_forall in Hall. specialize (Hall _ Hin).
        unfold fatal in Hall. cbn [snd] in Hall. rewrite Hnf in Hall. discriminate.
    + intros Hnf ->. exfalso.
      apply app_inj_tail in Hcalls as [_ Hc]. injection Hc as _ <-. congruence.
Qed.

Lemma avoids_labels_lookups (packages : PackageService) (l : Locator) (name : string) :
  avoids isLabelCall (updateRuntimeConfigLabels packages l)
  /\ avoids isLabelCall (updateTeleportConfigLabels packages name)
  /\ avoids isLabelCall (updateRuntimeSecretLabels packages).
Proof.
  unfold updateRuntimeConfigLabels, updateTeleportConfigLabels,
    updateRuntimeSecretLabels.
  repeat split; avoids_straight.
Qed.

(** A run of [updateExistingPackageLabels]: a lookup fails and no label is
    touched, or the label calls and the result are those of the loop on
    some list of updates. *)
Lemma run_updateExistingPackageLabels {S : Type} (h : Handler S)
    (q : updatePhaseInitServer) (s : S) :
  let x := run h (updateExistingPackageLabels q) s in
  (labelCalls (events x) = [] /\ result x ≠ Returned None)
  \/ exists updates s',
       labelCalls (events x)
       = labelCalls (events (run h (applyLabelUpdates (localPackages q) updates) s'))
       /\ result x = result (run h (applyLabelUpdates (localPackages q) updates) s').
Proof.
  cbn zeta. unfold updateExistingPackageLabels.
  destruct (avoids_labels_lookups (localPackages q) (US_Installed (server q))
              (clusterName q)) as (Hc & Ht & Hs).
  rewrite run_mbind.
  destruct (run h (updateRuntimeConfigLabels _ _) s) as [[[[l1|e1]|] s1] t1] eqn:E1;
    pose proof (labelCalls_avoided _ (avoids_run_eq _ _ _ _ _ _ _ Hc E1)) as H1.
  2,3: left; unfold events, result; cbn [run mret Prog_ret fst snd];
       rewrite ?app_nil_r; split; [exact H1|discriminate].
  rewrite run_mbind.
  destruct (run h (updateTeleportConfigLabels _ _) s1) as [[[[l2|e2]|] s2] t2] eqn:E2;
    pose proof (labelCalls_avoided _ (avoids_run_eq _ _ _ _ _ _ _ Ht E2)) as H2.
  2,3: left; unfold events, result; cbn [run mret Prog_ret fst snd];
       rewrite ?app_nil_r, ?labelCalls_app, H1, H2; split; [reflexivity|discriminate].
  rewrite run_mbind.
  destruct (run h (updateRuntimeSecretLabels _) s2) as [[[[l3|e3]|] s3] t3] eqn:E3;
    pose proof (labelCalls_avoided _ (avoids_run_eq _ _ _ _ _ _ _ Hs E3)) as H3.
  2,3: left; unfold events, result; cbn [run mret Prog_ret fst snd];
       rewrite ?app_nil_r, ?labelCalls_app, H1, H2, H3; split; [reflexivity|discriminate].
  right. exists (labelUpdates (US_Installed (server q)) l1 l3 l2), s3.
  destruct (run h (applyLabelUpdates _ _) s3) as [[o s4] t4].
  unfold events, result. cbn [fst snd].
  rewrite !labelCalls_app, H1, H2, H3. split; reflexivity.
Qed.

(** The errors that count as "not found": those of [trace], and those
    of the file system. *)
Lemma IsNotFound_cases (e : error) :
  IsNotFound (Some e) = true
  <-> kindOf e = Some NotFound \/ kindOf e = Some OsNotExist.
Proof.
  unfold IsNotFound, os_IsNotExist, isKind.
  rewrite orb_true_iff, !bool_decide_eq_true. reflexivity.
Qed.


End PackageLabels.

Section PackageLabelsWitness.

#[local] Existing Instance demo.lib.
#[local] Existing Instance demo.meth.


End PackageLabelsWitness.

Section ClusterRoles.

Context {lib : PhasesLib} {meth : PhasesMethods}.

Lemma serversByIP_lookup (servers : list Server) (state : gmap string Server)
    (ip : string) :
  foldl (fun st srv => <[AdvertiseIP srv := srv]> st) state servers !! ip
  = match last (filter (fun srv => AdvertiseIP srv = ip) servers) with
    | Some srv => Some srv
    | None => state !! ip
    end.
Proof.
  revert state. induction servers as [|srv rest IH]; intros state.
  - reflexivity.
  - cbn [foldl]. rewrite IH, filter_cons.
    destruct (decide (AdvertiseIP srv = ip)) as [Heq|Hne].
    + rewrite last_cons.
      destruct (last (filter (fun srv0 => AdvertiseIP srv0 = ip) rest)); [reflexivity|].
      rewrite Heq. apply lookup_insert_eq.
    + destruct (last (filter (fun srv0 => AdvertiseIP srv0 = ip) rest)); [reflexivity|].
      apply lookup_insert_ne. exact Hne.
Qed.

Lemma stateRole_planRole (servers : list Server) (ip : string) :
  stateRole (serversByIP servers) ip = planRole servers ip.
Proof.
  unfold stateRole, serversByIP, planRole. rewrite serversByIP_lookup.
  destruct (last (filter (fun srv => AdvertiseIP srv = ip) servers)); [reflexivity|].
  rewrite lookup_empty. reflexivity.
Qed.

(** The loop by index does to the slice what [assignRole] does to each
    of its elements. *)
Lemma assignRoles_map (state : gmap string Server) (servers : list Server) :
  assignRoles state servers = map (assignRole state) servers.
Proof.
  unfold assignRoles.
  set (f := fun (acc : list Server) (i : nat) => _).
  assert (H : forall k, (k <= length servers)%nat ->
              foldl f servers (seq 0 k)
              = map (assignRole state) (take k servers) ++ drop k servers).
  { induction k as [|k IH]; intros Hk.
    - reflexivity.
    - rewrite seq_S, foldl_app, IH by lia. cbn [foldl plus].
      destruct (lookup_lt_is_Some_2 servers k ltac:(lia)) as [srv Hsrv].
      rewrite (take_S_r _ _ _ Hsrv), map_app. cbn [map].
      rewrite (drop_S _ _ _ Hsrv).
      assert (Hlen : length (map (assignRole state) (take k servers)) = k).
      { rewrite length_map, length_take. lia. }
      subst f. cbn beta. rewrite Hsrv.
      destruct (nonEmpty (ClusterRole srv)) eqn:Hrole.
      + assert (Hg : assignRole state srv = srv)
          by (unfold assignRole; rewrite Hrole; reflexivity).
        rewrite Hg, <- app_assoc. reflexivity.
      + assert (Hg : assignRole state srv
                     = {| AdvertiseIP := AdvertiseIP srv;
                          ClusterRole := stateRole state (AdvertiseIP srv);
                          Server_Rest := Server_Rest srv |})
          by (unfold assignRole; rewrite Hrole; reflexivity).
        rewrite Hg.
        rewrite lookup_app_r by lia. rewrite Hlen, Nat.sub_diag. cbn [lookup list_lookup].
        rewrite insert_app_r_alt by lia. rewrite Hlen, Nat.sub_diag.
        cbn [insert list_insert]. rewrite <- app_assoc. reflexivity. }
  rewrite (H (length servers)) by lia.
  rewrite firstn_all, drop_all, app_nil_r. reflexivity.
Qed.

(** C10. When the cluster record can be read, [updateClusterRoles] hands
    one record to [UpdateSite].  It differs from the record read only in
    the cluster roles of the servers that had none: each of these has the
    role of the plan server with its advertise IP, or still none if the
    plan has no such server.  The servers that had a role, the other
    fields of every server and the other fields of the record are as they
    were read. *)
Theorem updateClusterRoles_changes_empty_roles_only {S : Type} (h : Handler S)
    (p : updatePhaseInit) (s : S) (cluster : Site) :
  (h (Backend_GetLocalSite SystemAccountID) s).1 = inl cluster ->
  exists written : Site,
    siteWrites (events (run h (updateClusterRoles p) s)) = [written]
    /\ Site_ServiceUser written = Site_ServiceUser cluster
    /\ Site_DNSConfig written = Site_DNSConfig cluster
    /\ Site_Rest written = Site_Rest cluster
    /\ Docker (Site_ClusterState written) = Docker (Site_ClusterState cluster)
    /\ length (Servers (Site_ClusterState written))
       = length (Servers (Site_ClusterState cluster))
    /\ forall (i : nat) (old : Server),
         Servers (Site_ClusterState cluster) !! i = Some old ->
         exists new : Server,
           Servers (Site_ClusterState written) !! i = Some new
           /\ AdvertiseIP new = AdvertiseIP old
           /\ Server_Rest new = Server_Rest old
           /\ (ClusterRole old ≠ "" -> new = old)
           /\ (ClusterRole old = "" ->
               ClusterRole new = planRole (Init_Servers p) (AdvertiseIP old)).
Proof.
  intros Hread.
  exists (setServers cluster
            (map (assignRole (serversByIP (Init_Servers p)))
               (Servers (Site_ClusterState cluster)))).
  split.
  { unfold updateClusterRoles. cbn [run bind mbind mret Prog_bind Prog_ret call].
    destruct (h (Backend_GetLocalSite SystemAccountID) s) as [r s1].
    cbn [fst] in Hread. subst r.
    cbn [run bind mbind mret Prog_bind Prog_ret call].
    rewrite assignRoles_map.
    destruct (h (Backend_UpdateSite _) s1) as [w s2]. cbn in w.
    destruct w as [e|]; reflexivity. }
  cbn [setServers Site_ServiceUser Site_DNSConfig Site_Rest Site_ClusterState
       Docker Servers].
  repeat (split; [reflexivity|]).
  split; [apply length_map|].
  intros i old Hold.
  exists (assignRole (serversByIP (Init_Servers p)) old).
  split; [rewrite list_lookup_fmap, Hold; reflexivity|].
  unfold assignRole. destruct (nonEmpty (ClusterRole old)) eqn:Hrole.
  - apply nonEmpty_true in Hrole. repeat split; try reflexivity. contradiction.
  - apply nonEmpty_false in Hrole. cbn [AdvertiseIP Server_Rest ClusterRole].
    repeat split; try reflexivity.
    + intros Hne. contradiction.
    + intros _. apply stateRole_planRole.
Qed.

End ClusterRoles.

Section ClusterRolesWitness.

#[local] Existing Instance demo.lib.
#[local] Existing Instance demo.meth.

(** A record of three servers, the first a master already; the plan knows
    the first two.  The second gets the role of its plan server and the
    third stays without a role. *)
Lemma updateClusterRoles_changes_empty_roles_only_witness :
  exists written : Site,
    siteWrites (events (run demo.handler (updateClusterRoles demo.leader) tt))
    = [written]
    /\ Site_DNSConfig written = Site_DNSConfig demo.site
    /\ exists new : Server,
         Servers (Site_ClusterState written) !! 1%nat = Some new
         /\ ClusterRole new = "node".
Proof.
  destruct (updateClusterRoles_changes_empty_roles_only demo.handler demo.leader tt
              demo.site eq_refl)
    as (written & Hw & _ & Hdns & _ & _ & _ & Hsrv).
  exists written. split; [exact Hw|]. split; [exact Hdns|].
  destruct (Hsrv 1%nat _ eq_refl)
    as (new & Hnew & _ & _ & _ & Hrole).
  exists new. split; [exact Hnew|]. rewrite (Hrole eq_refl). reflexivity.
Defined.

End ClusterRolesWitness.

Section Rerun.

Context {lib : PhasesLib} {meth : PhasesMethods}.
Context {S : Type} (h : Handler S) (stored : S -> option Site).
Hypothesis Hstore : SiteStore h stored.
Variable p : updatePhaseInit.
Variable cluster : Site.
Hypothesis Hsettled : settled p cluster.

Local Abbreviation keeps := (keepsRecord h stored cluster).

Lemma keeps_ret {A : Type} (a : A) : keeps (mret a : Prog A).
Proof. intros s Hs. exact Hs. Qed.

Lemma keeps_bind {A B : Type} (m : Prog A) (f : A -> Prog B) :
  keeps m -> (forall a, keeps (f a)) -> keeps (m ≫= f).
Proof.
  intros Hm Hf s Hs. rewrite run_mbind. specialize (Hm s Hs).
  destruct (run h m s) as [[[a|] s1] t1]; unfold final in *; cbn [fst snd] in *.
  - specialize (Hf a s1 Hm). destruct (run h (f a) s1) as [[o s2] t2].
    unfold final in Hf. exact Hf.
  - exact Hm.
Qed.

Lemma keeps_step (m next : Prog (option error)) (msg : string) :
  keeps m -> keeps next -> keeps (step m msg next).
Proof.
  intros Hm Hn. unfold step. apply keeps_bind; [exact Hm|].
  intros [e|]; [apply keeps_ret|exact Hn].
Qed.

Lemma keeps_avoids {A : Type} (m : Prog A) : avoids isUpdateSite m -> keeps m.
Proof.
  induction m as [a| |c k IH]; intros Hm s Hs.
  - exact Hs.
  - exact Hs.
  - destruct Hm as [Hc Hk]. cbn [run].
    pose proof (store_other h stored Hstore s c Hc) as Hsame.
    destruct (h c s) as [r s1]. cbn [snd] in Hsame.
    specialize (IH r (Hk r) s1 ltac:(congruence)).
    destruct (run h (k r) s1) as [[o s2] t]. exact IH.
Qed.

(** Reading the record, then going on with what was read. *)
Lemma keeps_read (k : Site -> Prog (option error)) :
  keeps (k cluster) ->
  keeps (r ← call (Backend_GetLocalSite SystemAccountID);
         match r with
         | inr err => mret (Some (Wrap err ""))
         | inl c => k c
         end).
Proof.
  intros Hk s Hs. cbn [run bind mbind mret Prog_bind Prog_ret call].
  pose proof (store_read h stored Hstore s) as Hread.
  pose proof (store_other h stored Hstore s (Backend_GetLocalSite SystemAccountID)
                eq_refl) as Hsame.
  destruct (h (Backend_GetLocalSite SystemAccountID) s) as [r s1].
  cbn [fst snd] in *. destruct r as [c|err].
  - specialize (Hread c eq_refl). assert (c = cluster) by congruence. subst c.
    specialize (Hk s1 ltac:(congruence)).
    destruct (run h (k cluster) s1) as [[o s2] t]. exact Hk.
  - cbn. congruence.
Qed.

(** Writing the record that is stored already. *)
Lemma keeps_write :
  keeps (err ← call (Backend_UpdateSite cluster);
         match err with
         | Some e => mret (Some (Wrap e ""))
         | None => mret None
         end).
Proof.
  intros s Hs. cbn [run bind mbind mret Prog_bind Prog_ret call].
  pose proof (store_written h stored Hstore s cluster) as Hok.
  pose proof (store_refused h stored Hstore s cluster) as Hko.
  destruct (h (Backend_UpdateSite cluster) s) as [w s1].
  cbn [fst snd] in *. cbn in w. destruct w as [e|]; cbn.
  - rewrite (Hko e eq_refl). exact Hs.
  - exact (Hok eq_refl).
Qed.

Lemma assignRoles_settled :
  assignRoles (serversByIP (Init_Servers p)) (Servers (Site_ClusterState cluster))
  = Servers (Site_ClusterState cluster).
Proof.
  rewrite assignRoles_map.
  destruct Hsettled as (_ & _ & _ & Hroles).
  induction Hroles as [|srv rest Hsrv _ IH]; [reflexivity|].
  cbn [map]. rewrite IH. f_equal.
  unfold assignRole. destruct (nonEmpty (ClusterRole srv)) eqn:Hrole; [reflexivity|].
  apply nonEmpty_false in Hrole. rewrite stateRole_planRole, (Hsrv Hrole).
  destruct srv as [ip role rest']. cbn in *. subst role. reflexivity.
Qed.

Lemma keeps_upsertServiceUser : keeps (upsertServiceUser p).
Proof.
  unfold upsertServiceUser.
  apply (keeps_read (fun c =>
           if negb (OSUser_IsEmpty (Site_ServiceUser c)) then mret None else _)).
  destruct Hsettled as (Huser & _). rewrite Huser. apply keeps_ret.
Qed.

Lemma keeps_updateDockerConfig : keeps (updateDockerConfig p).
Proof.
  unfold updateDockerConfig.
  apply (keeps_read (fun c =>
           if negb (DockerConfig_IsEmpty (Docker (Site_ClusterState c)))
           then mret None
           else
             err ← call (Backend_UpdateSite (setDocker c (existingDocker p)));
             match err with
             | Some e => mret (Some (Wrap e ""))
             | None => mret None
             end)).
  destruct Hsettled as (_ & _ & Hdocker & _).
  destruct (DockerConfig_IsEmpty (Docker (Site_ClusterState cluster))) eqn:Hempty;
    cbn [negb]; [|apply keeps_ret].
  destruct Hdocker as [Hset|Hsame]; [discriminate|].
  assert (Hrec : setDocker cluster (existingDocker p) = cluster).
  { rewrite <- Hsame. destruct cluster as [u d [srvs dk] rest]. reflexivity. }
  rewrite Hrec. apply keeps_write.
Qed.

Lemma keeps_updateClusterDNSConfig : keeps (updateClusterDNSConfig p).
Proof.
  unfold updateClusterDNSConfig.
  apply (keeps_read (fun c =>
           let c' := if DNSConfig_IsEmpty (Site_DNSConfig c)
                     then setDNSConfig c (existingDNS p) else c in
           err ← call (Backend_UpdateSite c');
           match err with
           | Some e => mret (Some (Wrap e ""))
           | None => mret None
           end)).
  cbn zeta. destruct Hsettled as (_ & Hdns & _).
  destruct (DNSConfig_IsEmpty (Site_DNSConfig cluster)) eqn:Hempty;
    [|apply keeps_write].
  destruct Hdns as [Hset|Hsame]; [discriminate|].
  assert (Hrec : setDNSConfig cluster (existingDNS p) = cluster).
  { rewrite <- Hsame. destruct cluster as [u d cs rest]. reflexivity. }
  rewrite Hrec. apply keeps_write.
Qed.

Lemma keeps_updateClusterRoles : keeps (updateClusterRoles p).
Proof.
  unfold updateClusterRoles.
  apply (keeps_read (fun c =>
           let c' := setServers c
                       (assignRoles (serversByIP (Init_Servers p))
                          (Servers (Site_ClusterState c))) in
           err ← call (Backend_UpdateSite c');
           match err with
           | Some e => mret (Some (Wrap e ""))
           | None => mret None
           end)).
  cbn zeta. rewrite assignRoles_settled.
  assert (Hsame : setServers cluster (Servers (Site_ClusterState cluster)) = cluster).
  { destruct cluster as [u d [srvs dk] rest]. reflexivity. }
  rewrite Hsame. apply keeps_write.
Qed.

Lemma avoids_write_removeLegacyUpdateDirectory :
  avoids isUpdateSite removeLegacyUpdateDirectory.
Proof. unfold removeLegacyUpdateDirectory. avoids_straight. Qed.

Lemma avoids_write_createAdminAgent : avoids isUpdateSite (createAdminAgent p).
Proof. unfold createAdminAgent. avoids_straight. Qed.

Lemma avoids_write_initRPCCredentials : avoids isUpdateSite (initRPCCredentials p).
Proof. unfold initRPCCredentials. avoids_straight. Qed.

Lemma avoids_write_removeInvalidObjectPeers :
  avoids isUpdateSite (removeInvalidObjectPeers p).
Proof.
  unfold removeInvalidObjectPeers.
  cbn [avoids bind mbind mret Prog_bind Prog_ret call].
  split; [reflexivity|]. intros [peers|e]; [|exact I].
  apply avoids_removePeersLoop. reflexivity.
Qed.

Lemma avoids_write_Server_Execute (q : updatePhaseInitServer) :
  avoids isUpdateSite (Server_Execute q).
Proof.
  unfold Server_Execute. apply avoids_bind; [|intros [e|]; exact I].
  unfold updateExistingPackageLabels.
  apply avoids_bind; [unfold updateRuntimeConfigLabels; avoids_straight|].
  intros [l1|e1]; [|exact I].
  apply avoids_bind; [unfold updateTeleportConfigLabels; avoids_straight|].
  intros [l2|e2]; [|exact I].
  apply avoids_bind; [unfold updateRuntimeSecretLabels; avoids_straight|].
  intros [l3|e3]; [|exact I].
  apply avoids_applyLabelUpdates. reflexivity.
Qed.

(** [Execute] on a backend whose stored record is settled leaves the
    record as it is, whatever the collaborators answer. *)
Lemma Execute_keeps_settled_record : keeps (Execute p).
Proof.
  unfold Execute.
  apply keeps_bind; [apply keeps_avoids, avoids_write_removeLegacyUpdateDirectory|].
  intros _.
  apply keeps_step; [apply keeps_avoids, avoids_write_createAdminAgent|].
  apply keeps_step; [apply keeps_upsertServiceUser|].
  apply keeps_step; [apply keeps_avoids, avoids_write_initRPCCredentials|].
  apply keeps_step; [apply keeps_updateClusterRoles|].
  apply keeps_step; [apply keeps_updateClusterDNSConfig|].
  apply keeps_step; [apply keeps_updateDockerConfig|].
  apply keeps_step; [apply keeps_avoids, avoids_write_removeInvalidObjectPeers|].
  destruct (init p) as [q|]; [|apply keeps_ret].
  apply keeps_step; [apply keeps_avoids, avoids_write_Server_Execute|apply keeps_ret].
Qed.

End Rerun.

Section FirstRun.

Context {lib : PhasesLib} {meth : PhasesMethods}.
Context {S : Type} (h : Handler S) (stored : S -> option Site).
Hypothesis Hstore : SiteStore h stored.
Variable p : updatePhaseInit.
(** The service user the phase writes counts as set. *)
Hypothesis Huser : forall user, OSUser_IsEmpty (serviceUserOf user) = false.

Lemma stored_avoids {A : Type} (m : Prog A) (s s' : S) (o : Outcome A)
    (t : list Event) :
  avoids isUpdateSite m -> run h m s = (o, s', t) -> stored s' = stored s.
Proof.
  revert s s' o t. induction m as [a| |c k IH]; intros s s' o t Hm Hrun.
  - injection Hrun as _ <- _. reflexivity.
  - injection Hrun as _ <- _. reflexivity.
  - destruct Hm as [Hc Hk]. cbn [run] in Hrun.
    pose proof (store_other h stored Hstore s c Hc) as Hsame.
    destruct (h c s) as [r s1]. cbn [snd] in Hsame.
    destruct (run h (k r) s1) as [[o' s2] t'] eqn:Ek.
    injection Hrun as _ <- _. rewrite (IH r s1 s2 o' t' (Hk r) Ek). exact Hsame.
Qed.

(** A step that reads the record and then writes [g] of it or nothing:
    when it returns nil, the stored record is the one read or the one
    written. *)
Lemma read_then_write (g : Site -> option Site) (k : Site -> Prog (option error))
    (s s' : S) (t : list Event) :
  (forall c, k c = match g c with
                   | None => mret None
                   | Some c' =>
                       err ← call (Backend_UpdateSite c');
                       match err with
                       | Some e => mret (Some (Wrap e ""))
                       | None => mret None
                       end
                   end) ->
  run h (r ← call (Backend_GetLocalSite SystemAccountID);
         match r with
         | inr err => mret (Some (Wrap err ""))
         | inl c => k c
         end) s = (Returned None, s', t) ->
  exists c, stored s = Some c
            /\ stored s' = Some (match g c with Some c' => c' | None => c end).
Proof.
  intros Hk. cbn [run bind mbind mret Prog_bind Prog_ret call].
  pose proof (store_read h stored Hstore s) as Hread.
  pose proof (store_other h stored Hstore s (Backend_GetLocalSite SystemAccountID)
                eq_refl) as Hsame.
  destruct (h (Backend_GetLocalSite SystemAccountID) s) as [r s1].
  cbn [fst snd] in *. destruct r as [c|err]; [|discriminate].
  specialize (Hread c eq_refl). intros Hrun. exists c. split; [exact Hread|].
  rewrite Hk in Hrun. destruct (g c) as [c'|].
  - cbn [run bind mbind mret Prog_bind Prog_ret call] in Hrun.
    pose proof (store_written h stored Hstore s1 c') as Hok.
    destruct (h (Backend_UpdateSite c') s1) as [w s2]. cbn [fst snd] in *.
    cbn in w. destruct w as [e|]; [discriminate|].
    injection Hrun as <- _. exact (Hok eq_refl).
  - injection Hrun as <- _. congruence.
Qed.

Lemma first_upsertServiceUser (s s' : S) (t : list Event) :
  run h (upsertServiceUser p) s = (Returned None, s', t) ->
  exists c, stored s' = Some c /\ OSUser_IsEmpty (Site_ServiceUser c) = false.
Proof.
  unfold upsertServiceUser.
  cbn [run bind mbind mret Prog_bind Prog_ret call].
  pose proof (store_read h stored Hstore s) as Hread.
  pose proof (store_other h stored Hstore s (Backend_GetLocalSite SystemAccountID)
                eq_refl) as Hsame.
  destruct (h (Backend_GetLocalSite SystemAccountID) s) as [r s1].
  cbn [fst snd] in *. destruct r as [c|err]; [|discriminate].
  specialize (Hread c eq_refl).
  destruct (OSUser_IsEmpty (Site_ServiceUser c)) eqn:Hempty; cbn [negb].
  - cbn [run bind mbind mret Prog_bind Prog_ret call].
    pose proof (store_other h stored Hstore s1
                  (Install_GetOrCreateServiceUser ServiceUserID ServiceGroupID)
                  eq_refl) as Hsame2.
    destruct (h (Install_GetOrCreateServiceUser ServiceUserID ServiceGroupID) s1)
      as [r2 s2].
    cbn [fst snd] in *. cbn in r2. destruct r2 as [user|err]; [|discriminate].
    cbn [run bind mbind mret Prog_bind Prog_ret call].
    pose proof (store_written h stored Hstore s2
                  (setServiceUser c (serviceUserOf user))) as Hok.
    change {| OSUser_Name := SysUser_Name user;
              OSUser_UID := Itoa (SysUser_UID user);
              OSUser_GID := Itoa (SysUser_GID user) |} with (serviceUserOf user).
    destruct (h (Backend_UpdateSite (setServiceUser c (serviceUserOf user))) s2)
      as [w s3].
    cbn [fst snd] in *. cbn in w. destruct w as [e|]; [discriminate|].
    intros Hrun. injection Hrun as <- _.
    exists (setServiceUser c (serviceUserOf user)). split; [exact (Hok eq_refl)|].
    apply Huser.
  - intros Hrun. injection Hrun as <- _. exists c. split; [congruence|exact Hempty].
Qed.

Lemma rolesAssigned_assignRole (servers : list Server) :
  Forall (fun srv => ClusterRole srv = "" ->
                     planRole (Init_Servers p) (AdvertiseIP srv) = "")
    (map (assignRole (serversByIP (Init_Servers p))) servers).
Proof.
  apply Forall_forall. intros srv' Hin.
  apply list_elem_of_fmap in Hin as (srv & -> & _).
  unfold assignRole. destruct (nonEmpty (ClusterRole srv)) eqn:Hrole.
  - apply nonEmpty_true in Hrole. intros Hnone. contradiction.
  - cbn [ClusterRole AdvertiseIP]. rewrite stateRole_planRole. auto.
Qed.

Lemma first_updateClusterRoles (s s' : S) (t : list Event) (c : Site) :
  stored s = Some c ->
  run h (updateClusterRoles p) s = (Returned None, s', t) ->
  exists c', stored s' = Some c'
             /\ Site_ServiceUser c' = Site_ServiceUser c
             /\ rolesAssigned p c'.
Proof.
  intros Hs Hrun. unfold updateClusterRoles in Hrun.
  apply (read_then_write
           (fun c => Some (setServers c
                             (assignRoles (serversByIP (Init_Servers p))
                                (Servers (Site_ClusterState c)))))) in Hrun;
    [|reflexivity].
  destruct Hrun as (c0 & Hc0 & Hs').
  assert (c0 = c) by congruence. subst c0.
  eexists. split; [exact Hs'|]. split; [reflexivity|].
  unfold rolesAssigned. cbn [setServers Site_ClusterState Servers].
  rewrite assignRoles_map. apply rolesAssigned_assignRole.
Qed.

Lemma first_updateClusterDNSConfig (s s' : S) (t : list Event) (c : Site) :
  stored s = Some c ->
  run h (updateClusterDNSConfig p) s = (Returned None, s', t) ->
  exists c', stored s' = Some c'
             /\ Site_ServiceUser c' = Site_ServiceUser c
             /\ Servers (Site_ClusterState c') = Servers (Site_ClusterState c)
             /\ (DNSConfig_IsEmpty (Site_DNSConfig c') = false
                 \/ Site_DNSConfig c' = existingDNS p).
Proof.
  intros Hs Hrun. unfold updateClusterDNSConfig in Hrun.
  apply (read_then_write
           (fun c => Some (if DNSConfig_IsEmpty (Site_DNSConfig c)
                           then setDNSConfig c (existingDNS p) else c))) in Hrun;
    [|reflexivity].
  destruct Hrun as (c0 & Hc0 & Hs').
  assert (c0 = c) by congruence. subst c0.
  eexists. split; [exact Hs'|].
  destruct (DNSConfig_IsEmpty (Site_DNSConfig c)) eqn:Hempty.
  - repeat split; try reflexivity. right. reflexivity.
  - repeat split; try reflexivity. left. exact Hempty.
Qed.

Lemma first_updateDockerConfig (s s' : S) (t : list Event) (c : Site) :
  stored s = Some c ->
  run h (updateDockerConfig p) s = (Returned None, s', t) ->
  exists c', stored s' = Some c'
             /\ Site_ServiceUser c' = Site_ServiceUser c
             /\ Servers (Site_ClusterState c') = Servers (Site_ClusterState c)
             /\ Site_DNSConfig c' = Site_DNSConfig c
             /\ (DockerConfig_IsEmpty (Docker (Site_ClusterState c')) = false
                 \/ Docker (Site_ClusterState c') = existingDocker p).
Proof.
  intros Hs Hrun. unfold updateDockerConfig in Hrun.
  apply (read_then_write
           (fun c => if negb (DockerConfig_IsEmpty (Docker (Site_ClusterState c)))
                     then None
                     else Some (setDocker c (existingDocker p)))) in Hrun;
    [|intros c0; destruct (negb _); reflexivity].
  destruct Hrun as (c0 & Hc0 & Hs').
  assert (c0 = c) by congruence. subst c0.
  eexists. split; [exact Hs'|].
  destruct (DockerConfig_IsEmpty (Docker (Site_ClusterState c))) eqn:Hempty; cbn [negb].
  - repeat split; try reflexivity. right. reflexivity.
  - repeat split; try reflexivity. left. exact Hempty.
Qed.

(** A run of [Execute] that returns nil leaves a settled record. *)
Lemma Execute_settles (s : S) :
  result (run h (Execute p) s) = Returned None ->
  exists c, stored (final (run h (Execute p) s)) = Some c /\ settled p c.
Proof.
  unfold Execute. rewrite run_mbind.
  destruct (run h removeLegacyUpdateDirectory s) as [[[a|] s0] t0] eqn:E0;
    [|unfold result; cbn [fst]; discriminate].
  rewrite run_step.
  destruct (run h (createAdminAgent p) s0) as [[[[eA|]|] sA] tA] eqn:EA;
    [unfold result; cbn [fst]; discriminate| |unfold result; cbn [fst]; discriminate].
  rewrite run_step.
  destruct (run h (upsertServiceUser p) sA) as [[[[eU|]|] sU] tU] eqn:EU;
    [unfold result; cbn [fst]; discriminate| |unfold result; cbn [fst]; discriminate].
  rewrite run_step.
  destruct (run h (initRPCCredentials p) sU) as [[[[eC|]|] sC] tC] eqn:EC;
    [unfold result; cbn [fst]; discriminate| |unfold result; cbn [fst]; discriminate].
  rewrite run_step.
  destruct (run h (updateClusterRoles p) sC) as [[[[eR|]|] sR] tR] eqn:ER;
    [unfold result; cbn [fst]; discriminate| |unfold result; cbn [fst]; discriminate].
  rewrite run_step.
  destruct (run h (updateClusterDNSConfig p) sR) as [[[[eN|]|] sN] tN] eqn:EN;
    [unfold result; cbn [fst]; discriminate| |unfold result; cbn [fst]; discriminate].
  rewrite run_step.
  destruct (run h (updateDockerConfig p) sN) as [[[[eD|]|] sD] tD] eqn:ED;
    [unfold result; cbn [fst]; discriminate| |unfold result; cbn [fst]; discriminate].
  rewrite run_step.
  destruct (run h (removeInvalidObjectPeers p) sD) as [[[[eP|]|] sP] tP] eqn:EP;
    [unfold result; cbn [fst]; discriminate| |unfold result; cbn [fst]; discriminate].
  (* the record after the steps that write it *)
  destruct (first_upsertServiceUser _ _ _ EU) as (c1 & Hc1 & Huser1).
  pose proof (stored_avoids _ _ _ _ _ (avoids_write_initRPCCredentials p) EC) as HsC.
  assert (Hc1' : stored sC = Some c1) by congruence.
  destruct (first_updateClusterRoles _ _ _ c1 Hc1' ER)
    as (c2 & Hc2 & Huser2 & Hroles2).
  destruct (first_updateClusterDNSConfig _ _ _ c2 Hc2 EN)
    as (c3 & Hc3 & Huser3 & Hsrv3 & Hdns3).
  destruct (first_updateDockerConfig _ _ _ c3 Hc3 ED)
    as (c4 & Hc4 & Huser4 & Hsrv4 & Hdns4 & Hdocker4).
  pose proof (stored_avoids _ _ _ _ _ (avoids_write_removeInvalidObjectPeers p) EP)
    as HsP.
  assert (Hsettled : settled p c4).
  { split; [congruence|]. split; [rewrite Hdns4; exact Hdns3|].
    split; [exact Hdocker4|].
    unfold rolesAssigned in *. rewrite Hsrv4, Hsrv3. exact Hroles2. }
  intros _. exists c4. split; [|exact Hsettled].
  destruct (init p) as [q|].
  - rewrite run_step.
    destruct (run h (Server_Execute q) sP) as [[oq sq] tq] eqn:EQ.
    pose proof (stored_avoids _ _ _ _ _ (avoids_write_Server_Execute q) EQ) as Hsq.
    destruct oq as [[eq|]|]; unfold final; cbn [run mret Prog_ret fst snd]; congruence.
  - unfold final. cbn [run mret Prog_ret fst snd]. congruence.
Qed.

End FirstRun.

(** * Further properties of package [validate] *)

Section ValidateMore.

Context {net : NetLib}.

Lemma IsBadParameter_Wrap (e : error) (msg : string) :
  IsBadParameter (Some (Wrap e msg)) = IsBadParameter (Some e).
Proof. reflexivity. Qed.

(** Every error of [KubernetesSubnets] is a bad-parameter error. *)
Lemma KubernetesSubnets_BadParameter (podCIDR serviceCIDR : string) (e : error) :
  KubernetesSubnets podCIDR serviceCIDR = Some e -> IsBadParameter (Some e) = true.
Proof.
  unfold KubernetesSubnets.
  repeat match goal with
         | |- context [if ?b then _ else _] => destruct b
         | |- context [match ParseCIDR ?s with _ => _ end] => destruct (ParseCIDR s)
         | |- context [let '(_, _) := ?x in _] => destruct x
         end;
    intros H; try discriminate H; injection H as <-; reflexivity.
Qed.

(** X2.  A pair of subnets that [KubernetesSubnets] accepts is made of
    subnets it accepts each on its own, the other one left unset. *)
Theorem KubernetesSubnets_each_alone (podCIDR serviceCIDR : string) :
  KubernetesSubnets podCIDR serviceCIDR = None ->
  KubernetesSubnets podCIDR "" = None /\ KubernetesSubnets "" serviceCIDR = None.
Proof.
  unfold KubernetesSubnets. cbn [nonEmpty String.eqb negb].
  destruct (nonEmpty podCIDR).
  - destruct (ParseCIDR podCIDR) as [pn|]; [|discriminate].
    destruct (MaskSize (Mask pn)) as [ones bits].
    destruct (16 <? ones); [discriminate|].
    destruct (nonEmpty serviceCIDR); [|auto].
    destruct (ParseCIDR serviceCIDR) as [sn|]; [|discriminate]. auto.
  - destruct (nonEmpty serviceCIDR); [|auto].
    destruct (ParseCIDR serviceCIDR) as [sn|]; [|discriminate]. auto.
Qed.

(** X3.  The overlap test does not depend on which subnet is the pod subnet:
    a pair that validates still validates when exchanged, as long as the
    former service subnet is large enough to be a pod subnet. *)
Theorem KubernetesSubnets_exchange (podCIDR serviceCIDR : string) :
  KubernetesSubnets podCIDR serviceCIDR = None ->
  KubernetesSubnets serviceCIDR "" = None ->
  KubernetesSubnets serviceCIDR podCIDR = None.
Proof.
  unfold KubernetesSubnets. cbn [nonEmpty String.eqb negb].
  destruct (nonEmpty podCIDR), (nonEmpty serviceCIDR);
    repeat match goal with
           | |- context [match ParseCIDR ?s with _ => _ end] =>
               destruct (ParseCIDR s) eqn:?
           | |- context [let '(_, _) := ?x in _] => destruct x eqn:?
           | |- context [if 16 <? ?n then _ else _] => destruct (16 <? n) eqn:?
           end;
    try discriminate; try reflexivity.
  - destruct (Contains _ _ || Contains _ _) eqn:Hov; [discriminate|].
    rewrite orb_comm, Hov. auto.
Qed.

End ValidateMore.

Section ClusterConfigMore.

Context {net : NetLib} {R : Type} (Global_IsEmpty : Global R -> bool).
Context {E U : Type} `{!Interface R E} `{!Interface R U}.

Lemma ClusterConfiguration_BadParameter (existing : E) (update : U) (e : error) :
  ClusterConfiguration Global_IsEmpty existing update = Some e ->
  IsBadParameter (Some e) = true.
Proof.
  unfold ClusterConfiguration.
  repeat match goal with
         | |- (if ?b then Some _ else _) = Some _ -> _ =>
             destruct b; [intros H; injection H as <-; reflexivity|]
         end.
  destruct (nonEmpty (PodCIDR (GetGlobalConfig update))).
  - destruct (KubernetesSubnets (PodCIDR (GetGlobalConfig update)) _) as [e1|] eqn:E1.
    + intros H. injection H as <-. rewrite IsBadParameter_Wrap.
      exact (KubernetesSubnets_BadParameter _ _ _ E1).
    + destruct (nonEmpty (ServiceCIDR (GetGlobalConfig update))); [|discriminate].
      destruct (KubernetesSubnets _ (ServiceCIDR (GetGlobalConfig update)))
        as [e2|] eqn:E2; [|discriminate].
      intros H. injection H as <-. rewrite IsBadParameter_Wrap.
      exact (KubernetesSubnets_BadParameter _ _ _ E2).
  - destruct (nonEmpty (ServiceCIDR (GetGlobalConfig update))); [|discriminate].
    destruct (KubernetesSubnets _ (ServiceCIDR (GetGlobalConfig update)))
      as [e2|] eqn:E2; [|discriminate].
    intros H. injection H as <-. rewrite IsBadParameter_Wrap.
    exact (KubernetesSubnets_BadParameter _ _ _ E2).
Qed.

(** X1. Every error of [KubernetesSubnets] and of [ClusterConfiguration]
    is a bad-parameter error, also when [ClusterConfiguration] passes on a
    wrapped error of the subnet validation. *)
Theorem validate_errors_are_BadParameter :
  (forall (podCIDR serviceCIDR : string) (e : error),
     KubernetesSubnets podCIDR serviceCIDR = Some e ->
     IsBadParameter (Some e) = true)
  /\ (forall (existing : E) (update : U) (e : error),
        ClusterConfiguration Global_IsEmpty existing update = Some e ->
        IsBadParameter (Some e) = true).
Proof.
  split.
  - exact KubernetesSubnets_BadParameter.
  - exact ClusterConfiguration_BadParameter.
Qed.

Lemma eqb_empty_false (s : string) : String.eqb s "" = false <-> s ≠ "".
Proof. apply String.eqb_neq. Qed.

(** X4. [ClusterConfiguration] accepts an update exactly when the update
    is not empty, carries no cloud settings or the cloud provider the
    cluster has, names a pod subnet and a service subnet that both differ
    from the existing ones (an unnamed one, being empty, differs from an
    existing one that is set), and, when it names a subnet, the subnets
    the cluster would then have pass [KubernetesSubnets]. *)
Theorem ClusterConfiguration_accepts_iff (existing : E) (update : U) :
  let old := GetGlobalConfig existing in
  let new := GetGlobalConfig update in
  ClusterConfiguration Global_IsEmpty existing update = None <->
    Global_IsEmpty new = false
    /\ cloudSettingsKept old new
    /\ PodCIDR new ≠ PodCIDR old
    /\ ServiceCIDR new ≠ ServiceCIDR old
    /\ (PodCIDR new ≠ "" \/ ServiceCIDR new ≠ "" ->
        KubernetesSubnets (effectivePodCIDR old new) (effectiveServiceCIDR old new)
        = None).
Proof.
  cbn zeta. unfold ClusterConfiguration, cloudSettingsKept, isCloudConfigEmpty,
    effectivePodCIDR, effectiveServiceCIDR, nonEmpty.
  set (old := GetGlobalConfig existing). set (new := GetGlobalConfig update).
  destruct (Global_IsEmpty new).
  { split.
    - destruct (negb _ && _ && _); discriminate.
    - intros (H & _). discriminate H. }
  destruct (String.eqb (CloudProvider new) "") eqn:Hnp;
    destruct (String.eqb (CloudConfig new) "") eqn:Hnc;
    destruct (String.eqb (CloudProvider old) "") eqn:Hop;
    destruct (String.eqb (CloudConfig old) "") eqn:Hoc;
    destruct (String.eqb (CloudProvider old) (CloudProvider new)) eqn:Hsame;
    destruct (String.eqb (PodCIDR new) (PodCIDR old)) eqn:Hpod;
    destruct (String.eqb (ServiceCIDR new) (ServiceCIDR old)) eqn:Hsvc;
    destruct (String.eqb (PodCIDR new) "") eqn:Hpe;
    destruct (String.eqb (ServiceCIDR new) "") eqn:Hse;
    cbn [negb andb orb];
    repeat match goal with
           | H : String.eqb _ _ = true |- _ => apply String.eqb_eq in H
           | H : String.eqb _ _ = false |- _ => apply String.eqb_neq in H
           end;
    try (split; [discriminate|]; intros (_ & [[? ?]|[? ?]] & ? & ? & _); congruence).
  all: repeat match goal with
              | |- context [KubernetesSubnets ?a ?b] =>
                  destruct (KubernetesSubnets a b) eqn:?
              end.
  all: try solve [ split;
    [ first [ discriminate
            | intros _;
              split; [reflexivity|];
              split; [first [left; split; congruence | right; split; congruence]|];
              split; [assumption|]; split; [assumption|];
              intros [?|?]; first [contradiction | reflexivity | congruence] ]
    | intros (_ & _ & _ & _ & Hk);
      first [ reflexivity
            | exfalso;
              assert (Hne : PodCIDR new ≠ "" \/ ServiceCIDR new ≠ "")
                by (first [left; assumption | right; assumption]);
              specialize (Hk Hne); discriminate Hk ] ] ].
Qed.


End ClusterConfigMore.

(** The default subnets validate together, each alone and exchanged. *)
Lemma KubernetesSubnets_each_alone_witness :
  @KubernetesSubnets net4.lib "10.244.0.0/16" "10.100.0.0/16" = None
  /\ @KubernetesSubnets net4.lib "10.244.0.0/16" "" = None
  /\ @KubernetesSubnets net4.lib "" "10.100.0.0/16" = None.
Proof.
  assert (H : @KubernetesSubnets net4.lib "10.244.0.0/16" "10.100.0.0/16" = None)
    by (vm_compute; reflexivity).
  split; [exact H|].
  exact (@KubernetesSubnets_each_alone net4.lib "10.244.0.0/16" "10.100.0.0/16" H).
Defined.

Lemma KubernetesSubnets_exchange_witness :
  @KubernetesSubnets net4.lib "10.244.0.0/16" "10.100.0.0/16" = None
  /\ @KubernetesSubnets net4.lib "10.100.0.0/16" "10.244.0.0/16" = None.
Proof.
  assert (H : @KubernetesSubnets net4.lib "10.244.0.0/16" "10.100.0.0/16" = None)
    by (vm_compute; reflexivity).
  split; [exact H|].
  apply (@KubernetesSubnets_exchange net4.lib "10.244.0.0/16" "10.100.0.0/16" H).
  vm_compute. reflexivity.
Defined.

(** An update that moves the pod subnet of a cluster with the default
    subnets is accepted; one that also names the cluster's service subnet
    again is not. *)
Lemma ClusterConfiguration_accepts_iff_witness :
  let existing := mkGlobal unit "" "" "10.244.0.0/16" "10.100.0.0/16" tt in
  @ClusterConfiguration net4.lib unit (fun _ => false) _ _ _ _ existing
    (mkGlobal unit "" "" "10.245.0.0/16" "" tt) = None
  /\ @ClusterConfiguration net4.lib unit (fun _ => false) _ _ _ _ existing
       (mkGlobal unit "" "" "10.245.0.0/16" "10.100.0.0/16" tt) ≠ None.
Proof.
  intros existing. split.
  - apply (@ClusterConfiguration_accepts_iff net4.lib unit (fun _ => false)
             (Global unit) (Global unit) _ _ existing
             (mkGlobal unit "" "" "10.245.0.0/16" "" tt)).
    split; [reflexivity|]. split; [left; split; reflexivity|].
    split; [discriminate|]. split; [discriminate|].
    intros _. vm_compute. reflexivity.
  - intros H.
    apply (@ClusterConfiguration_accepts_iff net4.lib unit (fun _ => false)
             (Global unit) (Global unit) _ _ existing
             (mkGlobal unit "" "" "10.245.0.0/16" "10.100.0.0/16" tt)) in H.
    destruct H as (_ & _ & _ & Hsvc & _). apply Hsvc. reflexivity.
Defined.

(** ** Which collaborators the phase calls *)

Section Footprint.

Context {lib : PhasesLib} {meth : PhasesMethods}.

Lemma within_bind {A B : Type} (Q : Call -> Prop) (m : Prog A) (f : A -> Prog B) :
  within Q m -> (forall a, within Q (f a)) -> within Q (bind m f).
Proof.
  intros Hm Hf. induction m as [a| |c k IH]; simpl in *; auto.
  destruct Hm as [Hc Hk]. split; [exact Hc|]. intros r. apply IH. apply Hk.
Qed.

Lemma within_mbind {A B : Type} (Q : Call -> Prop) (m : Prog A) (f : A -> Prog B) :
  within Q m -> (forall a, within Q (f a)) -> within Q (m ≫= f).
Proof. apply within_bind. Qed.

Lemma within_step (Q : Call -> Prop) (m next : Prog (option error)) (msg : string) :
  within Q m -> within Q next -> within Q (step m msg next).
Proof.
  intros Hm Hn. unfold step. apply within_bind; [exact Hm|].
  intros [e|]; [exact I|exact Hn].
Qed.

Lemma within_run {S A : Type} (Q : Call -> Prop) (h : Handler S) (m : Prog A) (s : S) :
  within Q m -> Forall (fun ev : Event => Q (projT1 ev)) (events (run h m s)).
Proof.
  revert s. induction m as [a| |c k IH]; intros s Hm; simpl in *.
  - constructor.
  - constructor.
  - destruct Hm as [Hc Hk]. destruct (h c s) as [r s1].
    specialize (IH r s1 (Hk r)).
    destruct (run h (k r) s1) as [[o s2] t]. unfold events in *. simpl in *.
    constructor; assumption.
Qed.

Lemma within_removePeersLoop (Q : Call -> Prop) (p : updatePhaseInit)
    (peers : list Peer) (errors : list error) :
  (forall id, Q (Backend_DeletePeer id)) ->
  within Q (removePeersLoop p peers errors).
Proof.
  intros HQ. revert errors. induction peers as [|peer rest IH]; intros errors.
  - exact I.
  - cbn [removePeersLoop].
    destruct (negb (invalidPeers p [Peer_ID peer])); [apply IH|].
    cbn [within bind mbind mret Prog_bind Prog_ret call]. split; [apply HQ|].
    intros [e|]; apply IH.
Qed.

Lemma within_applyLabelUpdates (Q : Call -> Prop) (packages : PackageService)
    (updates : list LabelUpdate) :
  (forall l a r, Q (Packages_UpdatePackageLabels packages l a r)) ->
  within Q (applyLabelUpdates packages updates).
Proof.
  intros HQ. induction updates as [|u rest IH].
  - exact I.
  - cbn [applyLabelUpdates within bind mbind mret Prog_bind Prog_ret call].
    split; [apply HQ|].
    intros err. cbn in err.
    destruct (negb (IsNotFound err)); destruct err as [e|]; cbn;
      first [exact I | apply IH].
Qed.

Lemma within_foreachEnvelope (Q : Call -> Prop)
    (fn : PackageEnvelope -> Prog (option error)) (envelopes : list PackageEnvelope) :
  (forall e, within Q (fn e)) -> within Q (foreachEnvelope fn envelopes).
Proof.
  intros Hfn. induction envelopes as [|e rest IH].
  - exact I.
  - cbn [foreachEnvelope]. apply within_mbind; [apply Hfn|].
    intros [x|]; [exact I|exact IH].
Qed.

End Footprint.

(** Proves [within Q m] for the programs of the phase. *)
Ltac within_phase :=
  repeat first
    [ exact I
    | reflexivity
    | match goal with
      | |- within _ (_ ≫= _) => apply within_mbind
      | |- within _ (bind _ _) => apply within_bind
      | |- within _ (step _ _ _) => apply within_step
      | |- within _ (removePeersLoop _ _ _) => apply within_removePeersLoop
      | |- within _ (applyLabelUpdates _ _) => apply within_applyLabelUpdates
      | |- within _ (foreachEnvelope _ _) => apply within_foreachEnvelope
      | |- within _ (match ?x with _ => _ end) => destruct x
      | |- within _ (if ?x then _ else _) => destruct x
      | |- within _ (call _) => cbn [within call]
      end
    | progress cbv beta
    | progress cbn [within call mret Prog_ret]
    | split
    | intro ].

Section FootprintOfThePhase.

Context {lib : PhasesLib} {meth : PhasesMethods}.

Lemma within_weaken {A : Type} (Q Q' : Call -> Prop) (m : Prog A) :
  (forall c, Q c -> Q' c) -> within Q m -> within Q' m.
Proof.
  intros HQ. induction m as [a| |c k IH]; simpl; auto.
  intros [Hc Hk]. split; [apply HQ; exact Hc|]. intros r. apply IH. apply Hk.
Qed.

Lemma within_Server_Execute (q : updatePhaseInitServer) :
  within (fun c => serverCall c = true /\ callService c = Some (localPackages q))
    (Server_Execute q).
Proof.
  unfold Server_Execute, updateExistingPackageLabels, updateRuntimeConfigLabels,
    updateTeleportConfigLabels, updateRuntimeSecretLabels.
  within_phase.
Qed.

Lemma within_removeLegacyUpdateDirectory (Q : Call -> Prop) :
  Q State_GetStateDir -> (forall path, Q (Os_Stat path)) ->
  (forall path, Q (Os_RemoveAll path)) ->
  within Q removeLegacyUpdateDirectory.
Proof.
  intros H1 H2 H3. unfold removeLegacyUpdateDirectory.
  repeat first
    [ exact I | exact H1 | apply H2 | apply H3
    | progress cbn [within bind mbind mret Prog_bind Prog_ret call]
    | split | intro
    | match goal with
      | |- within _ (match ?x with _ => _ end) => destruct x
      | |- within _ (if ?x then _ else _) => destruct x
      end ].
Qed.

Lemma within_afterLegacy (p : updatePhaseInit) :
  within (fun c => leaderCall p c /\ isRemoveAll c = false) (afterLegacy p).
Proof.
  unfold afterLegacy.
  repeat apply within_step.
  - unfold createAdminAgent. within_phase.
  - unfold upsertServiceUser. within_phase.
  - unfold initRPCCredentials. within_phase.
  - unfold updateClusterRoles. within_phase.
  - unfold updateClusterDNSConfig. within_phase.
  - unfold updateDockerConfig. within_phase.
  - unfold removeInvalidObjectPeers. within_phase.
  - destruct (init p) as [q|] eqn:Hinit; [|exact I].
    apply within_step; [|exact I].
    refine (within_weaken _ _ _ _ (within_Server_Execute q)).
    intros c [Hc Hsvc]. destruct c; try discriminate Hc;
      injection Hsvc as ->; (split; [exists q; split; [exact Hinit|reflexivity]
                                    |reflexivity]).
Qed.

End FootprintOfThePhase.

Section LegacyDirectory.

Context {lib : PhasesLib} {meth : PhasesMethods}.

Lemma removals_app (t u : list Event) :
  removals (t ++ u) = removals t ++ removals u.
Proof. unfold removals. apply omap_app. Qed.

Lemma removals_none (t : list Event) :
  Forall (fun ev : Event => isRemoveAll (projT1 ev) = false) t -> removals t = [].
Proof.
  induction 1 as [|[c r] t Hc _ IH]; [reflexivity|].
  unfold removals in *. cbn [omap projT1] in *.
  destruct c; try discriminate Hc; exact IH.
Qed.

Lemma Execute_afterLegacy (p : updatePhaseInit) :
  Execute p = (removeLegacyUpdateDirectory ≫= fun _ => afterLegacy p).
Proof. reflexivity. Qed.

(** The runs of [removeLegacyUpdateDirectory]: it always returns, and it
    removes nothing or the legacy directory that [Stat] found. *)
Lemma run_removeLegacyUpdateDirectory {S : Type} (h : Handler S) (s : S) :
  exists a s1 t,
    run h removeLegacyUpdateDirectory s = (Returned a, s1, t)
    /\ (removals t = []
        \/ exists stateDir r,
             t = [event State_GetStateDir (inl stateDir);
                  event (Os_Stat (legacyUpdateDir stateDir)) (inl {| IsDir := true |});
                  event (Os_RemoveAll (legacyUpdateDir stateDir)) r]).
Proof.
  unfold removeLegacyUpdateDirectory.
  cbn [run bind mbind mret Prog_bind Prog_ret call].
  destruct (h State_GetStateDir s) as [r s1]. cbn in r.
  destruct r as [stateDir|err].
  2:{ do 3 eexists. split; [reflexivity|]. left. reflexivity. }
  cbn [run bind mbind mret Prog_bind Prog_ret call].
  destruct (h (Os_Stat (filepath_Join (GravityUpdateDir stateDir) "gravity")) s1)
    as [r2 s2].
  cbn in r2. destruct r2 as [[dir]|err].
  2:{ destruct (os_IsNotExist (Some err)); do 3 eexists;
        (split; [reflexivity|]); left; reflexivity. }
  destruct dir; cbn [negb IsDir].
  2:{ do 3 eexists. split; [reflexivity|]. left. reflexivity. }
  cbn [run bind mbind mret Prog_bind Prog_ret call].
  destruct (h (Os_RemoveAll (filepath_Join (GravityUpdateDir stateDir) "gravity")) s2)
    as [r3 s3].
  do 3 eexists. split; [reflexivity|]. right. exists stateDir, r3. reflexivity.
Qed.

(** X5.  The only path [Execute] ever removes is the legacy update
    directory, [gravity] below the update directory of the state
    directory, and only after [Stat] reported it to be a directory; no
    later step removes anything.  Whatever the removal gives, [Execute]
    goes on to create the cluster admin agent. *)
Theorem Execute_removes_only_the_legacy_directory {S : Type} (h : Handler S)
    (p : updatePhaseInit) (s : S) :
  let x := run h (Execute p) s in
  let legacy := run h removeLegacyUpdateDirectory s in
  (forall path, path ∈ removals (events x) ->
     exists stateDir r,
       path = legacyUpdateDir stateDir
       /\ removals (events x) = [path]
       /\ events legacy
          = [event State_GetStateDir (inl stateDir);
             event (Os_Stat path) (inl {| IsDir := true |});
             event (Os_RemoveAll path) r])
  /\ exists r t, events x = events legacy ++ event (adminAgentCall p) r :: t.
Proof.
  cbn zeta. rewrite Execute_afterLegacy, run_mbind.
  destruct (run_removeLegacyUpdateDirectory h s) as (a & s1 & t0 & Hrun & Hcases).
  rewrite Hrun.
  pose proof (within_run _ h (afterLegacy p) s1 (within_afterLegacy p)) as Hrest.
  assert (Hfirst : exists r t, events (run h (afterLegacy p) s1)
                               = event (adminAgentCall p) r :: t).
  { unfold afterLegacy. rewrite run_step, run_createAdminAgent. cbn zeta.
    destruct (h (adminAgentCall p) s1) as [r s2]. cbn [fst snd].
    destruct r as [e|]; [destruct (IsAlreadyExists (Some e))|].
    - destruct (run h _ s2) as [[o s3] t]. unfold events. cbn [snd app]. eauto.
    - unfold events. cbn [snd app]. eauto.
    - destruct (run h _ s2) as [[o s3] t]. unfold events. cbn [snd app]. eauto. }
  destruct (run h (afterLegacy p) s1) as [[o s2] t1].
  unfold events in *. cbn [snd] in *.
  assert (Hnone : removals t1 = []).
  { apply removals_none. eapply Forall_impl; [exact Hrest|]. intros ev [_ H]. exact H. }
  split.
  - rewrite removals_app, Hnone, app_nil_r. intros path Hin.
    destruct Hcases as [Hno|(stateDir & r & ->)].
    + rewrite Hno in Hin. inversion Hin.
    + cbn in Hin. apply list_elem_of_singleton in Hin. subst path.
      exists stateDir, r. repeat split; reflexivity.
  - destruct Hfirst as (r & t & ->). exists r, t. reflexivity.
Qed.

End LegacyDirectory.

Section FootprintTheorems.

Context {lib : PhasesLib} {meth : PhasesMethods}.

Lemma packageDeletions_none (t : list Event) :
  Forall (fun ev : Event => isPackageRemoval (projT1 ev) = false) t ->
  packageDeletions t = [].
Proof.
  induction 1 as [|[c r] t Hc _ IH]; [reflexivity|].
  unfold packageDeletions in *. cbn [omap projT1] in *.
  destruct c; try discriminate Hc; exact IH.
Qed.

Lemma leaderCall_no_removal (p : updatePhaseInit) (c : Call) :
  leaderCall p c -> isPackageRemoval c = false /\ isQuery c = false.
Proof. destruct c; cbn; intros H; try contradiction; split; reflexivity. Qed.

(** X6.  Every call of [updatePhaseInit.Execute] goes to the file system,
    the users service, the backend, the service user, the credentials of
    the package service of the executor, or to lookups and label updates
    in the local package service of its server part (to none of these
    last when the executor has no server part).  It lists and deletes no
    package and queries neither the operator nor the applications. *)
Theorem Execute_footprint {S : Type} (h : Handler S) (p : updatePhaseInit) (s : S) :
  let x := run h (Execute p) s in
  Forall (fun ev : Event => leaderCall p (projT1 ev)) (events x)
  /\ Forall (fun ev : Event => isPackageRemoval (projT1 ev) = false
                               /\ isQuery (projT1 ev) = false) (events x)
  /\ packageDeletions (events x) = []
  /\ (init p = None ->
      Forall (fun ev : Event => serverCall (projT1 ev) = false) (events x)).
Proof.
  cbn zeta.
  assert (Hin : within (leaderCall p) (Execute p)).
  { rewrite Execute_afterLegacy. apply within_mbind.
    - apply within_removeLegacyUpdateDirectory; intros; exact I.
    - intros _. refine (within_weaken _ _ _ _ (within_afterLegacy p)).
      intros c [Hc _]. exact Hc. }
  pose proof (within_run _ h _ s Hin) as Hall.
  assert (Hno : Forall (fun ev : Event => isPackageRemoval (projT1 ev) = false
                                          /\ isQuery (projT1 ev) = false)
                  (events (run h (Execute p) s))).
  { eapply Forall_impl; [exact Hall|]. intros ev. apply leaderCall_no_removal. }
  split; [exact Hall|]. split; [exact Hno|]. split.
  - apply packageDeletions_none. eapply Forall_impl; [exact Hno|]. intros ev H. apply H.
  - intros Hnone. eapply Forall_impl; [exact Hall|].
    intros [c r]. cbn [projT1].
    destruct c; cbn; intros H; try reflexivity; destruct H as (q & Hq & _);
      congruence.
Qed.

(** X7.  Every call of [updatePhaseInit.Rollback] lists the packages of
    the repository of the cluster of the operation or deletes a package,
    in the package service of the executor: it writes no cluster record,
    restores no peer and touches no label, so none of its calls is one
    [Execute] can make. *)
Theorem Rollback_footprint {S : Type} (h : Handler S) (p : updatePhaseInit) (s : S) :
  let x := run h (Rollback p) s in
  Forall (fun ev : Event =>
            listsOrDeletes (Packages p) (Op_SiteDomain (Operation p)) (projT1 ev)
            /\ ~ leaderCall p (projT1 ev)) (events x)
  /\ siteWrites (events x) = []
  /\ labelCalls (events x) = [].
Proof.
  cbn zeta.
  assert (Hin : within (listsOrDeletes (Packages p) (Op_SiteDomain (Operation p)))
                  (Rollback p)).
  { unfold Rollback, Server_Rollback, removeConfiguredPackages, ForeachPackageInRepo.
    within_phase. }
  pose proof (within_run _ h _ s Hin) as Hall.
  split; [|split].
  - eapply Forall_impl; [exact Hall|]. intros [c r]. cbn [projT1].
    destruct c; cbn; intros H; try contradiction; split; auto.
  - induction Hall as [|[c r] t Hc _ IH]; [reflexivity|].
    unfold siteWrites in *. cbn [omap projT1] in *.
    destruct c; try contradiction; exact IH.
  - induction Hall as [|[c r] t Hc _ IH]; [reflexivity|].
    unfold labelCalls in *. cbn [omap projT1] in *.
    destruct c; try contradiction; exact IH.
Qed.

(** X8.  Every call of [updatePhaseInitServer.Execute] is a lookup or a
    label update in the local package service of the executor; the
    server part reads and writes nothing else. *)
Theorem Server_Execute_footprint {S : Type} (h : Handler S)
    (q : updatePhaseInitServer) (s : S) :
  let x := run h (Server_Execute q) s in
  Forall (fun ev : Event => serverCall (projT1 ev) = true
                            /\ callService (projT1 ev) = Some (localPackages q))
    (events x)
  /\ siteWrites (events x) = []
  /\ packageDeletions (events x) = [].
Proof.
  cbn zeta.
  pose proof (within_run _ h _ s (within_Server_Execute q)) as Hall.
  cbv beta in Hall. split; [exact Hall|]. split.
  - induction Hall as [|[c r] t [Hc _] _ IH]; [reflexivity|].
    unfold siteWrites in *. cbn [omap projT1] in *.
    destruct c; try discriminate Hc; exact IH.
  - apply packageDeletions_none. eapply Forall_impl; [exact Hall|].
    intros [c r] [Hc _]. destruct c; try discriminate Hc; reflexivity.
Qed.

End FootprintTheorems.

(** ** The constructors of the executors *)

Section ConstructionMore.

Context {lib : PhasesLib} {meth : PhasesMethods}.

(** The runs of [NewUpdatePhaseInitLeader] on a phase that names both
    packages: a query fails and the constructor returns an error, or all
    five are answered and the executor is put together from the answers,
    unless the phase has no update data. *)
Lemma run_NewUpdatePhaseInitLeader {S : Type} (h : Handler S) (s : S)
    (params : ExecutorParams) (packages localPackages : PackageService)
    (data : OperationPhaseData) (package installedPackage : Locator) :
  Phase_Data (Phase params) = Some data ->
  Data_Package data = Some package ->
  Data_InstalledPackage data = Some installedPackage ->
  let x := run h (NewUpdatePhaseInitLeader params packages localPackages) s in
  Forall (fun ev : Event => isQuery (projT1 ev) = true) (events x)
  /\ ((exists e, result x = Returned (inr e) /\ (length (events x) <= 5)%nat
                    /\ existsb queryFailed (events x) = true)
      \/ exists cluster operation installOperation app installed,
           events x = leaderQueries params package installedPackage
                        cluster operation installOperation app installed
           /\ result x
              = match Data_Update data with
                | None => Panicked
                | Some update =>
                    Returned (inl
                      {| Packages := packages;
                         Cluster := cluster;
                         Operation := operation;
                         Init_Servers := Plan_Servers (Plan params);
                         updateManifest := App_Manifest app;
                         installedApp := installed;
                         existingDocker :=
                           OverrideDockerConfig
                             (DockerConfigFromSchemaValue
                                (SystemDocker (App_Manifest installed)))
                             (InstallDockerVars installOperation);
                         existingDNS := Plan_DNSConfig (Plan params);
                         init :=
                           match Update_Servers update with
                           | first :: _ =>
                               Some {| server := first;
                                       localPackages := localPackages;
                                       clusterName := Domain cluster |}
                           | [] => None
                           end;
                         existingPeers := clusterPeers (Update_Servers update) |})
                end).
Proof.
  intros Hdata Hpkg Hipkg. cbn zeta. unfold NewUpdatePhaseInitLeader.
  rewrite Hdata, Hpkg, Hipkg.
  cbn [run bind mbind mret Prog_bind Prog_ret call].
  repeat match goal with
         | |- context [h ?c ?st] =>
             let r := fresh "r" in
             let st' := fresh "st" in
             destruct (h c st) as [r st']; cbn in r;
             destruct r as [?|?];
             cbn [run bind mbind mret Prog_bind Prog_ret call];
             [|unfold result, events; cbn [fst snd]; split;
               [repeat constructor
               |left; eexists; split; [reflexivity|];
                split; [cbn [length]; lia|reflexivity]]]
         end.
  destruct (Data_Update data) as [update|]; unfold result, events; cbn [run fst snd];
    (split; [repeat constructor|]); right; do 5 eexists; split; reflexivity.
Qed.

Lemma leaderQueries_answered (params : ExecutorParams)
    (package installedPackage : Locator) (cluster : OpsSite)
    (operation installOperation : SiteOperation) (app installed : Application) :
  existsb queryFailed (leaderQueries params package installedPackage
                         cluster operation installOperation app installed) = false.
Proof. reflexivity. Qed.

(** X9.  [NewUpdatePhaseInitLeader] only queries the operator and the
    applications, at most five times, and [NewUpdatePhaseInitServer]
    calls nothing.  An executor comes out of the first only when the
    phase names both packages and has update data and all five queries
    were answered, and it is then put together from the answers and the
    plan: the Docker configuration of the installed application
    overridden by the one of the install operation, the DNS
    configuration and the servers of the plan, the object peers of the
    masters of the operation. *)
Theorem NewUpdatePhaseInitLeader_builds_from_answers {S : Type} (h : Handler S)
    (s : S) (params : ExecutorParams) (packages localPackages : PackageService) :
  let x := run h (NewUpdatePhaseInitLeader params packages localPackages) s in
  Forall (fun ev : Event => isQuery (projT1 ev) = true) (events x)
  /\ (length (events x) <= 5)%nat
  /\ (forall name, events (run h (NewUpdatePhaseInitServer params localPackages name) s)
                   = [])
  /\ forall built,
       result x = Returned (inl built) ->
       exists data package installedPackage update
              cluster operation installOperation app installed,
         Phase_Data (Phase params) = Some data
         /\ Data_Package data = Some package
         /\ Data_InstalledPackage data = Some installedPackage
         /\ Data_Update data = Some update
         /\ events x = leaderQueries params package installedPackage
                         cluster operation installOperation app installed
         /\ Packages built = packages
         /\ Cluster built = cluster
         /\ Operation built = operation
         /\ Init_Servers built = Plan_Servers (Plan params)
         /\ updateManifest built = App_Manifest app
         /\ installedApp built = installed
         /\ existingDocker built
            = OverrideDockerConfig
                (DockerConfigFromSchemaValue (SystemDocker (App_Manifest installed)))
                (InstallDockerVars installOperation)
         /\ existingDNS built = Plan_DNSConfig (Plan params)
         /\ existingPeers built
            = map ObjectPeerID (SplitServers (Update_Servers update)).1.
Proof.
  cbn zeta.
  assert (Hserver : forall name,
             events (run h (NewUpdatePhaseInitServer params localPackages name) s) = []).
  { intros name. unfold NewUpdatePhaseInitServer.
    destruct (Phase_Data (Phase params)) as [data|]; [|reflexivity].
    destruct (Data_Update data) as [update|]; [|reflexivity].
    destruct (Update_Servers update); reflexivity. }
  destruct (Phase_Data (Phase params)) as [data|] eqn:Hdata.
  2:{ unfold NewUpdatePhaseInitLeader. rewrite Hdata.
      split; [constructor|]. split; [cbn; lia|]. split; [exact Hserver|].
      intros built Hbuilt. discriminate Hbuilt. }
  destruct (Data_Package data) as [package|] eqn:Hpkg.
  2:{ unfold NewUpdatePhaseInitLeader. rewrite Hdata, Hpkg.
      split; [constructor|]. split; [cbn; lia|]. split; [exact Hserver|].
      intros built Hbuilt. discriminate Hbuilt. }
  destruct (Data_InstalledPackage data) as [installedPackage|] eqn:Hipkg.
  2:{ unfold NewUpdatePhaseInitLeader. rewrite Hdata, Hpkg, Hipkg.
      split; [constructor|]. split; [cbn; lia|]. split; [exact Hserver|].
      intros built Hbuilt. discriminate Hbuilt. }
  destruct (run_NewUpdatePhaseInitLeader h s params packages localPackages
              data package installedPackage Hdata Hpkg Hipkg) as [Hq Hcases].
  cbn zeta in *. split; [exact Hq|]. split.
  { destruct Hcases as [(e & _ & Hlen & _)|(cluster & operation & installOperation
                                             & app & installed & Hev & _)];
      [exact Hlen|rewrite Hev; cbn; lia]. }
  split; [exact Hserver|]. intros built Hbuilt.
  destruct Hcases as [(e & He & _)|(cluster & operation & installOperation & app
                                     & installed & Hev & Hres)].
  { rewrite He in Hbuilt. discriminate Hbuilt. }
  rewrite Hres in Hbuilt.
  destruct (Data_Update data) as [update|] eqn:Hupdate; [|discriminate Hbuilt].
  injection Hbuilt as <-.
  exists data, package, installedPackage, update,
    cluster, operation, installOperation, app, installed.
  cbn [Packages Cluster Operation Init_Servers updateManifest installedApp
         existingDocker existingDNS existingPeers].
  repeat (split; [first [reflexivity | assumption]|]).
  apply clusterPeers_masters.
Qed.

(** X10.  The server part of an executor built by
    [NewUpdatePhaseInitLeader] is what [NewUpdatePhaseInitServer] gives
    for the same phase, the same local package service and the domain of
    the cluster: the executor for the first server of the operation, and
    no server part where the second one rejects the phase for naming no
    server. *)
Theorem constructors_agree_on_server_part {S : Type} (h : Handler S)
    (s : S) (params : ExecutorParams) (packages localPackages : PackageService)
    (built : updatePhaseInit) :
  result (run h (NewUpdatePhaseInitLeader params packages localPackages) s)
  = Returned (inl built) ->
  forall s' : S,
    run h (NewUpdatePhaseInitServer params localPackages (Domain (Cluster built))) s'
    = (Returned match init built with
                | Some q => inl q
                | None => inr (BadParameterf "no server specified for phase")
                end, s', []).
Proof.
  intros Hbuilt s'.
  destruct (Phase_Data (Phase params)) as [data|] eqn:Hdata;
    [|unfold NewUpdatePhaseInitLeader in Hbuilt; rewrite Hdata in Hbuilt;
      discriminate Hbuilt].
  destruct (Data_Package data) as [package|] eqn:Hpkg;
    [|unfold NewUpdatePhaseInitLeader in Hbuilt; rewrite Hdata, Hpkg in Hbuilt;
      discriminate Hbuilt].
  destruct (Data_InstalledPackage data) as [installedPackage|] eqn:Hipkg;
    [|unfold NewUpdatePhaseInitLeader in Hbuilt; rewrite Hdata, Hpkg, Hipkg in Hbuilt;
      discriminate Hbuilt].
  destruct (run_NewUpdatePhaseInitLeader h s params packages localPackages
              data package installedPackage Hdata Hpkg Hipkg) as [_ Hcases].
  cbn zeta in *.
  destruct Hcases as [(e & He & _)|(cluster & operation & installOperation & app
                                     & installed & Hev & Hres)].
  { rewrite He in Hbuilt. discriminate Hbuilt. }
  rewrite Hres in Hbuilt.
  destruct (Data_Update data) as [update|] eqn:Hupdate; [|discriminate Hbuilt].
  injection Hbuilt as <-. cbn [init Cluster].
  unfold NewUpdatePhaseInitServer. rewrite Hdata, Hupdate.
  destruct (Update_Servers update) as [|first rest]; reflexivity.
Qed.

(** X11.  Neither constructor guards every read of the phase data.
    [NewUpdatePhaseInitServer] panics, before any call, on a phase
    without data.  On a phase that names both packages but has no update
    data, [NewUpdatePhaseInitLeader] never gives an executor: it returns
    the error of the first query that fails, and panics when all five
    queries were answered. *)
Theorem constructors_panic_on_missing_data {S : Type} (h : Handler S)
    (s : S) (params : ExecutorParams) (packages localPackages : PackageService)
    (clusterName : string) :
  (Phase_Data (Phase params) = None ->
   run h (NewUpdatePhaseInitServer params localPackages clusterName) s
   = (Panicked, s, []))
  /\ (forall data package installedPackage,
        Phase_Data (Phase params) = Some data ->
        Data_Package data = Some package ->
        Data_InstalledPackage data = Some installedPackage ->
        Data_Update data = None ->
        let x := run h (NewUpdatePhaseInitLeader params packages localPackages) s in
        (forall built, result x ≠ Returned (inl built))
        /\ (existsb queryFailed (events x) = false ->
            result x = Panicked /\ length (events x) = 5%nat)
        /\ (existsb queryFailed (events x) = true ->
            exists e, result x = Returned (inr e))).
Proof.
  split.
  { intros Hdata. unfold NewUpdatePhaseInitServer. rewrite Hdata. reflexivity. }
  intros data package installedPackage Hdata Hpkg Hipkg Hupdate. cbn zeta.
  destruct (run_NewUpdatePhaseInitLeader h s params packages localPackages
              data package installedPackage Hdata Hpkg Hipkg) as [_ Hcases].
  cbn zeta in *. rewrite Hupdate in Hcases.
  destruct Hcases as [(e & He & _ & Hfailed)|(cluster & operation & installOperation
                                               & app & installed & Hev & Hres)].
  - rewrite He, Hfailed. split; [discriminate|]. split; [discriminate|]. eauto.
  - rewrite Hres, Hev, leaderQueries_answered.
    split; [discriminate|]. split; [auto|discriminate].
Qed.

End ConstructionMore.

(** ** What the phase writes to the cluster record *)

Section EmptyFields.

Context {lib : PhasesLib} {meth : PhasesMethods}.

Lemma siteWriteResults_writes (t : list Event) :
  map fst (siteWriteResults t) = siteWrites t.
Proof.
  induction t as [|[c r] t IH]; [reflexivity|].
  unfold siteWriteResults, siteWrites in *. cbn [omap projT1].
  destruct c; cbn; try exact IH. f_equal. exact IH.
Qed.

(** X12.  On a cluster record without service user,
    [upsertServiceUser] looks up or creates the system user with the
    default IDs.  When that fails it writes nothing and returns the error
    with the name of the service user in the message; otherwise it writes
    the record once, with the name of the system user and its IDs in
    decimal as the service user and every other field as read, and
    returns what the write returns. *)
Theorem upsertServiceUser_sets_missing_user {S : Type} (h : Handler S)
    (p : updatePhaseInit) (s : S) (cluster : Site) :
  (h (Backend_GetLocalSite SystemAccountID) s).1 = inl cluster ->
  OSUser_IsEmpty (Site_ServiceUser cluster) = true ->
  let s1 := (h (Backend_GetLocalSite SystemAccountID) s).2 in
  let x := run h (upsertServiceUser p) s in
  match (h (Install_GetOrCreateServiceUser ServiceUserID ServiceGroupID) s1).1 with
  | inr e =>
      siteWrites (events x) = []
      /\ result x
         = Returned (Some (Wrap e ("failed to lookup/create service user "
                                   ++ ServiceUser)))
  | inl user =>
      exists w,
        siteWriteResults (events x)
        = [({| Site_ServiceUser := {| OSUser_Name := SysUser_Name user;
                                      OSUser_UID := Itoa (SysUser_UID user);
                                      OSUser_GID := Itoa (SysUser_GID user) |};
               Site_DNSConfig := Site_DNSConfig cluster;
               Site_ClusterState := Site_ClusterState cluster;
               Site_Rest := Site_Rest cluster |}, w)]
        /\ result x = Returned ((fun e => Wrap e "") <$> w)
  end.
Proof.
  intros Hread Hempty. cbn zeta. unfold upsertServiceUser.
  cbn [run bind mbind mret Prog_bind Prog_ret call].
  destruct (h (Backend_GetLocalSite SystemAccountID) s) as [r s1].
  cbn [fst snd] in *. subst r. rewrite Hempty. cbn [negb].
  cbn [run bind mbind mret Prog_bind Prog_ret call].
  destruct (h (Install_GetOrCreateServiceUser ServiceUserID ServiceGroupID) s1)
    as [r2 s2].
  cbn in r2. cbn [fst]. destruct r2 as [user|e].
  - cbn [run bind mbind mret Prog_bind Prog_ret call].
    destruct (h (Backend_UpdateSite _) s2) as [w s3]. cbn in w.
    exists w. destruct w as [e|]; split; reflexivity.
  - split; reflexivity.
Qed.

(** X13.  On a cluster record without DNS configuration,
    [updateClusterDNSConfig] writes the record with the DNS configuration
    of the plan, and on one without Docker configuration
    [updateDockerConfig] writes it with the Docker configuration of the
    installed application; each writes once, leaves every other field as
    read, and returns what the write returns. *)
Theorem missing_configuration_is_filled_in {S : Type} (h : Handler S)
    (p : updatePhaseInit) (s : S) (cluster : Site) :
  (h (Backend_GetLocalSite SystemAccountID) s).1 = inl cluster ->
  (DNSConfig_IsEmpty (Site_DNSConfig cluster) = true ->
   let x := run h (updateClusterDNSConfig p) s in
   exists w,
     siteWriteResults (events x)
     = [({| Site_ServiceUser := Site_ServiceUser cluster;
            Site_DNSConfig := existingDNS p;
            Site_ClusterState := Site_ClusterState cluster;
            Site_Rest := Site_Rest cluster |}, w)]
     /\ result x = Returned ((fun e => Wrap e "") <$> w))
  /\ (DockerConfig_IsEmpty (Docker (Site_ClusterState cluster)) = true ->
      let x := run h (updateDockerConfig p) s in
      exists w,
        siteWriteResults (events x)
        = [({| Site_ServiceUser := Site_ServiceUser cluster;
               Site_DNSConfig := Site_DNSConfig cluster;
               Site_ClusterState :=
                 {| Servers := Servers (Site_ClusterState cluster);
                    Docker := existingDocker p |};
               Site_Rest := Site_Rest cluster |}, w)]
        /\ result x = Returned ((fun e => Wrap e "") <$> w)).
Proof.
  intros Hread. split; intros Hempty; cbn zeta.
  - unfold updateClusterDNSConfig.
    cbn [run bind mbind mret Prog_bind Prog_ret call].
    destruct (h (Backend_GetLocalSite SystemAccountID) s) as [r s1].
    cbn [fst snd] in *. subst r. rewrite Hempty.
    cbn [run bind mbind mret Prog_bind Prog_ret call].
    destruct (h (Backend_UpdateSite _) s1) as [w s2]. cbn in w.
    exists w. destruct w as [e|]; split; reflexivity.
  - unfold updateDockerConfig.
    cbn [run bind mbind mret Prog_bind Prog_ret call].
    destruct (h (Backend_GetLocalSite SystemAccountID) s) as [r s1].
    cbn [fst snd] in *. subst r. rewrite Hempty. cbn [negb].
    cbn [run bind mbind mret Prog_bind Prog_ret call].
    destruct (h (Backend_UpdateSite _) s1) as [w s2]. cbn in w.
    exists w. destruct w as [e|]; split; reflexivity.
Qed.

End EmptyFields.

Section RecordAfterInit.

Context {lib : PhasesLib} {meth : PhasesMethods}.
Context {S : Type} (h : Handler S) (stored : S -> option Site).
Hypothesis Hstore : SiteStore h stored.
Variable p : updatePhaseInit.

(** The record [upsertServiceUser] leaves when it returns nil. *)
Lemma stored_upsertServiceUser (s s' : S) (t : list Event) (c : Site) :
  stored s = Some c ->
  run h (upsertServiceUser p) s = (Returned None, s', t) ->
  if OSUser_IsEmpty (Site_ServiceUser c)
  then exists user, stored s' = Some (setServiceUser c (serviceUserOf user))
  else stored s' = Some c.
Proof.
  intros Hs. unfold upsertServiceUser.
  cbn [run bind mbind mret Prog_bind Prog_ret call].
  pose proof (store_read h stored Hstore s) as Hread.
  pose proof (store_other h stored Hstore s (Backend_GetLocalSite SystemAccountID)
                eq_refl) as Hsame.
  destruct (h (Backend_GetLocalSite SystemAccountID) s) as [r s1].
  cbn [fst snd] in *. destruct r as [c'|err]; [|discriminate].
  specialize (Hread c' eq_refl). assert (c' = c) by congruence. subst c'.
  destruct (OSUser_IsEmpty (Site_ServiceUser c)); cbn [negb].
  - cbn [run bind mbind mret Prog_bind Prog_ret call].
    destruct (h (Install_GetOrCreateServiceUser ServiceUserID ServiceGroupID) s1)
      as [r2 s2].
    cbn in r2. destruct r2 as [user|err]; [|discriminate].
    cbn [run bind mbind mret Prog_bind Prog_ret call].
    change {| OSUser_Name := SysUser_Name user;
              OSUser_UID := Itoa (SysUser_UID user);
              OSUser_GID := Itoa (SysUser_GID user) |} with (serviceUserOf user).
    pose proof (store_written h stored Hstore s2
                  (setServiceUser c (serviceUserOf user))) as Hok.
    destruct (h (Backend_UpdateSite (setServiceUser c (serviceUserOf user))) s2)
      as [w s3].
    cbn [fst snd] in *. cbn in w. destruct w as [e|]; [discriminate|].
    intros Hrun. injection Hrun as <- _. exists user. exact (Hok eq_refl).
  - intros Hrun. injection Hrun as <- _. congruence.
Qed.

(** X14.  On a backend that keeps the cluster record, a run of
    [Execute] that returns nil leaves the record it found with the
    missing pieces filled in and nothing else changed: a missing DNS
    configuration is the one of the plan, a missing Docker configuration
    the one of the installed application, a missing service user that of
    a system user, every server without role has the role the plan gives
    its address, and the fields that were set, the other servers and the
    rest of the record are as before. *)
Theorem Execute_fills_in_the_record (s : S) (before : Site) :
  stored s = Some before ->
  result (run h (Execute p) s) = Returned None ->
  exists after,
    stored (final (run h (Execute p) s)) = Some after /\ afterInit p before after.
Proof.
  intros Hs. unfold Execute. rewrite run_mbind.
  destruct (run h removeLegacyUpdateDirectory s) as [[[a|] s0] t0] eqn:E0;
    [|unfold result; cbn [fst]; discriminate].
  rewrite run_step.
  destruct (run h (createAdminAgent p) s0) as [[[[eA|]|] sA] tA] eqn:EA;
    [unfold result; cbn [fst]; discriminate| |unfold result; cbn [fst]; discriminate].
  rewrite run_step.
  destruct (run h (upsertServiceUser p) sA) as [[[[eU|]|] sU] tU] eqn:EU;
    [unfold result; cbn [fst]; discriminate| |unfold result; cbn [fst]; discriminate].
  rewrite run_step.
  destruct (run h (initRPCCredentials p) sU) as [[[[eC|]|] sC] tC] eqn:EC;
    [unfold result; cbn [fst]; discriminate| |unfold result; cbn [fst]; discriminate].
  rewrite run_step.
  destruct (run h (updateClusterRoles p) sC) as [[[[eR|]|] sR] tR] eqn:ER;
    [unfold result; cbn [fst]; discriminate| |unfold result; cbn [fst]; discriminate].
  rewrite run_step.
  destruct (run h (updateClusterDNSConfig p) sR) as [[[[eN|]|] sN] tN] eqn:EN;
    [unfold result; cbn [fst]; discriminate| |unfold result; cbn [fst]; discriminate].
  rewrite run_step.
  destruct (run h (updateDockerConfig p) sN) as [[[[eD|]|] sD] tD] eqn:ED;
    [unfold result; cbn [fst]; discriminate| |unfold result; cbn [fst]; discriminate].
  rewrite run_step.
  destruct (run h (removeInvalidObjectPeers p) sD) as [[[[eP|]|] sP] tP] eqn:EP;
    [unfold result; cbn [fst]; discriminate| |unfold result; cbn [fst]; discriminate].
  intros _.
  (* the record through the steps *)
  pose proof (stored_avoids h stored Hstore _ _ _ _ _
                avoids_write_removeLegacyUpdateDirectory E0) as H0.
  pose proof (stored_avoids h stored Hstore _ _ _ _ _
                (avoids_write_createAdminAgent p) EA) as HA.
  assert (HsA : stored sA = Some before) by congruence.
  pose proof (stored_upsertServiceUser _ _ _ before HsA EU) as HU.
  pose proof (stored_avoids h stored Hstore _ _ _ _ _
                (avoids_write_initRPCCredentials p) EC) as HC.
  assert (Huser : exists c1,
             stored sC = Some c1
             /\ Site_DNSConfig c1 = Site_DNSConfig before
             /\ Site_ClusterState c1 = Site_ClusterState before
             /\ Site_Rest c1 = Site_Rest before
             /\ if OSUser_IsEmpty (Site_ServiceUser before)
                then exists user, Site_ServiceUser c1 = serviceUserOf user
                else Site_ServiceUser c1 = Site_ServiceUser before).
  { destruct (OSUser_IsEmpty (Site_ServiceUser before)).
    - destruct HU as [user HU].
      exists (setServiceUser before (serviceUserOf user)). split; [congruence|].
      cbn [setServiceUser Site_DNSConfig Site_ClusterState Site_Rest Site_ServiceUser].
      repeat split; eauto.
    - exists before. split; [congruence|]. repeat split. }
  destruct Huser as (c1 & Hc1 & Hdns1 & Hstate1 & Hrest1 & Huser1).
  unfold updateClusterRoles in ER.
  apply (read_then_write h stored Hstore
           (fun c => Some (setServers c
                             (assignRoles (serversByIP (Init_Servers p))
                                (Servers (Site_ClusterState c)))))) in ER;
    [|reflexivity].
  destruct ER as (c1' & Hc1' & HsR). assert (c1' = c1) by congruence. subst c1'.
  unfold updateClusterDNSConfig in EN.
  apply (read_then_write h stored Hstore
           (fun c => Some (if DNSConfig_IsEmpty (Site_DNSConfig c)
                           then setDNSConfig c (existingDNS p) else c))) in EN;
    [|reflexivity].
  destruct EN as (c2 & Hc2 & HsN).
  unfold updateDockerConfig in ED.
  apply (read_then_write h stored Hstore
           (fun c => if negb (DockerConfig_IsEmpty (Docker (Site_ClusterState c)))
                     then None
                     else Some (setDocker c (existingDocker p)))) in ED;
    [|intros c0; destruct (negb _); reflexivity].
  destruct ED as (c3 & Hc3 & HsD).
  pose proof (stored_avoids h stored Hstore _ _ _ _ _
                (avoids_write_removeInvalidObjectPeers p) EP) as HP.
  assert (Hend : exists after, stored sP = Some after /\ afterInit p before after).
  { assert (c2 = setServers c1 (assignRoles (serversByIP (Init_Servers p))
                                  (Servers (Site_ClusterState c1)))) by congruence.
    subst c2.
    assert (c3 = if DNSConfig_IsEmpty (Site_DNSConfig c1)
                 then setDNSConfig
                        (setServers c1 (assignRoles (serversByIP (Init_Servers p))
                                          (Servers (Site_ClusterState c1))))
                        (existingDNS p)
                 else setServers c1 (assignRoles (serversByIP (Init_Servers p))
                                       (Servers (Site_ClusterState c1))))
      by (change (Site_DNSConfig (setServers c1 _)) with (Site_DNSConfig c1) in HsN;
          congruence).
    subst c3. rewrite HP, HsD. eexists. split; [reflexivity|].
    unfold afterInit. rewrite <- Hdns1, <- Hstate1, <- Hrest1, <- assignRoles_map.
    destruct (DNSConfig_IsEmpty (Site_DNSConfig c1));
      cbn [setServers setDNSConfig Site_DNSConfig Site_ClusterState
             Site_Rest Site_ServiceUser Servers Docker];
      destruct (DockerConfig_IsEmpty (Docker (Site_ClusterState c1)));
      cbn [negb setServers setDNSConfig setDocker Site_DNSConfig Site_ClusterState
             Site_Rest Site_ServiceUser Servers Docker];
      (split; [reflexivity|]); (split; [reflexivity|]);
      (split; [reflexivity|]); (split; [reflexivity|]); exact Huser1. }
  destruct Hend as (after & Hafter & Hinit). exists after. split; [|exact Hinit].
  destruct (init p) as [q|].
  - rewrite run_step.
    destruct (run h (Server_Execute q) sP) as [[oq sq] tq] eqn:EQ.
    pose proof (stored_avoids h stored Hstore _ _ _ _ _
                  (avoids_write_Server_Execute q) EQ) as Hsq.
    destruct oq as [[eq|]|]; unfold final; cbn [run mret Prog_ret fst snd]; congruence.
  - unfold final. cbn [run mret Prog_ret fst snd]. congruence.
Qed.

End RecordAfterInit.

(** ** The labels of the packages of a server *)

Section LabelsMore.

Context {lib : PhasesLib} {meth : PhasesMethods}.

(** X15.  [updateTeleportConfigLabels] looks for a package that
    carries the teleport node configuration purpose and the installed
    label.  An error of that lookup other than "not found" is returned;
    when a package is found nothing is to update; otherwise it asks for
    the latest teleport node configuration package of the repository of
    the cluster and marks that one with the two labels, or returns the
    error of that second lookup, "not found" included. *)
Theorem updateTeleportConfigLabels_marks_latest {S : Type} (h : Handler S) (s : S)
    (packages : PackageService) (clusterName : string) :
  let find := Pack_FindPackage packages (fun e => HasLabels e teleportInstalledLabels) in
  let latest := Pack_FindLatestPackageCustom packages clusterName teleportConfigMatch in
  let s1 := (h find s).2 in
  let x := run h (updateTeleportConfigLabels packages clusterName) s in
  let '(configEnv, err) := (h find s).1 in
  if fatal err
  then events x = [event find (configEnv, err)]
       /\ exists e, err = Some e /\ result x = Returned (inr (Wrap e ""))
  else match configEnv with
       | Some _ => events x = [event find (configEnv, err)]
                   /\ result x = Returned (inl [])
       | None =>
           callsOf (events x) = [find; latest]
           /\ result x
              = Returned
                  match (h latest s1).1 with
                  | inl package =>
                      inl [ {| LU_Locator := package;
                               LU_Add := teleportInstalledLabels;
                               LU_Remove := [] |} ]
                  | inr e => inr (Wrap e "")
                  end
       end.
Proof.
  cbn zeta. unfold updateTeleportConfigLabels.
  cbn [run bind mbind mret Prog_bind Prog_ret call].
  change (<[InstalledLabel:=InstalledLabel]>
            (<[PurposeLabel:=PurposeTeleportNodeConfig]> ∅))
    with teleportInstalledLabels.
  destruct (h (Pack_FindPackage packages
                 (fun e => HasLabels e teleportInstalledLabels)) s) as [r s1].
  cbn in r. destruct r as [configEnv err]. cbn [fst snd].
  unfold fatal. destruct err as [e|]; [destruct (IsNotFound (Some e)) eqn:Enf|];
    cbn [negb].
  - destruct configEnv as [env|]; [split; reflexivity|].
    cbn [run bind mbind mret Prog_bind Prog_ret call].
    unfold teleportConfigMatch.
    destruct (h (Pack_FindLatestPackageCustom packages clusterName _) s1) as [r2 s2].
    cbn in r2. cbn [fst]. destruct r2; split; reflexivity.
  - split; [reflexivity|]. exists e. split; reflexivity.
  - change (IsNotFound None) with false. cbn [negb].
    destruct configEnv as [env|]; [split; reflexivity|].
    cbn [run bind mbind mret Prog_bind Prog_ret call].
    unfold teleportConfigMatch.
    destruct (h (Pack_FindLatestPackageCustom packages clusterName _) s1) as [r2 s2].
    cbn in r2. cbn [fst]. destruct r2; split; reflexivity.
Qed.

(** What the three lookups come back with. *)
Lemma lookups_mark {S : Type} (h : Handler S) (s : S) (packages : PackageService)
    (l : Locator) (name : string) (updates : list LabelUpdate) :
  (result (run h (updateRuntimeConfigLabels packages l) s) = Returned (inl updates) ->
   marks InstalledLabels updates)
  /\ (result (run h (updateTeleportConfigLabels packages name) s)
      = Returned (inl updates) ->
      marks teleportInstalledLabels updates)
  /\ (result (run h (updateRuntimeSecretLabels packages) s) = Returned (inl updates) ->
      marks InstalledLabels updates).
Proof.
  unfold updateRuntimeConfigLabels, updateTeleportConfigLabels,
    updateRuntimeSecretLabels, marks, result.
  repeat split;
    cbn [run bind mbind mret Prog_bind Prog_ret call];
    repeat match goal with
           | |- context [h ?c ?st] =>
               let r := fresh "r" in
               let st' := fresh "st" in
               destruct (h c st) as [r st']; cbn in r;
               cbn [run bind mbind mret Prog_bind Prog_ret call]
           | r : (_ + _)%type |- _ => destruct r
           | r : (_ * _)%type |- _ => destruct r
           | r : option _ |- _ => destruct r
           | |- context [negb (?f (Some ?e))] => destruct (f (Some e)) eqn:?; cbn [negb]
           | |- context [IsNotFound None] => change (IsNotFound None) with false
           | |- _ => progress cbn [run bind mbind mret Prog_bind Prog_ret call negb]
           end;
    cbn [fst]; intros Hres; try discriminate Hres;
    injection Hres as <-; eauto.
Qed.

(** X17.  When [updateExistingPackageLabels] returns nil, every label
    update it asked for was applied or answered "not found", and the
    updates are, in this order: at most one that marks a runtime
    configuration package installed, at most one for the secrets
    package, at most one for the teleport configuration package, the
    update that adds the runtime and installed labels to the installed
    runtime package, and for a legacy runtime package the update that
    takes the installed label off its sibling. *)
Theorem labels_after_success {S : Type} (h : Handler S)
    (q : updatePhaseInitServer) (s : S) :
  let x := run h (updateExistingPackageLabels q) s in
  let installed := US_Installed (server q) in
  result x = Returned None ->
  exists config secrets teleport,
    map fst (labelCalls (events x))
    = config ++ secrets ++ teleport ++ runtimeUpdate installed
        :: (if IsLegacyRuntimePackage installed then [siblingUpdate installed] else [])
    /\ marks InstalledLabels config
    /\ marks InstalledLabels secrets
    /\ marks teleportInstalledLabels teleport
    /\ Forall (fun c => fatal c.2 = false) (labelCalls (events x)).
Proof.
  cbn zeta. unfold updateExistingPackageLabels.
  destruct (avoids_labels_lookups (localPackages q) (US_Installed (server q))
              (clusterName q)) as (Hc & Ht & Hs).
  rewrite run_mbind.
  pose proof (lookups_mark h s (localPackages q) (US_Installed (server q))
                (clusterName q)) as M1.
  destruct (run h (updateRuntimeConfigLabels _ _) s) as [[[[l1|e1]|] s1] t1] eqn:E1;
    pose proof (labelCalls_avoided _ (avoids_run_eq _ _ _ _ _ _ _ Hc E1)) as H1;
    [|unfold result; cbn [run mret Prog_ret fst]; discriminate..].
  destruct (M1 l1) as [M1' _]. specialize (M1' eq_refl). clear M1.
  rewrite run_mbind.
  pose proof (lookups_mark h s1 (localPackages q) (US_Installed (server q))
                (clusterName q)) as M2.
  destruct (run h (updateTeleportConfigLabels _ _) s1) as [[[[l2|e2]|] s2] t2] eqn:E2;
    pose proof (labelCalls_avoided _ (avoids_run_eq _ _ _ _ _ _ _ Ht E2)) as H2;
    [|unfold result; cbn [run mret Prog_ret fst]; discriminate..].
  destruct (M2 l2) as (_ & M2' & _). specialize (M2' eq_refl). clear M2.
  rewrite run_mbind.
  pose proof (lookups_mark h s2 (localPackages q) (US_Installed (server q))
                (clusterName q)) as M3.
  destruct (run h (updateRuntimeSecretLabels _) s2) as [[[[l3|e3]|] s3] t3] eqn:E3;
    pose proof (labelCalls_avoided _ (avoids_run_eq _ _ _ _ _ _ _ Hs E3)) as H3;
    [|unfold result; cbn [run mret Prog_ret fst]; discriminate..].
  destruct (M3 l3) as (_ & _ & M3'). specialize (M3' eq_refl). clear M3.
  destruct (run_applyLabelUpdates h (localPackages q)
              (labelUpdates (US_Installed (server q)) l1 l3 l2) s3) as (_ & _ & He).
  cbn zeta in He.
  destruct (run h (applyLabelUpdates _ _) s3) as [[o s4] t4].
  unfold events, result in *. cbn [fst snd] in *.
  rewrite !labelCalls_app, H1, H2, H3. cbn [app].
  intros ->.
  destruct He as [(Heq & Hall & _)|(before & u & e & _ & _ & _ & Hres)];
    [|discriminate Hres].
  exists l1, l3, l2. split; [|auto].
  rewrite Heq. unfold labelUpdates, runtimeUpdate, siblingUpdate, legacySibling.
  destruct (IsLegacyRuntimePackage (US_Installed (server q)));
    rewrite <- ?app_assoc; reflexivity.
Qed.

Lemma secretsLookups_app (t u : list Event) :
  secretsLookups (t ++ u) = secretsLookups t ++ secretsLookups u.
Proof. unfold secretsLookups. apply omap_app. Qed.

Lemma secretsLookups_avoided (t : list Event) :
  Forall (fun ev : Event => isSecretsLookup (projT1 ev) = false) t ->
  secretsLookups t = [].
Proof.
  induction 1 as [|[c r] t Hc _ IH]; [reflexivity|].
  cbn [projT1] in Hc. destruct c; try discriminate Hc; exact IH.
Qed.

(** X16.  The secrets package has to be there: when its lookup fails,
    with "not found" as with any other error,
    [updatePhaseInitServer.Execute] returns that error wrapped and has
    asked for no label update. *)
Theorem missing_secrets_package_is_fatal {S : Type} (h : Handler S)
    (q : updatePhaseInitServer) (s : S) (e : error) :
  let x := run h (Server_Execute q) s in
  inr e ∈ secretsLookups (events x) ->
  labelCalls (events x) = []
  /\ result x
     = Returned (Some (Wrap (Wrap (Wrap e "") "")
                         "failed to update existing package labels")).
Proof.
  cbn zeta. unfold Server_Execute, updateExistingPackageLabels.
  assert (Hc : avoids isSecretsLookup
                 (updateRuntimeConfigLabels (localPackages q) (US_Installed (server q))))
    by (unfold updateRuntimeConfigLabels; avoids_straight).
  assert (Ht : avoids isSecretsLookup
                 (updateTeleportConfigLabels (localPackages q) (clusterName q)))
    by (unfold updateTeleportConfigLabels; avoids_straight).
  destruct (avoids_labels_lookups (localPackages q) (US_Installed (server q))
              (clusterName q)) as (Lc & Lt & Ls).
  rewrite !run_mbind.
  destruct (run h (updateRuntimeConfigLabels _ _) s) as [[[[l1|e1]|] s1] t1] eqn:E1;
    pose proof (secretsLookups_avoided _ (avoids_run_eq _ _ _ _ _ _ _ Hc E1)) as H1;
    pose proof (labelCalls_avoided _ (avoids_run_eq _ _ _ _ _ _ _ Lc E1)) as L1;
    [|unfold events; cbn [run mret Prog_ret fst snd]; rewrite ?app_nil_r, ?H1;
      intros Hin; inversion Hin..].
  rewrite run_mbind.
  destruct (run h (updateTeleportConfigLabels _ _) s1) as [[[[l2|e2]|] s2] t2] eqn:E2;
    pose proof (secretsLookups_avoided _ (avoids_run_eq _ _ _ _ _ _ _ Ht E2)) as H2;
    pose proof (labelCalls_avoided _ (avoids_run_eq _ _ _ _ _ _ _ Lt E2)) as L2;
    [|unfold events; cbn [run mret Prog_ret fst snd];
      rewrite ?app_nil_r, ?secretsLookups_app, ?H1, ?H2; intros Hin; inversion Hin..].
  rewrite run_mbind. unfold updateRuntimeSecretLabels.
  cbn [run bind mbind mret Prog_bind Prog_ret call].
  destruct (h (Pack_FindSecretsPackage (localPackages q)) s2) as [r s3]. cbn in r.
  destruct r as [secretsPackage|e'].
  - cbn [run bind mbind mret Prog_bind Prog_ret call].
    destruct (h (Pack_FindInstalledPackage (localPackages q) secretsPackage) s3)
      as [r2 s4].
    cbn in r2.
    assert (Hloop : forall updates s',
               secretsLookups (events (run h (applyLabelUpdates (localPackages q)
                                                updates) s')) = []).
    { intros updates s'. apply secretsLookups_avoided. apply avoids_run.
      apply avoids_applyLabelUpdates. reflexivity. }
    destruct r2 as [e2|]; [destruct (IsNotFound (Some e2))|]; cbn [negb];
      cbn [run bind mbind mret Prog_bind Prog_ret call];
      try change (IsNotFound None) with false; cbn [negb run mret Prog_ret];
      try match goal with
          | |- context [run h (applyLabelUpdates ?pk ?us) ?st] =>
              pose proof (Hloop us st) as Hl;
              destruct (run h (applyLabelUpdates pk us) st) as [[[[?|]|] ?] ?]
          end;
      unfold events in *; cbn [fst snd run mret Prog_ret] in *;
      rewrite ?app_nil_r, ?secretsLookups_app, ?H1, ?H2;
      cbn [secretsLookups omap event app]; rewrite ?Hl;
      intros Hin; apply list_elem_of_singleton in Hin; discriminate Hin.
  - unfold events, result. cbn [run mret Prog_ret fst snd app].
    rewrite ?app_nil_r, !secretsLookups_app, !labelCalls_app, H1, H2, L1, L2.
    cbn. intros Hin. apply list_elem_of_singleton in Hin. injection Hin as ->.
    split; reflexivity.
Qed.

End LabelsMore.

(** ** Which answers make [Execute] fail *)

Section Reporting.

Context {lib : PhasesLib} {meth : PhasesMethods}.
Context {S : Type} (h : Handler S).

Lemma reports_step (m next : Prog (option error)) (msg : string) :
  reports h m -> reports h next -> reports h (step m msg next).
Proof.
  intros Hm Hn s. rewrite run_step. destruct (Hm s) as [Hpanic Hiff].
  destruct (run h m s) as [[[[e|]|] s1] t1]; unfold result, events in *;
    cbn [fst snd] in *.
  - split; [discriminate|]. rewrite app_nil_r. split; [discriminate|].
    intros Hall. apply Hiff in Hall. discriminate Hall.
  - destruct (Hn s1) as [Hpanic2 Hiff2].
    destruct (run h next s1) as [[o s2] t2]. unfold result, events in *.
    cbn [fst snd] in *. split; [exact Hpanic2|].
    rewrite forallb_app, andb_true_iff, <- Hiff2.
    destruct Hiff as [Hall _]. specialize (Hall eq_refl). tauto.
  - contradiction.
Qed.

Lemma reports_ret : reports h (mret None).
Proof. intros s. split; [discriminate|]. split; reflexivity. Qed.

End Reporting.

(** Prove [reports h m] and [builds h m] for a program without loops, by
    the cases of the answers. *)
Ltac reports_straight h :=
  intros ?s; cbn [run bind mbind mret Prog_bind Prog_ret call];
  repeat match goal with
         | |- context [h ?c ?st] =>
             let r := fresh "r" in
             let st' := fresh "st" in
             destruct (h c st) as [r st']; cbn in r;
             cbn [run bind mbind mret Prog_bind Prog_ret call]
         | r : (_ + _)%type |- _ => destruct r
         | r : (_ * _)%type |- _ => destruct r
         | r : option _ |- _ => destruct r
         | |- context [negb (?f (Some ?e))] => destruct (f (Some e)) eqn:?; cbn [negb]
         | |- context [negb (?f ?x)] => destruct (f x) eqn:?; cbn [negb]
         | |- context [if ?b then _ else _] => destruct b eqn:?
         | |- _ => progress cbn [run bind mbind mret Prog_bind Prog_ret call negb]
         end;
  unfold result, events, tolerated, event, rejected, fatal;
  cbn [fst snd forallb run mret Prog_ret negb andb];
  repeat match goal with
         | H : ?x = _ |- context [?x] => rewrite H
         end;
  cbn [negb andb];
  (split; [discriminate|split; first [reflexivity | discriminate | congruence]]).

Ltac builds_straight h :=
  intros ?s; cbn [run bind mbind mret Prog_bind Prog_ret call];
  repeat match goal with
         | |- context [h ?c ?st] =>
             let r := fresh "r" in
             let st' := fresh "st" in
             destruct (h c st) as [r st']; cbn in r;
             cbn [run bind mbind mret Prog_bind Prog_ret call]
         | r : (_ + _)%type |- _ => destruct r
         | r : (_ * _)%type |- _ => destruct r
         | r : option _ |- _ => destruct r
         | |- context [negb (?f (Some ?e))] => destruct (f (Some e)) eqn:?; cbn [negb]
         | |- context [IsNotFound None] => change (IsNotFound None) with false
         | |- _ => progress cbn [run bind mbind mret Prog_bind Prog_ret call negb]
         end;
  unfold result, events, tolerated, event, rejected, fatal;
  cbn [fst snd forallb run mret Prog_ret negb andb];
  repeat match goal with
         | H : ?x = _ |- context [?x] => rewrite H
         end;
  cbn [negb andb];
  (split; [discriminate
          |split; [intros [? ?H]; first [reflexivity | discriminate]
                  |intros ?H; first [discriminate | eexists; reflexivity]]]).

Section ReportingSteps.

Context {lib : PhasesLib} {meth : PhasesMethods}.
Context {S : Type} (h : Handler S).
Variable p : updatePhaseInit.

Lemma reports_createAdminAgent : reports h (createAdminAgent p).
Proof. unfold createAdminAgent. reports_straight h. Qed.

Lemma reports_initRPCCredentials : reports h (initRPCCredentials p).
Proof. unfold initRPCCredentials. reports_straight h. Qed.

Lemma reports_upsertServiceUser : reports h (upsertServiceUser p).
Proof. unfold upsertServiceUser. reports_straight h. Qed.

Lemma reports_updateClusterRoles : reports h (updateClusterRoles p).
Proof. unfold updateClusterRoles. reports_straight h. Qed.

Lemma reports_updateClusterDNSConfig : reports h (updateClusterDNSConfig p).
Proof. unfold updateClusterDNSConfig. reports_straight h. Qed.

Lemma reports_updateDockerConfig : reports h (updateDockerConfig p).
Proof. unfold updateDockerConfig. reports_straight h. Qed.


Lemma reports_removePeersLoop (peers : list Peer) (errors : list error) (s : S) :
  let x := run h (removePeersLoop p peers errors) s in
  result x <> Panicked
  /\ (result x = Returned None
      <-> errors = [] /\ forallb tolerated (events x) = true).
Proof.
  cbn zeta. revert errors s. induction peers as [|peer rest IH]; intros errors s.
  - cbn. split; [discriminate|]. destruct errors; cbn; intuition congruence.
  - cbn [removePeersLoop]. destruct (negb (invalidPeers p [Peer_ID peer])); [apply IH|].
    cbn [run bind mbind mret Prog_bind Prog_ret call].
    destruct (h (Backend_DeletePeer (Peer_ID peer)) s) as [r s1]. cbn in r.
    destruct r as [e|].
    + destruct (IH (errors ++ [e]) s1) as [Hp Hiff].
      destruct (run h (removePeersLoop p rest (errors ++ [e])) s1) as [[o s2] t].
      unfold result, events in *. cbn [fst snd forallb tolerated event] in *.
      split; [exact Hp|]. rewrite Hiff. cbn [andb].
      split; [intros [Hnil _]; destruct errors; discriminate Hnil|].
      intros [_ Hf]. discriminate Hf.
    + destruct (IH errors s1) as [Hp Hiff].
      destruct (run h (removePeersLoop p rest errors) s1) as [[o s2] t].
      unfold result, events in *. cbn [fst snd forallb tolerated event andb] in *.
      split; [exact Hp|exact Hiff].
Qed.

Lemma reports_removeInvalidObjectPeers : reports h (removeInvalidObjectPeers p).
Proof.
  intros s. unfold removeInvalidObjectPeers.
  cbn [run bind mbind mret Prog_bind Prog_ret call].
  destruct (h Backend_GetPeers s) as [r s1]. cbn in r. destruct r as [peers|e].
  - destruct (reports_removePeersLoop peers [] s1) as [Hp Hiff].
    destruct (run h (removePeersLoop p peers []) s1) as [[o s2] t].
    unfold result, events in *. cbn [fst snd forallb tolerated event andb] in *.
    split; [exact Hp|]. rewrite Hiff. tauto.
  - unfold result, events. cbn. split; [discriminate|]. split; discriminate.
Qed.

Lemma reports_applyLabelUpdates (packages : PackageService)
    (updates : list LabelUpdate) : reports h (applyLabelUpdates packages updates).
Proof.
  induction updates as [|u rest IH]; intros s.
  - cbn. split; [discriminate|]. split; reflexivity.
  - cbn [applyLabelUpdates run bind mbind mret Prog_bind Prog_ret call].
    destruct (h (Packages_UpdatePackageLabels packages (LU_Locator u) (LU_Add u)
                   (LU_Remove u)) s) as [r s1].
    cbn in r.
    destruct r as [e|]; [destruct (IsNotFound (Some e)) eqn:Enf|]; cbn [negb].
    + destruct (IH s1) as [Hp Hiff].
      destruct (run h (applyLabelUpdates packages rest) s1) as [[o s2] t].
      unfold result, events, fatal in *. cbn [fst snd forallb tolerated event] in *.
      unfold fatal. rewrite Enf. cbn [negb andb]. split; [exact Hp|exact Hiff].
    + unfold result, events. cbn [run mret Prog_ret fst snd forallb tolerated event].
      unfold fatal. rewrite Enf. cbn. split; [discriminate|]. split; discriminate.
    + change (IsNotFound None) with false. cbn [negb].
      destruct (IH s1) as [Hp Hiff].
      destruct (run h (applyLabelUpdates packages rest) s1) as [[o s2] t].
      unfold result, events in *. cbn [fst snd forallb tolerated event fatal negb andb] in *.
      split; [exact Hp|exact Hiff].
Qed.


Lemma builds_updateRuntimeConfigLabels (packages : PackageService) (l : Locator) :
  builds h (updateRuntimeConfigLabels packages l).
Proof. unfold updateRuntimeConfigLabels. builds_straight h. Qed.

Lemma builds_updateTeleportConfigLabels (packages : PackageService) (name : string) :
  builds h (updateTeleportConfigLabels packages name).
Proof. unfold updateTeleportConfigLabels. builds_straight h. Qed.

Lemma builds_updateRuntimeSecretLabels (packages : PackageService) :
  builds h (updateRuntimeSecretLabels packages).
Proof. unfold updateRuntimeSecretLabels. builds_straight h. Qed.

Lemma reports_after_lookup {A : Type} (m : Prog (A + error))
    (k : A -> Prog (option error)) :
  builds h m -> (forall a, reports h (k a)) ->
  reports h (r ← m; match r with
                    | inr err => mret (Some (Wrap err ""))
                    | inl a => k a
                    end).
Proof.
  intros Hm Hk s. rewrite run_mbind. destruct (Hm s) as [Hp Hiff].
  destruct (run h m s) as [[[[a|e]|] s1] t1]; unfold result, events in *;
    cbn [fst snd] in *.
  - destruct (Hk a s1) as [Hp2 Hiff2].
    destruct (run h (k a) s1) as [[o s2] t2]. unfold result, events in *.
    cbn [fst snd] in *. split; [exact Hp2|].
    rewrite forallb_app, andb_true_iff, <- Hiff2.
    destruct Hiff as [Hall _]. specialize (Hall (ex_intro _ a eq_refl)). tauto.
  - cbn [run mret Prog_ret]. rewrite app_nil_r. split; [discriminate|].
    split; [discriminate|]. intros Hall. apply Hiff in Hall as [a Ha]. discriminate Ha.
  - contradiction.
Qed.

Lemma reports_Server_Execute (q : updatePhaseInitServer) : reports h (Server_Execute q).
Proof.
  assert (Hlabels : reports h (updateExistingPackageLabels q)).
  { unfold updateExistingPackageLabels.
    apply reports_after_lookup; [apply builds_updateRuntimeConfigLabels|].
    intros l1. apply reports_after_lookup; [apply builds_updateTeleportConfigLabels|].
    intros l2. apply reports_after_lookup; [apply builds_updateRuntimeSecretLabels|].
    intros l3. apply reports_applyLabelUpdates. }
  intros s. unfold Server_Execute. rewrite run_mbind.
  destruct (Hlabels s) as [Hp Hiff].
  destruct (run h (updateExistingPackageLabels q) s) as [[[[e|]|] s1] t1];
    unfold result, events in *; cbn [fst snd run mret Prog_ret] in *;
    rewrite ?app_nil_r.
  - split; [discriminate|]. rewrite <- Hiff. split; discriminate.
  - split; [discriminate|]. exact Hiff.
  - contradiction.
Qed.

Lemma tolerated_removeLegacyUpdateDirectory (s : S) :
  forallb tolerated (events (run h removeLegacyUpdateDirectory s)) = true.
Proof.
  unfold removeLegacyUpdateDirectory.
  cbn [run bind mbind mret Prog_bind Prog_ret call].
  repeat match goal with
         | |- context [h ?c ?st] =>
             let r := fresh "r" in
             let st' := fresh "st" in
             destruct (h c st) as [r st']; cbn in r;
             cbn [run bind mbind mret Prog_bind Prog_ret call]
         | r : (_ + _)%type |- _ => destruct r
         | |- context [if ?b then _ else _] => destruct b
         | |- _ => progress cbn [run bind mbind mret Prog_bind Prog_ret call negb]
         end; reflexivity.
Qed.

(** X18.  With collaborators that answer every call with a value or an
    error, [Execute] returns nil exactly when no collaborator answered
    with an error it does not tolerate.  It tolerates every answer of the
    file system, "already exists" from the creation of the admin agent
    and of the credentials, and "not found", of [trace] or of the file
    system, from the lookups of installed packages and from the label
    updates; any other error, of a read or a write of the cluster
    record, of a peer deletion, of a package lookup or of a label
    update, makes it return an error. *)
Theorem Execute_reports_every_failure (s : S) :
  let x := run h (Execute p) s in
  result x = Returned None <-> forallb tolerated (events x) = true.
Proof.
  cbn zeta. rewrite Execute_afterLegacy, run_mbind.
  pose proof (tolerated_removeLegacyUpdateDirectory s) as Hlegacy.
  destruct (run_removeLegacyUpdateDirectory h s) as (a & s1 & t0 & Hrun & _).
  rewrite Hrun in *. unfold events in Hlegacy. cbn [snd] in Hlegacy.
  assert (Hrest : reports h (afterLegacy p)).
  { unfold afterLegacy.
    apply reports_step; [apply reports_createAdminAgent|].
    apply reports_step; [apply reports_upsertServiceUser|].
    apply reports_step; [apply reports_initRPCCredentials|].
    apply reports_step; [apply reports_updateClusterRoles|].
    apply reports_step; [apply reports_updateClusterDNSConfig|].
    apply reports_step; [apply reports_updateDockerConfig|].
    apply reports_step; [apply reports_removeInvalidObjectPeers|].
    destruct (init p) as [q|]; [|apply reports_ret].
    apply reports_step; [apply reports_Server_Execute|apply reports_ret]. }
  destruct (Hrest s1) as [Hp Hiff].
  destruct (run h (afterLegacy p) s1) as [[o s2] t1].
  unfold result, events in *. cbn [fst snd] in *.
  rewrite forallb_app, Hlegacy. exact Hiff.
Qed.

End ReportingSteps.

(** ** Where a failing run of [Execute] ends *)

(** Proves [stopsEarly h m] for a program without loops, by the cases of
    the answers. *)
Ltac stops_straight h :=
  intros ?s; cbn [run bind mbind mret Prog_bind Prog_ret call];
  repeat match goal with
         | |- context [h ?c ?st] =>
             let r := fresh "r" in
             let st' := fresh "st" in
             destruct (h c st) as [r st']; cbn in r;
             cbn [run bind mbind mret Prog_bind Prog_ret call]
         | r : (_ + _)%type |- _ => destruct r
         | r : (_ * _)%type |- _ => destruct r
         | r : option _ |- _ => destruct r
         | |- context [negb (?f (Some ?e))] => destruct (f (Some e)) eqn:?; cbn [negb]
         | |- context [negb (?f ?x)] => destruct (f x) eqn:?; cbn [negb]
         | |- context [IsNotFound None] => change (IsNotFound None) with false
         | |- _ => progress cbn [run bind mbind mret Prog_bind Prog_ret call negb]
         end;
  unfold events, shape, tolerated, event, rejected, fatal;
  cbn [fst snd map forallb failFast projT1 isDeletePeer negb andb orb];
  repeat match goal with
         | H : ?x = _ |- context [?x] => rewrite H
         end;
  reflexivity.

Section FailFast.

Context {lib : PhasesLib} {meth : PhasesMethods}.
Context {S : Type} (h : Handler S).
Variable p : updatePhaseInit.

Lemma shape_app (t u : list Event) : shape (t ++ u) = shape t ++ shape u.
Proof. unfold shape. apply map_app. Qed.

Lemma forallb_shape (t : list Event) :
  forallb fst (shape t) = forallb tolerated t.
Proof.
  induction t as [|ev t IH]; [reflexivity|].
  unfold shape in *. cbn [map forallb fst]. rewrite IH. reflexivity.
Qed.

Lemma failFast_tolerated (l l' : list (bool * bool)) :
  forallb fst l = true -> failFast (l ++ l') = failFast l'.
Proof.
  induction l as [|a l IH]; [reflexivity|]. cbn [forallb app failFast].
  intros H. apply andb_true_iff in H as [Ha Hl]. rewrite Ha, (IH Hl). reflexivity.
Qed.

Lemma failFast_peers (l : list (bool * bool)) :
  forallb snd l = true -> failFast l = true.
Proof.
  induction l as [|a l IH]; [reflexivity|]. cbn [forallb failFast].
  intros H. apply andb_true_iff in H as [Ha Hl].
  rewrite Hl, Ha, (IH Hl). cbn. rewrite orb_true_r. reflexivity.
Qed.

Lemma stopsEarly_step (m next : Prog (option error)) (msg : string) :
  reports h m -> stopsEarly h m -> stopsEarly h next ->
  stopsEarly h (step m msg next).
Proof.
  intros Hr Hm Hn s. rewrite run_step. specialize (Hm s).
  destruct (Hr s) as [Hp Hiff].
  destruct (run h m s) as [[[[e|]|] s1] t1]; unfold result, events in *;
    cbn [fst snd] in *.
  - rewrite app_nil_r. exact Hm.
  - specialize (Hn s1). destruct (run h next s1) as [[o s2] t2].
    unfold events in *. cbn [snd] in *. rewrite shape_app.
    rewrite failFast_tolerated; [exact Hn|].
    rewrite forallb_shape. apply Hiff. reflexivity.
  - exact Hm.
Qed.

Lemma stopsEarly_createAdminAgent : stopsEarly h (createAdminAgent p).
Proof. unfold createAdminAgent. stops_straight h. Qed.

Lemma stopsEarly_initRPCCredentials : stopsEarly h (initRPCCredentials p).
Proof. unfold initRPCCredentials. stops_straight h. Qed.

Lemma stopsEarly_upsertServiceUser : stopsEarly h (upsertServiceUser p).
Proof. unfold upsertServiceUser. stops_straight h. Qed.

Lemma stopsEarly_updateClusterRoles : stopsEarly h (updateClusterRoles p).
Proof. unfold updateClusterRoles. stops_straight h. Qed.

Lemma stopsEarly_updateClusterDNSConfig : stopsEarly h (updateClusterDNSConfig p).
Proof. unfold updateClusterDNSConfig. stops_straight h. Qed.

Lemma stopsEarly_updateDockerConfig : stopsEarly h (updateDockerConfig p).
Proof. unfold updateDockerConfig. stops_straight h. Qed.

Lemma peers_removePeersLoop (peers : list Peer) (errors : list error) (s : S) :
  forallb snd (shape (events (run h (removePeersLoop p peers errors) s))) = true.
Proof.
  revert errors s. induction peers as [|peer rest IH]; intros errors s.
  - reflexivity.
  - cbn [removePeersLoop]. destruct (negb (invalidPeers p [Peer_ID peer])); [apply IH|].
    cbn [run bind mbind mret Prog_bind Prog_ret call].
    destruct (h (Backend_DeletePeer (Peer_ID peer)) s) as [r s1]. cbn in r.
    destruct r as [e|].
    + specialize (IH (errors ++ [e]) s1).
      destruct (run h (removePeersLoop p rest (errors ++ [e])) s1) as [[o s2] t].
      unfold events in *. cbn [snd] in *. exact IH.
    + specialize (IH errors s1).
      destruct (run h (removePeersLoop p rest errors) s1) as [[o s2] t].
      unfold events in *. cbn [snd] in *. exact IH.
Qed.

Lemma stopsEarly_removeInvalidObjectPeers : stopsEarly h (removeInvalidObjectPeers p).
Proof.
  intros s. unfold removeInvalidObjectPeers.
  cbn [run bind mbind mret Prog_bind Prog_ret call].
  destruct (h Backend_GetPeers s) as [r s1]. cbn in r. destruct r as [peers|e].
  - pose proof (peers_removePeersLoop peers [] s1) as Hpeers.
    destruct (run h (removePeersLoop p peers []) s1) as [[o s2] t].
    unfold events in *. cbn [snd] in *.
    cbn [shape map failFast tolerated event fst orb andb].
    apply failFast_peers. exact Hpeers.
  - reflexivity.
Qed.

Lemma stopsEarly_applyLabelUpdates (packages : PackageService)
    (updates : list LabelUpdate) : stopsEarly h (applyLabelUpdates packages updates).
Proof.
  induction updates as [|u rest IH]; intros s.
  - reflexivity.
  - cbn [applyLabelUpdates run bind mbind mret Prog_bind Prog_ret call].
    destruct (h (Packages_UpdatePackageLabels packages (LU_Locator u) (LU_Add u)
                   (LU_Remove u)) s) as [r s1].
    cbn in r.
    destruct r as [e|]; [destruct (IsNotFound (Some e)) eqn:Enf|]; cbn [negb].
    + specialize (IH s1).
      destruct (run h (applyLabelUpdates packages rest) s1) as [[o s2] t].
      unfold events in *. cbn [snd shape map failFast tolerated event fst] in *.
      unfold fatal. rewrite Enf. cbn [negb orb andb]. exact IH.
    + unfold events. cbn [run mret Prog_ret snd shape map failFast tolerated event fst].
      unfold fatal. rewrite Enf. reflexivity.
    + change (IsNotFound None) with false. cbn [negb].
      specialize (IH s1).
      destruct (run h (applyLabelUpdates packages rest) s1) as [[o s2] t].
      unfold events in *. cbn [snd shape map failFast tolerated event fst] in *.
      exact IH.
Qed.

Lemma stopsEarly_updateRuntimeConfigLabels (packages : PackageService) (l : Locator) :
  stopsEarly h (updateRuntimeConfigLabels packages l).
Proof. unfold updateRuntimeConfigLabels. stops_straight h. Qed.

Lemma stopsEarly_updateTeleportConfigLabels (packages : PackageService) (name : string) :
  stopsEarly h (updateTeleportConfigLabels packages name).
Proof. unfold updateTeleportConfigLabels. stops_straight h. Qed.

Lemma stopsEarly_updateRuntimeSecretLabels (packages : PackageService) :
  stopsEarly h (updateRuntimeSecretLabels packages).
Proof. unfold updateRuntimeSecretLabels. stops_straight h. Qed.

Lemma stopsEarly_after_lookup {A : Type} (m : Prog (A + error))
    (k : A -> Prog (option error)) :
  builds h m -> stopsEarly h m -> (forall a, stopsEarly h (k a)) ->
  stopsEarly h (r ← m; match r with
                       | inr err => mret (Some (Wrap err ""))
                       | inl a => k a
                       end).
Proof.
  intros Hb Hm Hk s. rewrite run_mbind. specialize (Hm s).
  destruct (Hb s) as [Hp Hiff].
  destruct (run h m s) as [[[[a|e]|] s1] t1]; unfold result, events in *;
    cbn [fst snd] in *.
  - specialize (Hk a s1). destruct (run h (k a) s1) as [[o s2] t2].
    unfold events in *. cbn [snd] in *. rewrite shape_app.
    rewrite failFast_tolerated; [exact Hk|].
    rewrite forallb_shape. apply Hiff. eauto.
  - cbn [run mret Prog_ret]. rewrite app_nil_r. exact Hm.
  - exact Hm.
Qed.

Lemma stopsEarly_Server_Execute (q : updatePhaseInitServer) :
  stopsEarly h (Server_Execute q).
Proof.
  assert (Hlabels : stopsEarly h (updateExistingPackageLabels q)).
  { unfold updateExistingPackageLabels.
    apply stopsEarly_after_lookup;
      [apply builds_updateRuntimeConfigLabels
      |apply stopsEarly_updateRuntimeConfigLabels|].
    intros l1. apply stopsEarly_after_lookup;
      [apply builds_updateTeleportConfigLabels
      |apply stopsEarly_updateTeleportConfigLabels|].
    intros l2. apply stopsEarly_after_lookup;
      [apply builds_updateRuntimeSecretLabels
      |apply stopsEarly_updateRuntimeSecretLabels|].
    intros l3. apply stopsEarly_applyLabelUpdates. }
  intros s. unfold Server_Execute. rewrite run_mbind. specialize (Hlabels s).
  destruct (run h (updateExistingPackageLabels q) s) as [[[[e|]|] s1] t1];
    unfold events in *; cbn [fst snd run mret Prog_ret] in *;
    rewrite ?app_nil_r; exact Hlabels.
Qed.

Lemma failFast_spec (t t1 t2 : list Event) (ev : Event) :
  failFast (shape t) = true ->
  t = t1 ++ ev :: t2 ->
  tolerated ev = false ->
  if isDeletePeer (projT1 ev)
  then Forall (fun ev' : Event => isDeletePeer (projT1 ev') = true) t2
  else t2 = [].
Proof.
  intros Hfast -> Hev. rewrite shape_app in Hfast.
  induction t1 as [|a t1 IH].
  - cbn [app shape map failFast fst snd] in Hfast. rewrite Hev in Hfast.
    cbn [orb] in Hfast. apply andb_true_iff in Hfast as [Hfast _].
    apply andb_true_iff in Hfast as [Hpeers Hlast].
    destruct (isDeletePeer (projT1 ev)).
    + apply Forall_forall. intros ev' Hin.
      rewrite forallb_forall in Hpeers.
      apply (Hpeers (tolerated ev', isDeletePeer (projT1 ev'))).
      apply in_map_iff. exists ev'. split; [reflexivity|].
      apply list_elem_of_In. exact Hin.
    + destruct t2; [reflexivity|discriminate Hlast].
  - cbn [app shape map failFast] in Hfast. apply andb_true_iff in Hfast as [_ Hfast].
    apply IH. exact Hfast.
Qed.

Lemma stopsEarly_Execute : stopsEarly h (Execute p).
Proof.
  intros s. rewrite Execute_afterLegacy, run_mbind.
  pose proof (tolerated_removeLegacyUpdateDirectory h s) as Hlegacy.
  destruct (run_removeLegacyUpdateDirectory h s) as (a & s1 & t0 & Hrun & _).
  rewrite Hrun in *. unfold events in Hlegacy. cbn [snd] in Hlegacy.
  assert (Hrest : stopsEarly h (afterLegacy p)).
  { unfold afterLegacy.
    apply stopsEarly_step;
      [apply reports_createAdminAgent|apply stopsEarly_createAdminAgent|].
    apply stopsEarly_step;
      [apply reports_upsertServiceUser|apply stopsEarly_upsertServiceUser|].
    apply stopsEarly_step;
      [apply reports_initRPCCredentials|apply stopsEarly_initRPCCredentials|].
    apply stopsEarly_step;
      [apply reports_updateClusterRoles|apply stopsEarly_updateClusterRoles|].
    apply stopsEarly_step;
      [apply reports_updateClusterDNSConfig|apply stopsEarly_updateClusterDNSConfig|].
    apply stopsEarly_step;
      [apply reports_updateDockerConfig|apply stopsEarly_updateDockerConfig|].
    apply stopsEarly_step;
      [apply reports_removeInvalidObjectPeers
      |apply stopsEarly_removeInvalidObjectPeers|].
    destruct (init p) as [q|]; [|intros s'; reflexivity].
    apply stopsEarly_step;
      [apply reports_Server_Execute|apply stopsEarly_Server_Execute
      |intros s'; reflexivity]. }
  specialize (Hrest s1).
  destruct (run h (afterLegacy p) s1) as [[o s2] t1].
  unfold events in *. cbn [snd] in *. rewrite shape_app.
  rewrite failFast_tolerated; [exact Hrest|].
  rewrite forallb_shape. exact Hlegacy.
Qed.

(** X19.  [Execute] stops at the first answer it does not tolerate: such
    an answer is the last of the run and no later step is started.  The
    one exception is the removal of the object peers, which goes on with
    the remaining peers after a deletion failed; after a failed peer
    deletion the run has peer deletions only. *)
Theorem Execute_stops_at_the_first_failure (s : S) (t1 t2 : list Event) (ev : Event) :
  events (run h (Execute p) s) = t1 ++ ev :: t2 ->
  tolerated ev = false ->
  if isDeletePeer (projT1 ev)
  then Forall (fun ev' : Event => isDeletePeer (projT1 ev') = true) t2
  else t2 = [].
Proof.
  intros Hev Hbad.
  exact (failFast_spec _ t1 t2 ev (stopsEarly_Execute s) Hev Hbad).
Qed.

End FailFast.

(** ** The order of the calls of [Execute] *)

Section Stages.

Context {lib : PhasesLib} {meth : PhasesMethods}.
Context {S : Type} (h : Handler S).
Variable p : updatePhaseInit.

Lemma staged_nil (k : nat) : staged k [].
Proof. split; constructor. Qed.

Lemma staged_app (k k' : nat) (t u : list Event) :
  Forall (fun ev : Event => stage (projT1 ev) = k) t ->
  (k <= k')%nat -> staged k' u -> staged k (t ++ u).
Proof.
  intros Ht Hk [Hs Hu]. unfold staged, callsOf in *. rewrite map_app.
  induction Ht as [|ev t Hev _ [IHs IHf]]; cbn [map app].
  - split; [exact Hs|]. eapply Forall_impl; [exact Hu|]. cbn. intros c Hc. lia.
  - split.
    + constructor; [exact IHs|]. apply List.Forall_forall. intros c Hin.
      rewrite Forall_forall in IHf. unfold inStages. rewrite Hev.
      apply IHf. apply list_elem_of_In. exact Hin.
    + constructor; [lia|exact IHf].
Qed.

Lemma staged_step (k k' : nat) (m next : Prog (option error)) (msg : string) :
  within (fun c => stage c = k) m -> (k <= k')%nat ->
  (forall s, staged k' (events (run h next s))) ->
  forall s, staged k (events (run h (step m msg next) s)).
Proof.
  intros Hm Hk Hn s. rewrite run_step.
  pose proof (within_run _ h m s Hm) as Hall.
  destruct (run h m s) as [[[[e|]|] s1] t1]; unfold events in *; cbn [snd] in *.
  - apply (staged_app k k'); [exact Hall|exact Hk|apply staged_nil].
  - specialize (Hn s1). destruct (run h next s1) as [[o s2] t2].
    unfold events in *. cbn [snd] in *. apply (staged_app k k'); assumption.
  - rewrite <- (app_nil_r t1). apply (staged_app k k'); [exact Hall|exact Hk|].
    apply staged_nil.
Qed.

(** X20.  Whatever the collaborators answer, the calls of [Execute] come
    in stages: the file system for the legacy directory, the creation of
    the admin agent, the cluster record with the service user and the
    credentials, the object peers, the packages of the server part.  No
    call of an earlier stage follows a call of a later one: no peer is
    deleted before the steps on the cluster record are through, and no
    package label is touched before the peers are. *)
Theorem Execute_works_in_stages (s : S) :
  StronglySorted inStages (callsOf (events (run h (Execute p) s))).
Proof.
  assert (Hall : staged 0 (events (run h (Execute p) s))).
  { rewrite Execute_afterLegacy, run_mbind.
    pose proof (within_run _ h removeLegacyUpdateDirectory s
                  (within_removeLegacyUpdateDirectory (fun c => stage c = 0%nat)
                     eq_refl (fun _ => eq_refl) (fun _ => eq_refl))) as Hlegacy.
    destruct (run h removeLegacyUpdateDirectory s) as [[[a|] s0] t0];
      unfold events in *; cbn [snd] in *.
    2:{ rewrite <- (app_nil_r t0).
        apply (staged_app 0 0); [exact Hlegacy|lia|apply staged_nil]. }
    assert (Hrest : forall s', staged 1 (events (run h (afterLegacy p) s'))).
    { unfold afterLegacy.
      apply (staged_step 1 2); [unfold createAdminAgent; within_phase|lia|].
      apply (staged_step 2 2); [unfold upsertServiceUser; within_phase|lia|].
      apply (staged_step 2 2); [unfold initRPCCredentials; within_phase|lia|].
      apply (staged_step 2 2); [unfold updateClusterRoles; within_phase|lia|].
      apply (staged_step 2 2); [unfold updateClusterDNSConfig; within_phase|lia|].
      apply (staged_step 2 3); [unfold updateDockerConfig; within_phase|lia|].
      apply (staged_step 3 4); [unfold removeInvalidObjectPeers; within_phase|lia|].
      destruct (init p) as [q|]; [|intros s'; apply staged_nil].
      apply (staged_step 4 4); [|lia|intros s'; apply staged_nil].
      refine (within_weaken _ _ _ _ (within_Server_Execute q)).
      intros c [Hc _]. destruct c; try discriminate Hc; reflexivity. }
    specialize (Hrest s0). destruct (run h (afterLegacy p) s0) as [[o s1] t1].
    unfold events in *. cbn [snd] in *.
    apply (staged_app 0 1); [exact Hlegacy|lia|exact Hrest]. }
  exact (proj1 Hall).
Qed.

End Stages.

(** ** Running [Execute] again *)

Section Replay.

Context {lib : PhasesLib} {meth : PhasesMethods}.
Context {S : Type} (h : Handler S) (stored : S -> option Site).
Hypothesis Hstore : SiteStore h stored.
Variable p : updatePhaseInit.
Hypothesis Hreads : forall s c,
  stored s = Some c -> (h (Backend_GetLocalSite SystemAccountID) s).1 = inl c.
Hypothesis Hreplay : forall c s s',
  isRecordRead c = false -> (h c s).1 = (h c s').1.
Variable cluster : Site.
Hypothesis Hsettled : settled p cluster.
Hypothesis Hwrite : forall s, (h (Backend_UpdateSite cluster) s).1 = None.

Local Abbreviation nil := (returnsNil h stored cluster).
Local Abbreviation keeps := (keepsRecord h stored cluster).

Lemma nil_ret : nil (mret None).
Proof. intros s _. reflexivity. Qed.

Lemma nil_step (m next : Prog (option error)) (msg : string) :
  nil m -> keeps m -> nil next -> nil (step m msg next).
Proof.
  intros Hm Hk Hn s Hs. rewrite run_step.
  specialize (Hm s Hs). specialize (Hk s Hs).
  destruct (run h m s) as [[o s1] t1]. unfold result, final in *. cbn [fst snd] in *.
  subst o. specialize (Hn s1 Hk).
  destruct (run h next s1) as [[o2 s2] t2]. exact Hn.
Qed.

(** A program that does not read the record gives the same result from
    every state. *)
Lemma replay_result {A : Type} (m : Prog A) (s s' : S) :
  avoids isRecordRead m -> result (run h m s) = result (run h m s').
Proof.
  revert s s'. induction m as [a| |c k IH]; intros s s' Hm; [reflexivity..|].
  destruct Hm as [Hc Hk]. cbn [run].
  pose proof (Hreplay c s s' Hc) as Hsame.
  destruct (h c s) as [r s1], (h c s') as [r' s1']. cbn [fst] in Hsame. subst r'.
  specialize (IH r s1 s1' (Hk r)).
  destruct (run h (k r) s1) as [[o s2] t], (run h (k r) s1') as [[o' s2'] t'].
  exact IH.
Qed.

Lemma nil_replay (m : Prog (option error)) :
  avoids isRecordRead m ->
  (exists s0, result (run h m s0) = Returned None) -> nil m.
Proof.
  intros Hm [s0 H0] s _. rewrite (replay_result m s s0 Hm). exact H0.
Qed.

Lemma nil_read (k : Site -> Prog (option error)) :
  nil (k cluster) ->
  nil (r ← call (Backend_GetLocalSite SystemAccountID);
       match r with
       | inr err => mret (Some (Wrap err ""))
       | inl c => k c
       end).
Proof.
  intros Hk s Hs. cbn [run bind mbind mret Prog_bind Prog_ret call].
  pose proof (Hreads s cluster Hs) as Hread.
  pose proof (store_other h stored Hstore s (Backend_GetLocalSite SystemAccountID)
                eq_refl) as Hsame.
  destruct (h (Backend_GetLocalSite SystemAccountID) s) as [r s1].
  cbn [fst snd] in *. subst r.
  specialize (Hk s1 ltac:(congruence)).
  destruct (run h (k cluster) s1) as [[o s2] t]. exact Hk.
Qed.

Lemma nil_write :
  nil (err ← call (Backend_UpdateSite cluster);
       match err with
       | Some e => mret (Some (Wrap e ""))
       | None => mret None
       end).
Proof.
  intros s _. cbn [run bind mbind mret Prog_bind Prog_ret call].
  pose proof (Hwrite s) as Hok.
  destruct (h (Backend_UpdateSite cluster) s) as [w s1].
  cbn [fst] in Hok. cbn in w. subst w. reflexivity.
Qed.

Lemma nil_upsertServiceUser : nil (upsertServiceUser p).
Proof.
  unfold upsertServiceUser.
  apply (nil_read (fun c =>
           if negb (OSUser_IsEmpty (Site_ServiceUser c)) then mret None else _)).
  destruct Hsettled as (Huser & _). rewrite Huser. apply nil_ret.
Qed.

Lemma nil_updateDockerConfig : nil (updateDockerConfig p).
Proof.
  unfold updateDockerConfig.
  apply (nil_read (fun c =>
           if negb (DockerConfig_IsEmpty (Docker (Site_ClusterState c)))
           then mret None
           else
             err ← call (Backend_UpdateSite (setDocker c (existingDocker p)));
             match err with
             | Some e => mret (Some (Wrap e ""))
             | None => mret None
             end)).
  destruct Hsettled as (_ & _ & Hdocker & _).
  destruct (DockerConfig_IsEmpty (Docker (Site_ClusterState cluster))) eqn:Hempty;
    cbn [negb]; [|apply nil_ret].
  destruct Hdocker as [Hset|Hsame]; [discriminate|].
  assert (Hrec : setDocker cluster (existingDocker p) = cluster).
  { rewrite <- Hsame. destruct cluster as [u d [srvs dk] rest]. reflexivity. }
  rewrite Hrec. apply nil_write.
Qed.

Lemma nil_updateClusterDNSConfig : nil (updateClusterDNSConfig p).
Proof.
  unfold updateClusterDNSConfig.
  apply (nil_read (fun c =>
           let c' := if DNSConfig_IsEmpty (Site_DNSConfig c)
                     then setDNSConfig c (existingDNS p) else c in
           err ← call (Backend_UpdateSite c');
           match err with
           | Some e => mret (Some (Wrap e ""))
           | None => mret None
           end)).
  cbn zeta. destruct Hsettled as (_ & Hdns & _).
  destruct (DNSConfig_IsEmpty (Site_DNSConfig cluster)) eqn:Hempty;
    [|apply nil_write].
  destruct Hdns as [Hset|Hsame]; [discriminate|].
  assert (Hrec : setDNSConfig cluster (existingDNS p) = cluster).
  { rewrite <- Hsame. destruct cluster as [u d cs rest]. reflexivity. }
  rewrite Hrec. apply nil_write.
Qed.

Lemma nil_updateClusterRoles : nil (updateClusterRoles p).
Proof.
  unfold updateClusterRoles.
  apply (nil_read (fun c =>
           let c' := setServers c
                       (assignRoles (serversByIP (Init_Servers p))
                          (Servers (Site_ClusterState c))) in
           err ← call (Backend_UpdateSite c');
           match err with
           | Some e => mret (Some (Wrap e ""))
           | None => mret None
           end)).
  cbn zeta. rewrite (assignRoles_settled p cluster Hsettled).
  assert (Hsame : setServers cluster (Servers (Site_ClusterState cluster)) = cluster).
  { destruct cluster as [u d [srvs dk] rest]. reflexivity. }
  rewrite Hsame. apply nil_write.
Qed.

Lemma reads_removeInvalidObjectPeers :
  avoids isRecordRead (removeInvalidObjectPeers p).
Proof.
  unfold removeInvalidObjectPeers.
  cbn [avoids bind mbind mret Prog_bind Prog_ret call].
  split; [reflexivity|]. intros [peers|e]; [|exact I].
  apply avoids_removePeersLoop. reflexivity.
Qed.

Lemma reads_Server_Execute (q : updatePhaseInitServer) :
  avoids isRecordRead (Server_Execute q).
Proof.
  unfold Server_Execute. apply avoids_bind; [|intros [e|]; exact I].
  unfold updateExistingPackageLabels.
  apply avoids_bind; [unfold updateRuntimeConfigLabels; avoids_straight|].
  intros [l1|e1]; [|exact I].
  apply avoids_bind; [unfold updateTeleportConfigLabels; avoids_straight|].
  intros [l2|e2]; [|exact I].
  apply avoids_bind; [unfold updateRuntimeSecretLabels; avoids_straight|].
  intros [l3|e3]; [|exact I].
  apply avoids_applyLabelUpdates. reflexivity.
Qed.

(** [Execute] on a settled record, with collaborators that answered
    its other steps without error before. *)
Lemma Execute_again_nil :
  (exists s0, result (run h (createAdminAgent p) s0) = Returned None) ->
  (exists s0, result (run h (initRPCCredentials p) s0) = Returned None) ->
  (exists s0, result (run h (removeInvalidObjectPeers p) s0) = Returned None) ->
  (forall q, init p = Some q ->
             exists s0, result (run h (Server_Execute q) s0) = Returned None) ->
  nil (Execute p).
Proof.
  intros HA HC HP HQ s Hs. unfold Execute. rewrite run_mbind.
  pose proof (keeps_avoids h stored Hstore cluster removeLegacyUpdateDirectory
                avoids_write_removeLegacyUpdateDirectory s Hs) as H0.
  destruct (run_removeLegacyUpdateDirectory h s) as (a & s0 & t0 & Hrun & _).
  rewrite Hrun in *. unfold final in H0. cbn [fst snd] in H0.
  assert (Hrest : nil
    (step (createAdminAgent p) "failed to create cluster admin agent" (
     step (upsertServiceUser p) "failed to upsert service user" (
     step (initRPCCredentials p) "failed to init RPC credentials" (
     step (updateClusterRoles p) "failed to update RPC credentials" (
     step (updateClusterDNSConfig p) "failed to update DNS configuration" (
     step (updateDockerConfig p) "failed to update Docker configuration" (
     step (removeInvalidObjectPeers p) "failed to clean up object peers" (
     match init p with
     | Some i => step (Server_Execute i) "" (mret None)
     | None => mret None
     end))))))))).
  { apply nil_step;
      [apply nil_replay; [unfold createAdminAgent; avoids_straight|exact HA]
      |apply keeps_avoids; [exact Hstore|apply avoids_write_createAdminAgent]|].
    apply nil_step;
      [apply nil_upsertServiceUser
      |apply keeps_upsertServiceUser; [exact Hstore|exact Hsettled]|].
    apply nil_step;
      [apply nil_replay; [unfold initRPCCredentials; avoids_straight|exact HC]
      |apply keeps_avoids; [exact Hstore|apply avoids_write_initRPCCredentials]|].
    apply nil_step;
      [apply nil_updateClusterRoles
      |apply keeps_updateClusterRoles; [exact Hstore|exact Hsettled]|].
    apply nil_step;
      [apply nil_updateClusterDNSConfig
      |apply keeps_updateClusterDNSConfig; [exact Hstore|exact Hsettled]|].
    apply nil_step;
      [apply nil_updateDockerConfig
      |apply keeps_updateDockerConfig; [exact Hstore|exact Hsettled]|].
    apply nil_step;
      [apply nil_replay; [apply reads_removeInvalidObjectPeers|exact HP]
      |apply keeps_avoids; [exact Hstore|apply avoids_write_removeInvalidObjectPeers]|].
    destruct (init p) as [q|] eqn:Hinit; [|apply nil_ret].
    apply nil_step;
      [apply nil_replay; [apply reads_Server_Execute|exact (HQ q eq_refl)]
      |apply keeps_avoids; [exact Hstore|apply avoids_write_Server_Execute]
      |apply nil_ret]. }
  specialize (Hrest s0 H0).
  destruct (run h _ s0) as [[o s1] t1]. exact Hrest.
Qed.

End Replay.

Section FirstRunAnswers.

Context {lib : PhasesLib} {meth : PhasesMethods}.
Context {S : Type} (h : Handler S) (stored : S -> option Site).
Hypothesis Hstore : SiteStore h stored.
Variable p : updatePhaseInit.
Hypothesis Huser : forall user, OSUser_IsEmpty (serviceUserOf user) = false.

(** As [read_then_write], with the answer the write got. *)
Lemma read_then_write_answer (g : Site -> option Site)
    (k : Site -> Prog (option error)) (s s' : S) (t : list Event) :
  (forall c, k c = match g c with
                   | None => mret None
                   | Some c' =>
                       err ← call (Backend_UpdateSite c');
                       match err with
                       | Some e => mret (Some (Wrap e ""))
                       | None => mret None
                       end
                   end) ->
  run h (r ← call (Backend_GetLocalSite SystemAccountID);
         match r with
         | inr err => mret (Some (Wrap err ""))
         | inl c => k c
         end) s = (Returned None, s', t) ->
  exists c, stored s = Some c
            /\ match g c with
               | Some c' => stored s' = Some c'
                            /\ exists s0, (h (Backend_UpdateSite c') s0).1 = None
               | None => stored s' = Some c
               end.
Proof.
  intros Hk. cbn [run bind mbind mret Prog_bind Prog_ret call].
  pose proof (store_read h stored Hstore s) as Hread.
  pose proof (store_other h stored Hstore s (Backend_GetLocalSite SystemAccountID)
                eq_refl) as Hsame.
  destruct (h (Backend_GetLocalSite SystemAccountID) s) as [r s1].
  cbn [fst snd] in *. destruct r as [c|err]; [|discriminate].
  specialize (Hread c eq_refl). intros Hrun. exists c. split; [exact Hread|].
  rewrite Hk in Hrun. destruct (g c) as [c'|].
  - cbn [run bind mbind mret Prog_bind Prog_ret call] in Hrun.
    pose proof (store_written h stored Hstore s1 c') as Hok.
    destruct (h (Backend_UpdateSite c') s1) as [w s2] eqn:Ew. cbn [fst snd] in *.
    cbn in w. destruct w as [e|]; [discriminate|].
    injection Hrun as <- _. split; [exact (Hok eq_refl)|].
    exists s1. rewrite Ew. reflexivity.
  - injection Hrun as <- _. congruence.
Qed.

(** What a run of [Execute] that returns nil tells: the record it leaves
    is settled and was written without error, and the steps that do not
    read the record returned nil. *)
Lemma Execute_nil_run (s : S) :
  result (run h (Execute p) s) = Returned None ->
  exists c,
    stored (final (run h (Execute p) s)) = Some c
    /\ settled p c
    /\ (exists s0, (h (Backend_UpdateSite c) s0).1 = None)
    /\ (exists s0, result (run h (createAdminAgent p) s0) = Returned None)
    /\ (exists s0, result (run h (initRPCCredentials p) s0) = Returned None)
    /\ (exists s0, result (run h (removeInvalidObjectPeers p) s0) = Returned None)
    /\ (forall q, init p = Some q ->
                  exists s0, result (run h (Server_Execute q) s0) = Returned None).
Proof.
  intros Hnil.
  destruct (Execute_settles h stored Hstore p Huser s Hnil) as (c & Hc & Hsettled).
  exists c. split; [exact Hc|]. split; [exact Hsettled|].
  revert Hnil Hc. unfold Execute. rewrite run_mbind.
  destruct (run h removeLegacyUpdateDirectory s) as [[[a|] s0] t0] eqn:E0;
    [|unfold result; cbn [fst]; discriminate].
  rewrite run_step.
  destruct (run h (createAdminAgent p) s0) as [[[[eA|]|] sA] tA] eqn:EA;
    [unfold result; cbn [fst]; discriminate| |unfold result; cbn [fst]; discriminate].
  rewrite run_step.
  destruct (run h (upsertServiceUser p) sA) as [[[[eU|]|] sU] tU] eqn:EU;
    [unfold result; cbn [fst]; discriminate| |unfold result; cbn [fst]; discriminate].
  rewrite run_step.
  destruct (run h (initRPCCredentials p) sU) as [[[[eC|]|] sC] tC] eqn:EC;
    [unfold result; cbn [fst]; discriminate| |unfold result; cbn [fst]; discriminate].
  rewrite run_step.
  destruct (run h (updateClusterRoles p) sC) as [[[[eR|]|] sR] tR] eqn:ER;
    [unfold result; cbn [fst]; discriminate| |unfold result; cbn [fst]; discriminate].
  rewrite run_step.
  destruct (run h (updateClusterDNSConfig p) sR) as [[[[eN|]|] sN] tN] eqn:EN;
    [unfold result; cbn [fst]; discriminate| |unfold result; cbn [fst]; discriminate].
  rewrite run_step.
  destruct (run h (updateDockerConfig p) sN) as [[[[eD|]|] sD] tD] eqn:ED;
    [unfold result; cbn [fst]; discriminate| |unfold result; cbn [fst]; discriminate].
  rewrite run_step.
  destruct (run h (removeInvalidObjectPeers p) sD) as [[[[eP|]|] sP] tP] eqn:EP;
    [unfold result; cbn [fst]; discriminate| |unfold result; cbn [fst]; discriminate].
  intros Hnil Hc.
  (* the last write *)
  unfold updateClusterDNSConfig in EN.
  apply (read_then_write_answer
           (fun c => Some (if DNSConfig_IsEmpty (Site_DNSConfig c)
                           then setDNSConfig c (existingDNS p) else c))) in EN;
    [|reflexivity].
  destruct EN as (cN & _ & HsN & HwN).
  unfold updateDockerConfig in ED.
  apply (read_then_write_answer
           (fun c => if negb (DockerConfig_IsEmpty (Docker (Site_ClusterState c)))
                     then None
                     else Some (setDocker c (existingDocker p)))) in ED;
    [|intros c0; destruct (negb _); reflexivity].
  destruct ED as (cD & HcD & HD).
  pose proof (stored_avoids h stored Hstore _ _ _ _ _
                (avoids_write_removeInvalidObjectPeers p) EP) as HsP.
  assert (Hlast : stored sP = Some c).
  { destruct (init p) as [q|].
    - rewrite run_step in Hc.
      destruct (run h (Server_Execute q) sP) as [[oq sq] tq] eqn:EQ.
      pose proof (stored_avoids h stored Hstore _ _ _ _ _
                    (avoids_write_Server_Execute q) EQ) as Hsq.
      destruct oq as [[eq|]|]; unfold final in Hc; cbn [run mret Prog_ret fst snd] in Hc;
        congruence.
    - unfold final in Hc. cbn [run mret Prog_ret fst snd] in Hc. exact Hc. }
  split.
  { destruct (negb (DockerConfig_IsEmpty (Docker (Site_ClusterState cD)))).
    - assert (c = if DNSConfig_IsEmpty (Site_DNSConfig cN)
                  then setDNSConfig cN (existingDNS p) else cN) by congruence.
      subst c. exact HwN.
    - destruct HD as [HsD HwD].
      assert (c = setDocker cD (existingDocker p)) by congruence.
      subst c. exact HwD. }
  split; [exists s0; rewrite EA; reflexivity|].
  split; [exists sU; rewrite EC; reflexivity|].
  split; [exists sD; rewrite EP; reflexivity|].
  intros q Hq. rewrite Hq in Hnil. rewrite run_step in Hnil.
  exists sP. destruct (run h (Server_Execute q) sP) as [[[[eq|]|] sq] tq];
    [unfold result in Hnil; cbn [fst] in Hnil; discriminate Hnil
    |reflexivity
    |unfold result in Hnil; cbn [fst] in Hnil; discriminate Hnil].
Qed.

(** On a backend that returns the stored record and with collaborators
    whose other answers do not depend on when they are asked, [Execute]
    returns nil again after a run that returned nil. *)
Lemma Execute_twice_nil (s : S) :
  (forall s' c,
     stored s' = Some c -> (h (Backend_GetLocalSite SystemAccountID) s').1 = inl c) ->
  (forall c s' s'', isRecordRead c = false -> (h c s').1 = (h c s'').1) ->
  result (run h (Execute p) s) = Returned None ->
  result (run h (Execute p) (final (run h (Execute p) s))) = Returned None.
Proof.
  intros Hreads Hreplay Hnil.
  destruct (Execute_nil_run s Hnil)
    as (c & Hc & Hsettled & [s0 Hw] & HA & HC & HP & HQ).
  apply (Execute_again_nil h stored Hstore p Hreads Hreplay c Hsettled); auto.
  intros s'. rewrite (Hreplay (Backend_UpdateSite c) s' s0 eq_refl). exact Hw.
Qed.

End FirstRunAnswers.

Section ClusterRecord.

Context {lib : PhasesLib} {meth : PhasesMethods}.


End ClusterRecord.

Section ClusterRecordWitness.

#[local] Existing Instance demo.lib.
#[local] Existing Instance demo.meth.


Lemma memory_is_a_store : SiteStore demo.memory Some.
Proof.
  split.
  - intros s cluster H. cbn in H. congruence.
  - intros s cluster _. reflexivity.
  - intros s cluster e H. discriminate H.
  - intros s c Hc. destruct c; try reflexivity. discriminate Hc.
Qed.

Lemma settledSite_is_settled : settled demo.leader demo.settledSite.
Proof.
  split; [reflexivity|]. split; [left; reflexivity|]. split; [left; reflexivity|].
  repeat constructor; intros H; try discriminate H; reflexivity.
Qed.

Lemma Itoa_not_empty (n : Z) : demo.emptyString (Itoa n) = false.
Proof.
  unfold Itoa. destruct (Z.to_int n) as [d|d]; [destruct d|]; reflexivity.
Qed.

Lemma memory_returns_the_record (s : Site) (c : Site) :
  Some s = Some c -> (demo.memory (Backend_GetLocalSite SystemAccountID) s).1 = inl c.
Proof. intros H. cbn. congruence. Qed.

Lemma memory_answers_alike (c : Call) (s s' : Site) :
  isRecordRead c = false -> (demo.memory c s).1 = (demo.memory c s').1.
Proof. intros Hc. destruct c; try reflexivity. discriminate Hc. Qed.

Lemma demo_service_user_counts (user : SysUser) :
  OSUser_IsEmpty (serviceUserOf user) = false.
Proof.
  change (demo.emptyString (SysUser_Name user)
          && demo.emptyString (Itoa (SysUser_UID user))
          && demo.emptyString (Itoa (SysUser_GID user)) = false).
  rewrite !Itoa_not_empty. apply andb_false_r.
Qed.


End ClusterRecordWitness.

(** ** The statements above on the sample data *)

Section ValidateMoreWitness.

(** A pod subnet that is too small is a bad parameter. *)
Lemma validate_errors_are_BadParameter_witness :
  IsBadParameter (@KubernetesSubnets net4.lib "10.200.0.0/20" "") = true.
Proof.
  destruct (@validate_errors_are_BadParameter net4.lib unit (fun _ => false)
              (Global unit) (Global unit) _ _) as [Hk _].
  destruct (@KubernetesSubnets net4.lib "10.200.0.0/20" "") as [e|] eqn:E.
  - exact (Hk _ _ e E).
  - vm_compute in E. discriminate E.
Defined.

End ValidateMoreWitness.

Section PhaseWitnesses.

#[local] Existing Instance demo.lib.
#[local] Existing Instance demo.meth.

(** With a legacy update directory in the state directory, [Execute]
    removes it and nothing else. *)
Lemma Execute_removes_only_the_legacy_directory_witness :
  removals (events (run sample.withLegacy (Execute demo.leader) tt))
  = ["/var/lib/gravity/site/update/gravity"].
Proof.
  destruct (Execute_removes_only_the_legacy_directory sample.withLegacy demo.leader tt)
    as [Honly _].
  destruct (Honly "/var/lib/gravity/site/update/gravity") as (dir & r & _ & H & _).
  - assert (E : removals (events (run sample.withLegacy (Execute demo.leader) tt))
                = ["/var/lib/gravity/site/update/gravity"]) by reflexivity.
    rewrite E. left.
  - exact H.
Defined.

(** An executor without server part looks up no package and updates no
    label. *)
Lemma Execute_footprint_witness :
  Forall (fun ev : Event => serverCall (projT1 ev) = false)
    (events (run demo.handler (Execute sample.alone) tt)).
Proof.
  destruct (Execute_footprint demo.handler sample.alone tt) as (_ & _ & _ & H).
  exact (H eq_refl).
Defined.

(** The constructors on the sample phase, with and without its data. *)
Lemma NewUpdatePhaseInitLeader_builds_from_answers_witness :
  length (events (run demo.handler
                    (NewUpdatePhaseInitLeader sample.params ClusterPackages
                       LocalPackages) tt)) = 5%nat.
Proof.
  assert (E : result (run demo.handler
                        (NewUpdatePhaseInitLeader sample.params ClusterPackages
                           LocalPackages) tt)
              = Returned (inl sample.built)) by reflexivity.
  destruct (NewUpdatePhaseInitLeader_builds_from_answers demo.handler tt sample.params
              ClusterPackages LocalPackages) as (_ & _ & _ & H).
  destruct (H sample.built E)
    as (data & package & installedPackage & update & cluster & operation
        & installOperation & app & installed & _ & _ & _ & _ & Hev & _).
  rewrite Hev. reflexivity.
Defined.

Lemma constructors_agree_on_server_part_witness :
  run demo.handler (NewUpdatePhaseInitServer sample.params LocalPackages "example.com") tt
  = (Returned (inl demo.initServer), tt, []).
Proof.
  assert (E : result (run demo.handler
                        (NewUpdatePhaseInitLeader sample.params ClusterPackages
                           LocalPackages) tt)
              = Returned (inl sample.built)) by reflexivity.
  exact (constructors_agree_on_server_part demo.handler tt sample.params
           ClusterPackages LocalPackages sample.built E tt).
Defined.

Lemma constructors_panic_on_missing_data_witness :
  run demo.handler (NewUpdatePhaseInitServer sample.noData LocalPackages "example.com") tt
  = (Panicked, tt, [])
  /\ result (run demo.handler
               (NewUpdatePhaseInitLeader sample.noUpdate ClusterPackages LocalPackages)
               tt) = Panicked.
Proof.
  split.
  - destruct (constructors_panic_on_missing_data demo.handler tt sample.noData
                ClusterPackages LocalPackages "example.com") as [H _].
    exact (H eq_refl).
  - destruct (constructors_panic_on_missing_data demo.handler tt sample.noUpdate
                ClusterPackages LocalPackages "example.com") as [_ H].
    destruct (H _ _ _ eq_refl eq_refl eq_refl eq_refl) as (_ & Hpanic & _).
    apply Hpanic. reflexivity.
Defined.

(** The steps that write the cluster record, on the record with nothing
    set yet. *)
Lemma upsertServiceUser_sets_missing_user_witness :
  exists w,
    siteWriteResults (events (run demo.memory (upsertServiceUser demo.leader)
                                sample.fresh))
    = [({| Site_ServiceUser := mkOSUser "planet" "1000" "1000";
           Site_DNSConfig := "";
           Site_ClusterState := Site_ClusterState sample.fresh;
           Site_Rest := "example.com" |}, w)]
    /\ result (run demo.memory (upsertServiceUser demo.leader) sample.fresh)
       = Returned ((fun e => Wrap e "") <$> w).
Proof.
  assert (Hread : (demo.memory (Backend_GetLocalSite SystemAccountID) sample.fresh).1
                  = inl sample.fresh) by reflexivity.
  assert (Hempty : OSUser_IsEmpty (Site_ServiceUser sample.fresh) = true)
    by reflexivity.
  exact (upsertServiceUser_sets_missing_user demo.memory demo.leader sample.fresh
           sample.fresh Hread Hempty).
Defined.

Lemma missing_configuration_is_filled_in_witness :
  map fst (siteWriteResults (events (run demo.memory (updateClusterDNSConfig demo.leader)
                                       sample.fresh)))
  = [setDNSConfig sample.fresh "127.0.0.3:53"]
  /\ map fst (siteWriteResults (events (run demo.memory (updateDockerConfig demo.leader)
                                          sample.fresh)))
     = [setDocker sample.fresh "devicemapper"].
Proof.
  assert (Hread : (demo.memory (Backend_GetLocalSite SystemAccountID) sample.fresh).1
                  = inl sample.fresh) by reflexivity.
  destruct (missing_configuration_is_filled_in demo.memory demo.leader sample.fresh
              sample.fresh Hread) as [Hdns Hdocker].
  assert (E1 : DNSConfig_IsEmpty (Site_DNSConfig sample.fresh) = true) by reflexivity.
  assert (E2 : DockerConfig_IsEmpty (Docker (Site_ClusterState sample.fresh)) = true)
    by reflexivity.
  destruct (Hdns E1) as (w1 & Hw1 & _). destruct (Hdocker E2) as (w2 & Hw2 & _).
  split; [rewrite Hw1|rewrite Hw2]; reflexivity.
Defined.

(** [Execute] on the record with nothing set yet. *)
Lemma Execute_fills_in_the_record_witness :
  final (run demo.memory (Execute demo.leader) sample.fresh) = sample.filled
  /\ afterInit demo.leader sample.fresh sample.filled.
Proof.
  assert (Hs : Some sample.fresh = Some sample.fresh) by reflexivity.
  assert (Hnil : result (run demo.memory (Execute demo.leader) sample.fresh)
                 = Returned None) by reflexivity.
  assert (Hfinal : final (run demo.memory (Execute demo.leader) sample.fresh)
                   = sample.filled) by reflexivity.
  destruct (Execute_fills_in_the_record demo.memory Some memory_is_a_store demo.leader
              sample.fresh sample.fresh Hs Hnil) as (after & Hafter & Hinit).
  split; [exact Hfinal|]. congruence.
Defined.

(** The server part on the sample collaborators, and on those without a
    secrets package. *)
(** A search for the installed teleport configuration that ends on a
    missing file sends [updateTeleportConfigLabels] to the latest
    package, as "not found" does. *)
Lemma updateTeleportConfigLabels_marks_latest_witness :
  result (run sample.lookupGone
            (updateTeleportConfigLabels LocalPackages "example.com") tt)
  = Returned (inl [mkLabelUpdate (mkLocator "example.com" "teleport-node-config" "7.0.0")
                     teleportInstalledLabels []]).
Proof.
  pose proof (updateTeleportConfigLabels_marks_latest sample.lookupGone tt
                LocalPackages "example.com") as H.
  hnf in H. destruct H as [_ H]. exact H.
Defined.

Lemma labels_after_success_witness :
  (exists config secrets teleport,
     map fst (labelCalls (events (run demo.handler
                                    (updateExistingPackageLabels demo.initServer) tt)))
     = config ++ secrets ++ teleport
         ++ [runtimeUpdate (mkLocator "gravitational.io" "planet" "7.0.1")]
     /\ marks InstalledLabels config
     /\ marks InstalledLabels secrets
     /\ marks teleportInstalledLabels teleport)
  /\ Forall (fun c => fatal c.2 = false)
       (labelCalls (events (run sample.filesGone
                              (updateExistingPackageLabels demo.initServer) tt))).
Proof.
  assert (Hnil : result (run demo.handler (updateExistingPackageLabels demo.initServer) tt)
                 = Returned None) by reflexivity.
  assert (Gnil : result (run sample.filesGone
                           (updateExistingPackageLabels demo.initServer) tt)
                 = Returned None) by reflexivity.
  split.
  - destruct (labels_after_success demo.handler demo.initServer tt Hnil)
      as (config & secrets & teleport & Hcalls & Hc & Hs & Ht & _).
    exists config, secrets, teleport. auto.
  - destruct (labels_after_success sample.filesGone demo.initServer tt Gnil)
      as (config & secrets & teleport & _ & _ & _ & _ & Hall).
    exact Hall.
Defined.

Lemma missing_secrets_package_is_fatal_witness :
  labelCalls (events (run sample.noSecrets (Server_Execute demo.initServer) tt)) = []
  /\ result (run sample.noSecrets (Server_Execute demo.initServer) tt)
     = Returned (Some (Wrap (Wrap (Wrap demo.notFound "") "")
                         "failed to update existing package labels")).
Proof.
  apply (missing_secrets_package_is_fatal sample.noSecrets demo.initServer tt
           demo.notFound).
  assert (E : secretsLookups (events (run sample.noSecrets
                                        (Server_Execute demo.initServer) tt))
              = [inr demo.notFound]) by reflexivity.
  rewrite E. left.
Defined.

(** With a backend that refuses to delete the second of three peers,
    [Execute] still asks for the deletion of the third and then ends:
    after the refused deletion, the twelfth answer of the run, there are
    peer deletions only. *)
Lemma Execute_stops_at_the_first_failure_witness :
  let t := events (run demo.handler (Execute demo.leader) tt) in
  t !! 11%nat = Some (event (Backend_DeletePeer "peer-7") (Some demo.refused))
  /\ drop 12 t <> []
  /\ Forall (fun ev : Event => isDeletePeer (projT1 ev) = true) (drop 12 t).
Proof.
  intros t.
  assert (E : events (run demo.handler (Execute demo.leader) tt)
              = take 11 t
                  ++ event (Backend_DeletePeer "peer-7") (Some demo.refused)
                  :: drop 12 t) by reflexivity.
  assert (Hbad : tolerated (event (Backend_DeletePeer "peer-7") (Some demo.refused))
                 = false) by reflexivity.
  split; [reflexivity|]. split; [discriminate|].
  exact (Execute_stops_at_the_first_failure demo.handler demo.leader tt _ _ _ E Hbad).
Defined.

(** A label update answered with the error of a missing file does not
    make [Execute] fail. *)
Lemma Execute_reports_every_failure_witness :
  Exists (fun c => c.2 = Some sample.osNotExist)
    (labelCalls (events (run sample.filesGone (Execute demo.leader) tt)))
  /\ result (run sample.filesGone (Execute demo.leader) tt) = Returned None.
Proof.
  split.
  - assert (E : labelCalls (events (run sample.filesGone (Execute demo.leader) tt))
                !! 1%nat
                = Some (mkLabelUpdate (mkLocator "example.com" "planet-secrets" "7.0.0")
                          InstalledLabels [], Some sample.osNotExist)) by reflexivity.
    apply Exists_exists.
    exists (mkLabelUpdate (mkLocator "example.com" "planet-secrets" "7.0.0")
              InstalledLabels [], Some sample.osNotExist).
    split; [|reflexivity].
    apply (list_elem_of_lookup_2 _ 1%nat). exact E.
  - apply (Execute_reports_every_failure sample.filesGone demo.leader tt).
    reflexivity.
Defined.

End PhaseWitnesses.
